(** * MT5 API: a shallow embedding of the client SDK and of the two servers

    The development follows the layout of the repository:

    - [Py]       the fragments of Python's built-in behaviour the code relies on
                 (truthiness, [str.strip], [str.upper], [str.split],
                 [str.startswith], [round], exceptions);
    - [Monolith] [server/app.py];
    - [Layered]  [server/src/...] (entities, DTO validators, use cases, middleware);
    - [Client]   [client/mt5_client/...] (entities, DTOs, adapters, use cases).

    Numbers.  A [Decimal] is represented by the rational number it denotes
    ([Qc], canonical rationals, so that equal values are equal terms); a
    Python float by the decimal it prints as, whose nearest double
    ([Py.double]) is the float itself.  Comparisons of finite decimals are
    exact in Python and so is the model.  Float arithmetic rounds every
    result to the nearest double and [Decimal] arithmetic to 28 significant
    digits ([Py.double], [Py.decimal28]).  Infinities and NaN are not
    represented: a statement on the value of a computation assumes that no
    operation exceeds the range of the finite doubles ([Py.isfinite]).
    Strings are sequences of characters with code points
    below 256; case conversion is the ASCII one, which is Python's on ASCII
    text ([Py.isascii]). *)

From Stdlib Require Import ZArith QArith Qcanon Qcabs Ascii String List Lia Lqa.
From stdpp Require Import base option list strings pretty gmap.

Local Open Scope string_scope.
Local Open Scope Z_scope.

(* ===================================================================== *)
(** * Python built-ins *)
(* ===================================================================== *)

Module Py.

(** ** Exceptions

    Only the class of the exception and its message matter to the code
    under study. *)
Inductive exn : Type :=
| ValueError (msg : string)
| TypeError (msg : string)
| RuntimeError (msg : string)
| InvalidOperation (msg : string)
| TimeoutError
| ClientError (msg : string)
| Exception (msg : string).

(** [str(e)] for an exception. *)
Definition str_exn (e : exn) : string :=
  match e with
  | ValueError m | TypeError m | RuntimeError m | InvalidOperation m
  | ClientError m | Exception m => m
  | TimeoutError => ""
  end.

(** A computation that returns a value or raises. *)
Inductive result (A : Type) : Type :=
| Ok (a : A)
| Raise (e : exn).
Arguments Ok {A} a.
Arguments Raise {A} e.

#[global] Instance result_ret : MRet result := fun A a => Ok a.
#[global] Instance result_bind : MBind result := fun A B k m =>
  match m with
  | Ok a => k a
  | Raise e => Raise e
  end.

(** [try: m except Exception as e: h e] *)
Definition try_except {A} (m : result A) (h : exn -> result A) : result A :=
  match m with
  | Ok a => Ok a
  | Raise e => h e
  end.

(** [if c: raise e] *)
Definition raise_if (c : bool) (e : exn) : result unit :=
  if c then Raise e else Ok tt.

Definition is_ok {A} (m : result A) : bool :=
  match m with Ok _ => true | Raise _ => false end.

(** ** Strings *)

(** Truthiness of a [str]: the empty string is falsy. *)
Definition truthy_str (s : string) : bool :=
  match s with
  | EmptyString => false
  | String _ _ => true
  end.

(** Truthiness of an [Optional[str]]: [None] and [""] are falsy. *)
Definition truthy_opt_str (o : option string) : bool :=
  match o with
  | None => false
  | Some s => truthy_str s
  end.

(** [a or b] on optional strings: [a] when it is truthy, else [b]. *)
Definition or_opt_str (a b : option string) : option string :=
  if truthy_opt_str a then a else b.

(** [s.startswith(p)] *)
Definition startswith (s p : string) : bool := String.prefix p s.

(** [any(f(x) for x in l)] *)
Definition any {A} (f : A -> bool) (l : list A) : bool := existsb f l.

(** [c.isspace()] on the code points below 256. *)
Definition isspace (c : ascii) : bool :=
  let n := N_of_ascii c in
  (((9 <=? n) && (n <=? 13)) || ((28 <=? n) && (n <=? 32))
   || (n =? 133) || (n =? 160))%N.

(** [s.lstrip(chars)], the characters to remove given as a predicate. *)
Fixpoint lstrip_by (p : ascii -> bool) (s : string) : string :=
  match s with
  | EmptyString => EmptyString
  | String c s' => if p c then lstrip_by p s' else s
  end.

(** [s.rstrip(chars)]: a character is kept when it is not to be removed
    or when something remains after it. *)
Fixpoint rstrip_by (p : ascii -> bool) (s : string) : string :=
  match s with
  | EmptyString => EmptyString
  | String c s' =>
      match rstrip_by p s' with
      | EmptyString => if p c then EmptyString else String c EmptyString
      | r => String c r
      end
  end.

Definition strip_by (p : ascii -> bool) (s : string) : string :=
  rstrip_by p (lstrip_by p s).

(** [s.strip()] removes white space at both ends. *)
Definition strip (s : string) : string := strip_by isspace s.

Definition upper_char (c : ascii) : ascii :=
  let n := N_of_ascii c in
  if ((97 <=? n) && (n <=? 122))%N then ascii_of_N (n - 32) else c.

Definition lower_char (c : ascii) : ascii :=
  let n := N_of_ascii c in
  if ((65 <=? n) && (n <=? 90))%N then ascii_of_N (n + 32) else c.

Fixpoint map_string (f : ascii -> ascii) (s : string) : string :=
  match s with
  | EmptyString => EmptyString
  | String c s' => String (f c) (map_string f s')
  end.

(** [s.upper()] and [s.lower()], as they act on a string of ASCII
    characters ([isascii]): a theorem that fixes the converted text assumes
    such a string. *)
Definition upper (s : string) : string := map_string upper_char s.
Definition lower (s : string) : string := map_string lower_char s.

(** [s.split(sep)] for a one-character separator: always at least one
    piece, empty pieces are kept. *)
Fixpoint split (sep : ascii) (s : string) : list string :=
  match s with
  | EmptyString => [EmptyString]
  | String c s' =>
      if Ascii.eqb c sep then EmptyString :: split sep s'
      else match split sep s' with
           | h :: t => String c h :: t
           | [] => [String c EmptyString]
           end
  end.

(** ** Numbers *)

Definition Qc_leb (x y : Qc) : bool := bool_decide (x <= y)%Qc.
Definition Qc_ltb (x y : Qc) : bool := bool_decide (x < y)%Qc.
Definition Qc_eqb (x y : Qc) : bool := bool_decide (x = y).

Definition Qc_of_Z (z : Z) : Qc := Q2Qc (inject_Z z).

(** Decimal literal [n / 10^k], e.g. [dec 11050 4] is 1.1050. *)
Definition dec (n : Z) (k : nat) : Qc := Q2Qc (n # Pos.of_nat (10 ^ k)).

Definition max_ (x y : Qc) : Qc := if Qc_ltb x y then y else x.
Definition min_ (x y : Qc) : Qc := if Qc_ltb y x then y else x.

(** Nearest integer, ties to the even one. *)
Definition round_half_even (x : Qc) : Z :=
  let n := Qnum x in
  let d := Zpos (Qden x) in
  let f := n / d in
  let r := n mod d in
  match 2 * r ?= d with
  | Lt => f
  | Gt => f + 1
  | Eq => if Z.even f then f else f + 1
  end.

(** [round(x, ndigits)] for the float whose exact value is [x]: Python
    rounds the exact value half-even to [ndigits] decimals and returns the
    double nearest to that decimal; the decimal itself stands for the result
    (it is what the result prints as, up to 15 significant digits). *)
Definition round (x : Qc) (ndigits : nat) : Qc :=
  let p := Qc_of_Z (10 ^ Z.of_nat ndigits) in
  (Qc_of_Z (round_half_even (x * p)) / p)%Qc.

(** *** Rounding to a floating-point format *)

(** [b ^ e] for an integer exponent of either sign. *)
Definition Qc_pow (b e : Z) : Qc :=
  if 0 <=? e then Qc_of_Z (b ^ e) else (/ Qc_of_Z (b ^ (- e)))%Qc.

(** The search for the exponent [e] with [b^e <= x < b^(e+1)], upwards
    from a lower bound. *)
Fixpoint ilog_from (fuel : nat) (b : Z) (x : Qc) (e : Z) : Z :=
  match fuel with
  | O => e
  | S fuel' =>
      if Qc_leb (Qc_pow b (e + 1)) x then ilog_from fuel' b x (e + 1) else e
  end.

(** For [x > 0] and [b >= 2]: [b^e <= x < b^(e+1)].  With [x = n/d] the
    search starts below [1/d] and needs at most [log2 n + log2 d + 1]
    steps. *)
Definition ilog (b : Z) (x : Qc) : Z :=
  let n := Qnum x in
  let d := Zpos (Qden x) in
  ilog_from (Z.to_nat (Z.log2 n + Z.log2 d + 2)) b x (- (Z.log2 d + 1)).

(** [x] rounded to [prec] significant digits in base [b], ties to even,
    the exponent of the last digit not below [emin]. *)
Definition round_sig (b prec emin : Z) (x : Qc) : Qc :=
  if Qc_eqb x 0%Qc then 0%Qc
  else
    let e := Z.max (ilog b (Qcabs x) + 1 - prec) emin in
    (Qc_of_Z (round_half_even (x / Qc_pow b e)) * Qc_pow b e)%Qc.

(** The IEEE 754 double nearest to [x] (53 bits, smallest exponent -1074,
    ties to even): the value of [float(x)] and of the result of a float
    operation whose exact result is [x]. *)
Definition double (x : Qc) : Qc := round_sig 2 53 (-1074) x.

(** The result of a [Decimal] operation whose exact result is [x], in the
    default context: 28 significant digits, [ROUND_HALF_EVEN], smallest
    exponent -1000026. *)
Definition decimal28 (x : Qc) : Qc := round_sig 10 28 (-1000026) x.


(** ** Dynamically typed values

    The scalar values a decoded JSON document, or a dictionary built by the
    code, holds. *)
Inductive value : Type :=
| VNone
| VBool (b : bool)
| VInt (z : Z)
| VFloat (q : Qc)
| VStr (s : string).

(** [bool(v)] *)
Definition truthy (v : value) : bool :=
  match v with
  | VNone => false
  | VBool b => b
  | VInt z => negb (z =? 0)
  | VFloat q => negb (Qc_eqb q 0%Qc)
  | VStr s => truthy_str s
  end.

(** [v < n] for an integer [n]: numbers compare (a [bool] counts as 0 or
    1), anything else raises [TypeError]. *)
Definition lt_int (v : value) (n : Z) : result bool :=
  match v with
  | VInt z => Ok (z <? n)
  | VBool b => Ok ((if b then 1 else 0) <? n)
  | VFloat q => Ok (Qc_ltb q (Qc_of_Z n))
  | VNone | VStr _ => Raise (TypeError "'<' not supported")
  end.

(** A [dict] with string keys. *)
Abbreviation dict := (gmap string value).

(** [d.get(k, default)] *)
Definition get (d : dict) (k : string) (default : value) : value :=
  match d !! k with
  | Some v => v
  | None => default
  end.

(** ** Further string and list operations *)

(** Every character of [s] satisfies [p]. *)
Fixpoint all_of (p : ascii -> bool) (s : string) : bool :=
  match s with
  | EmptyString => true
  | String c s' => p c && all_of p s'
  end.

(** [c.isalpha()] on the code points below 256: the ASCII letters and the
    letters of Latin-1. *)
Definition isalpha_char (c : ascii) : bool :=
  let n := N_of_ascii c in
  (((65 <=? n) && (n <=? 90)) || ((97 <=? n) && (n <=? 122))
   || (n =? 170) || (n =? 181) || (n =? 186)
   || ((192 <=? n) && (n <=? 214)) || ((216 <=? n) && (n <=? 246))
   || ((248 <=? n) && (n <=? 255)))%N.

(** [s.isalpha()]: at least one character, and all alphabetic. *)
Definition isalpha (s : string) : bool := truthy_str s && all_of isalpha_char s.

(** [sub in s] *)
Fixpoint contains (sub s : string) : bool :=
  String.prefix sub s
  || match s with
     | EmptyString => false
     | String _ s' => contains sub s'
     end.


(** [[f(x) for x in l]] when [f] may raise: the first exception ends the
    comprehension. *)
Fixpoint map_result {A B} (f : A -> result B) (l : list A) : result (list B) :=
  match l with
  | [] => Ok []
  | x :: l' =>
      match f x with
      | Ok y =>
          match map_result f l' with
          | Ok ys => Ok (y :: ys)
          | Raise e => Raise e
          end
      | Raise e => Raise e
      end
  end.

(** [l[:n]]: the first [n] elements, and for a negative [n] all but the
    last [-n]. *)
Definition slice_to {A} (n : Z) (l : list A) : list A :=
  if 0 <=? n then take (Z.to_nat n) l
  else take (length l - Z.to_nat (- n)) l.

End Py.


(* ===================================================================== *)
(** * The monolithic server, [server/app.py] *)
(* ===================================================================== *)

Module Monolith.
Import Py.

(** ** Configuration *)

(** The process environment, [os.environ]. *)
Abbreviation environ := (gmap string string).

(** [os.getenv(k)] *)
Definition getenv (env : environ) (k : string) : option string := env !! k.

(** [os.getenv(k, default)] *)
Definition getenv_default (env : environ) (k default : string) : string :=
  match env !! k with
  | Some v => v
  | None => default
  end.

Definition DEFAULT_API_KEY : string :=
  "cb9c4299c9ac5437d74c22fad0314cc16e3615c4c802855fdc1287eb69dd57b4".

(** The first binding of [API_KEYS]: a list whose elements are a string
    and a list of strings. *)
Definition API_KEYS_nested (env : environ) : list (string + list string) :=
  [ inl DEFAULT_API_KEY;
    inr (if truthy_opt_str (getenv env "API_KEYS")
         then split "," (getenv_default env "API_KEYS" "")
         else []) ].

(** The second binding flattens the first and drops the falsy keys:
    [[key for sublist in API_KEYS
          for key in (sublist if isinstance(sublist, list) else [sublist])
          if key]]. *)
Definition API_KEYS (env : environ) : list string :=
  flat_map
    (fun sublist =>
       filter (fun key => truthy_str key = true)
              (match sublist with
               | inr l => l
               | inl k => [k]
               end))
    (API_KEYS_nested env).

(** ** Requests and responses *)

(** Header names are case-insensitive: the table is keyed by the
    lower-cased name and [headers.get] lower-cases its argument. *)
Record Request := {
  url_path : string;
  headers : gmap string string
}.

Definition headers_get (r : Request) (name : string) : option string :=
  headers r !! lower name.

Record Response := {
  status_code : Z;
  content : list (string * value);
  response_headers : list (string * string)
}.

Definition JSONResponse (status : Z) (body : list (string * value)) : Response :=
  {| status_code := status; content := body; response_headers := [] |}.

Definition set_header (r : Response) (k v : string) : Response :=
  {| status_code := status_code r;
     content := content r;
     response_headers := response_headers r ++ [(k, v)] |}.

(** ** [auth_middleware] *)

Definition public_paths : list string := ["/"; "/health"].
Definition docs_paths : list string := ["/docs"; "/redoc"; "/openapi.json"].

(** The five [return] statements of the middleware, in source order. *)
Inductive exit_point : Type :=
| ReturnPublic
| ReturnDocs
| ReturnNoKeys
| Return401
| ReturnAuthenticated.

(** [not API_KEYS or len(API_KEYS) == 0] *)
Definition keys_empty (keys : list string) : bool :=
  match keys with [] => true | _ => false end || (length keys =? 0)%nat.

(** [api_key not in API_KEYS] *)
Definition not_in (api_key : string) (keys : list string) : bool :=
  negb (bool_decide (api_key ∈ keys)).

(** The control flow of [auth_middleware]: which [return] is reached. *)
Definition auth_middleware_exit (keys : list string) (request : Request)
  : exit_point :=
  if any (fun path => startswith (url_path request) path) public_paths then
    ReturnPublic
  else if any (fun path => startswith (url_path request) path) docs_paths then
    ReturnDocs
  else if keys_empty keys then
    ReturnNoKeys
  else
    let api_key :=
      or_opt_str (headers_get request "AcessKey")
                 (headers_get request "Authorization") in
    if negb (truthy_opt_str api_key)
       || not_in (default "" api_key) keys
    then Return401
    else ReturnAuthenticated.

(** The response built at each exit.  [call_next] is the rest of the
    application and [process_time] the rendered elapsed time. *)
Definition auth_middleware (keys : list string)
    (call_next : Request -> Response) (process_time : string)
    (request : Request) : Response :=
  match auth_middleware_exit keys request with
  | ReturnPublic | ReturnDocs | ReturnNoKeys => call_next request
  | Return401 =>
      JSONResponse 401
        [ ("error", VStr "API key inválida ou não fornecida");
          ("ok", VBool false);
          ("hint", VStr "Use header 'AcessKey' com uma chave válida") ]
  | ReturnAuthenticated =>
      set_header (call_next request) "X-Process-Time" process_time
  end.

(** ** Market data helpers *)

(** One row of the terminal's rate array, by position: time (epoch
    seconds), open, high, low, close and three further columns. *)
Record rate := {
  rate_0 : Z;
  rate_1 : Qc;
  rate_2 : Qc;
  rate_3 : Qc;
  rate_4 : Qc;
  rate_5 : Z;
  rate_6 : Z;
  rate_7 : Z
}.

(** The trading-terminal module as the helpers use it.  A call may raise;
    [copy_rates_from_pos] returns [None] or an array of rows. *)
Record mt5_module := {
  TIMEFRAME_M1 : Z;
  TIMEFRAME_M5 : Z;
  TIMEFRAME_M15 : Z;
  TIMEFRAME_M30 : Z;
  TIMEFRAME_H1 : Z;
  TIMEFRAME_H4 : Z;
  TIMEFRAME_D1 : Z;
  copy_rates_from_pos : string -> Z -> Z -> Z -> result (option (list rate));
  (** [datetime.fromtimestamp(t).strftime("%Y-%m-%d %H:%M:%S")]; it
      raises for a time outside the range of the platform. *)
  strftime : Z -> result string
}.

(** The module-level flags [MT5_AVAILABLE] and [mt5_connected]. *)
Record globals := {
  MT5_AVAILABLE : bool;
  mt5_connected : bool
}.

(** A candle as the helpers return it (a dictionary with these six keys). *)
Record candle := {
  c_time : string;
  c_open : Qc;
  c_high : Qc;
  c_low : Qc;
  c_close : Qc;
  c_volume : Z
}.

Definition simulated_candle : candle :=
  {| c_time := "2024-01-01 12:00:00";
     c_open := dec 11000 4;
     c_high := dec 11050 4;
     c_low := dec 10950 4;
     c_close := dec 11020 4;
     c_volume := 1000 |}.

Definition timeframe_map (mt5 : mt5_module) : gmap Z Z :=
  <[1 := TIMEFRAME_M1 mt5]>
  (<[5 := TIMEFRAME_M5 mt5]>
  (<[15 := TIMEFRAME_M15 mt5]>
  (<[30 := TIMEFRAME_M30 mt5]>
  (<[16385 := TIMEFRAME_H1 mt5]>
  (<[16388 := TIMEFRAME_H4 mt5]>
  (<[16408 := TIMEFRAME_D1 mt5]> ∅)))))).

Definition candle_of_rate (mt5 : mt5_module) (r : rate) : result candle :=
  time ← strftime mt5 (rate_0 r);
  mret {| c_time := time;
          c_open := rate_1 r;
          c_high := rate_2 r;
          c_low := rate_3 r;
          c_close := rate_4 r;
          c_volume := rate_7 r |}.

(** [get_tickers_by_count]: simulated data when the terminal is not
    connected; otherwise the converted rows, and the empty list when the
    terminal returns nothing, or when the terminal or the conversion of a
    row raises (the exception is printed and swallowed). *)
Definition get_tickers_by_count (g : globals) (mt5 : mt5_module)
    (symbol : string) (timeframe count : Z) : list candle :=
  if negb (MT5_AVAILABLE g) || negb (mt5_connected g) then
    [simulated_candle]
  else
    let mt5_timeframe :=
      default (TIMEFRAME_M1 mt5) (timeframe_map mt5 !! timeframe) in
    match copy_rates_from_pos mt5 symbol mt5_timeframe 0 count with
    | Ok (Some rates) =>
        if (0 <? length rates)%nat then
          match map_result (candle_of_rate mt5) rates with
          | Ok candles => candles
          | Raise _ => []
          end
        else []
    | Ok None => []
    | Raise _ => []
    end.

(** ** [POST /GetSymbolsPctChange/] *)

Record SymbolsPctChangeRequest := {
  actives : list string;
  timeframe : Z
}.

(** An element of the [symbols] list of the answer; [error] is the
    optional third key. *)
Record pct_entry := {
  symbol : string;
  pct_change : Qc;
  error : option string
}.

(** The arithmetic of the loop body, before [round]: the closes are
    floats and every operation rounds to the nearest double, as long as no
    operation overflows ([isfinite]). *)
Definition pct_change_of (tickers : list candle) : Qc :=
  if (2 <=? length tickers)%nat then
    match tickers !! 0%nat, tickers !! 1%nat with
    | Some t0, Some t1 =>
        let prev_close := double (c_close t0) in
        let curr_close := double (c_close t1) in
        if Qc_ltb 0%Qc prev_close then
          double (double (double (curr_close - prev_close) / prev_close)
                  * Qc_of_Z 100)%Qc
        else 0%Qc
    | _, _ => 0%Qc
    end
  else 0%Qc.

(** The body of the [for symbol in actives] loop: the inner [try] and its
    handler.  [fetch] is the outcome of the call that obtains the two
    candles. *)
Definition symbol_pct_change (fetch : result (list candle)) (sym : string)
  : pct_entry :=
  match fetch with
  | Ok tickers =>
      {| symbol := sym;
         pct_change := round (pct_change_of tickers) 4;
         error := None |}
  | Raise e =>
      {| symbol := sym; pct_change := 0%Qc; error := Some (str_exn e) |}
  end.

Record pct_answer := {
  OK : bool;
  symbols : list pct_entry;
  count : nat
}.

Definition get_symbols_pct_change (g : globals) (mt5 : mt5_module)
    (request : SymbolsPctChangeRequest) : pct_answer :=
  let results :=
    foldl (fun results sym =>
             (results ++
              [symbol_pct_change
                 (Ok (get_tickers_by_count g mt5 sym (timeframe request) 2))
                 sym])%list)
          [] (actives request) in
  {| OK := true; symbols := results; count := length results |}.

(** ** Further endpoints and helpers *)

(** [GET /health]; [timestamp] is [datetime.now().isoformat()]. *)
Definition health (g : globals) (timestamp : string) : dict :=
  <["status" := VStr "healthy"]>
  (<["mt5_connection" :=
       VStr (if mt5_connected g then "connected" else "disconnected")]>
  (<["mt5_available" := VBool (MT5_AVAILABLE g)]>
  (<["timestamp" := VStr timestamp]> ∅))).

(** The dictionary a [pct_entry] stands for: the key [error] is present
    only in the entries built by the handler. *)
Definition entry_dict (e : pct_entry) : dict :=
  let d := <["symbol" := VStr (symbol e)]>
           (<["pct_change" := VFloat (pct_change e)]> ∅) in
  match error e with
  | Some msg => <["error" := VStr msg]> d
  | None => d
  end.

(** The dictionary a [candle] stands for. *)
Definition candle_dict (c : candle) : dict :=
  <["time" := VStr (c_time c)]>
  (<["open" := VFloat (c_open c)]>
  (<["high" := VFloat (c_high c)]>
  (<["low" := VFloat (c_low c)]>
  (<["close" := VFloat (c_close c)]>
  (<["volume" := VInt (c_volume c)]> ∅))))).

End Monolith.

(* ===================================================================== *)
(** * The layered server, [server/src] *)
(* ===================================================================== *)

Module Layered.
Import Py.

(** ** Domain entities, [domain/entities] *)

Inductive TimeFrame : Type := M1 | M5 | M15 | M30 | H1 | H4 | D1 | W1 | MN1.

Inductive OrderType : Type := BUY | SELL.

Inductive TradeMode : Type := DISABLED | LONG_ONLY | SHORT_ONLY | CLOSE_ONLY | FULL.

Record Symbol := {
  name : string;
  description : string;
  currency_base : string;
  currency_profit : string;
  currency_margin : string;
  digits : Z;
  point : Qc;
  volume_min : Qc;
  volume_max : Qc;
  volume_step : Qc;
  trade_mode : TradeMode;
  margin_initial : Qc;
  margin_maintenance : Qc
}.

Record Ticker := {
  symbol : string;
  timeframe : TimeFrame;
  timestamp : Z;
  open_price : Qc;
  high_price : Qc;
  low_price : Qc;
  close_price : Qc;
  volume : Z
}.

(** [Ticker.__post_init__] *)
Definition Ticker_post_init (self : Ticker) : result unit :=
  raise_if (negb (truthy_str (symbol self)))
    (ValueError "Symbol cannot be empty");;
  raise_if (Qc_ltb (high_price self) (max_ (open_price self) (close_price self)))
    (ValueError "High price must be >= open and close prices");;
  raise_if (Qc_ltb (min_ (open_price self) (close_price self)) (low_price self))
    (ValueError "Low price must be <= open and close prices");;
  raise_if (volume self <? 0)
    (ValueError "Volume must be non-negative");;
  mret tt.

(** Construction of a [Ticker]: the generated [__init__] stores the
    fields and runs [__post_init__]. *)
Definition new_Ticker (symbol : string) (timeframe : TimeFrame) (timestamp : Z)
    (open_price high_price low_price close_price : Qc) (volume : Z)
  : result Ticker :=
  let self :=
    {| symbol := symbol; timeframe := timeframe; timestamp := timestamp;
       open_price := open_price; high_price := high_price;
       low_price := low_price; close_price := close_price;
       volume := volume |} in
  Ticker_post_init self;; mret self.

Record TradeRequest := {
  tr_symbol : string;
  tr_volume : Qc;
  order_type : OrderType;
  price : option Qc;
  stop_loss : option Qc;
  take_profit : option Qc;
  deviation : Z;
  comment : string;
  magic_number : Z
}.

(** Truthiness of an [Optional[Decimal]]: [None] and zero are falsy. *)
Definition truthy_opt_Decimal (o : option Qc) : bool :=
  match o with
  | None => false
  | Some d => negb (Qc_eqb d 0%Qc)
  end.

(** [TradeRequest.validate] *)
Definition validate (self : TradeRequest) : result unit :=
  raise_if (negb (truthy_str (tr_symbol self)))
    (ValueError "Symbol cannot be empty");;
  raise_if (Qc_leb (tr_volume self) 0%Qc)
    (ValueError "Volume must be positive");;
  raise_if (deviation self <? 0)
    (ValueError "Deviation must be non-negative");;
  if truthy_opt_Decimal (price self) && truthy_opt_Decimal (stop_loss self)
     && truthy_opt_Decimal (take_profit self)
  then
    match price self, stop_loss self, take_profit self with
    | Some p, Some sl, Some tp =>
        match order_type self with
        | BUY =>
            raise_if (Qc_leb p sl)
              (ValueError "Stop loss must be below entry price for BUY orders");;
            raise_if (Qc_leb tp p)
              (ValueError "Take profit must be above entry price for BUY orders");;
            mret tt
        | SELL =>
            raise_if (Qc_leb sl p)
              (ValueError "Stop loss must be above entry price for SELL orders");;
            raise_if (Qc_leb p tp)
              (ValueError "Take profit must be below entry price for SELL orders");;
            mret tt
        end
    | _, _, _ => mret tt
    end
  else mret tt.

(** ** Request models, [application/dtos] *)

(** [GetSymbolsPercentChangeRequest.validate_symbol_list] *)
Definition validate_symbol_list (v : list string) : result (list string) :=
  raise_if (match v with [] => true | _ => false end)
    (ValueError "Symbol list cannot be empty");;
  mret (map (fun symbol => upper (strip symbol))
            (filter (fun symbol => truthy_str (strip symbol) = true) v)).

(** ** Use cases, [application/use_cases] *)

(** The two repositories the use case is built from.  Every call may
    raise. *)
Record ISymbolRepository := {
  get_all_symbols : result (list Symbol)
}.

Record IMarketDataRepository := {
  get_tickers_by_count : string -> TimeFrame -> Z -> result (list Ticker)
}.

(** An element of the result list: [symbol] and [pct_change] are always
    present, [symbol_info] and [error] are the optional keys. *)
Record pct_entry := {
  e_symbol : string;
  e_pct_change : Qc;
  e_symbol_info : option Symbol;
  e_error : option string
}.

(** [{s.name: s for s in all_symbols}]: a later symbol replaces an
    earlier one of the same name. *)
Definition symbol_dict_of (all_symbols : list Symbol) : gmap string Symbol :=
  foldl (fun d s => <[name s := s]> d) ∅ all_symbols.

(** The arithmetic on the candles, before [round]: the closes are
    [Decimal]s, every operation rounds to 28 significant digits, and [float]
    takes the result to the nearest double, as long as the results stay in
    the range of the finite doubles ([isfinite]). *)
Definition pct_change_of (tickers : list Ticker) : Qc :=
  if (2 <=? length tickers)%nat then
    match tickers !! 0%nat, tickers !! 1%nat with
    | Some t0, Some t1 =>
        let previous_close := close_price t0 in
        let current_close := close_price t1 in
        if Qc_ltb 0%Qc previous_close then
          double (decimal28 (decimal28 (decimal28 (current_close - previous_close)
                                        / previous_close)
                             * Qc_of_Z 100))%Qc
        else 0%Qc
    | _, _ => 0%Qc
    end
  else 0%Qc.

(** The body of [for symbol_name in symbols]: one entry per symbol. *)
Definition symbol_entry (market_data_repository : IMarketDataRepository)
    (symbol_dict : gmap string Symbol) (timeframe : TimeFrame)
    (symbol_name : string) : pct_entry :=
  let symbol_name := upper (strip symbol_name) in
  match symbol_dict !! symbol_name with
  | None =>
      {| e_symbol := symbol_name; e_pct_change := 0%Qc;
         e_symbol_info := None; e_error := Some "Symbol not found" |}
  | Some info =>
      match get_tickers_by_count market_data_repository symbol_name timeframe 2 with
      | Ok tickers =>
          {| e_symbol := symbol_name;
             e_pct_change := round (pct_change_of tickers) 4;
             e_symbol_info := Some info; e_error := None |}
      | Raise e =>
          {| e_symbol := symbol_name; e_pct_change := 0%Qc;
             e_symbol_info := None;
             e_error := Some ("Failed to calculate change: " ++ str_exn e) |}
      end
  end.

(** [GetSymbolsPercentChangeUseCase.execute] *)
Definition execute (symbol_repository : ISymbolRepository)
    (market_data_repository : IMarketDataRepository)
    (symbols : list string) (timeframe : TimeFrame)
  : result (list pct_entry) :=
  raise_if (match symbols with [] => true | _ => false end)
    (ValueError "Symbols list cannot be empty");;
  raise_if (1000 <? length symbols)%nat
    (ValueError "Cannot process more than 1000 symbols for performance reasons");;
  try_except
    (all_symbols ← get_all_symbols symbol_repository;
     let symbol_dict := symbol_dict_of all_symbols in
     mret (foldl (fun results symbol_name =>
                    (results ++
                     [symbol_entry market_data_repository symbol_dict
                                   timeframe symbol_name])%list)
                 [] symbols))
    (fun e =>
       Raise (RuntimeError ("Failed to calculate percent changes: " ++ str_exn e))).

(** ** Configuration and authentication, [infrastructure/adapters/config_adapter] *)

Abbreviation environ := (gmap string string).

(** [EnvironmentConfigurationService.get_api_keys] *)
Definition get_api_keys (env : environ) : list string :=
  let default_keys :=
    ["cb9c4299c9ac5437d74c22fad0314cc16e3615c4c802855fdc1287eb69dd57b4"] in
  let env_keys := default "" (env !! "API_KEYS") in
  if truthy_str env_keys then
    (default_keys ++ map strip (split "," env_keys))%list
  else default_keys.

(** [SimpleAuthenticationService.validate_api_key] *)
Definition validate_api_key (env : environ) (api_key : string) : bool :=
  if negb (truthy_str api_key) then false
  else bool_decide (api_key ∈ (list_to_set (get_api_keys env) : gset string)).

(** [SimpleAuthenticationService.get_user_permissions] *)
Definition get_user_permissions (env : environ) (api_key : string) : list string :=
  if negb (validate_api_key env api_key) then []
  else ["read:symbols"; "read:market_data"; "read:account";
        "trade:open_position"; "trade:close_position"; "trade:modify_position"].

(** ** [AuthenticationMiddleware], [presentation/middleware] *)

Record Request := {
  url_path : string;
  headers : gmap string string;
  state_user_permissions : option (list string);
  state_api_key : option string
}.

Definition headers_get (r : Request) (header : string) : option string :=
  headers r !! lower header.

Record Response := {
  status_code : Z;
  content : list (string * value);
  response_headers : list (string * string)
}.

Definition JSONResponse (status : Z) (body : list (string * value)) : Response :=
  {| status_code := status; content := body; response_headers := [] |}.

Definition set_header (r : Response) (k v : string) : Response :=
  {| status_code := status_code r;
     content := content r;
     response_headers := (response_headers r ++ [(k, v)])%list |}.

Definition _public_endpoints : list string :=
  ["/docs"; "/redoc"; "/openapi.json"; "/health"; "/"].

(** [api_key[7:]] *)
Definition drop7 (s : string) : string := String.substring 7 (String.length s - 7) s.

(** [AuthenticationMiddleware.dispatch] *)
Definition dispatch (env : environ) (call_next : Request -> Response)
    (process_time : string) (request : Request) : Response :=
  if any (fun endpoint => startswith (url_path request) endpoint) _public_endpoints
  then call_next request
  else
    let api_key :=
      or_opt_str (headers_get request "AcessKey")
                 (headers_get request "Authorization") in
    if negb (truthy_opt_str api_key) then
      JSONResponse 401
        [("detail", VStr "API key required"); ("error_code", VStr "MISSING_API_KEY")]
    else
      let api_key := default "" api_key in
      let api_key := if startswith api_key "Bearer " then drop7 api_key else api_key in
      if negb (validate_api_key env api_key) then
        JSONResponse 401
          [("detail", VStr "Invalid API key"); ("error_code", VStr "INVALID_API_KEY")]
      else
        let request :=
          {| url_path := url_path request; headers := headers request;
             state_user_permissions := Some (get_user_permissions env api_key);
             state_api_key := Some api_key |} in
        set_header (call_next request) "X-Process-Time" process_time.

(** ** Further entity methods and enumerations, [domain/entities] *)

(** [Symbol.__post_init__] *)
Definition Symbol_post_init (self : Symbol) : result unit :=
  raise_if (negb (truthy_str (name self)))
    (ValueError "Symbol name cannot be empty");;
  raise_if (digits self <? 0)
    (ValueError "Digits must be non-negative");;
  raise_if (Qc_leb (volume_min self) 0%Qc)
    (ValueError "Minimum volume must be positive");;
  raise_if (Qc_ltb (volume_max self) (volume_min self))
    (ValueError "Maximum volume must be greater than minimum volume");;
  mret tt.

(** Construction of a [Symbol]: the fields are stored and
    [__post_init__] runs. *)
Definition new_Symbol (self : Symbol) : result Symbol :=
  Symbol_post_init self;; mret self.

(** [Ticker.get_price_change_percent] *)
Definition get_price_change_percent (self : Ticker) : Qc :=
  if Qc_eqb (open_price self) 0%Qc then 0%Qc
  else (((close_price self - open_price self) / open_price self)
        * Qc_of_Z 100)%Qc.

#[global] Instance TimeFrame_eq_dec : EqDecision TimeFrame.
Proof. solve_decision. Defined.

#[global] Instance OrderType_eq_dec : EqDecision OrderType.
Proof. solve_decision. Defined.

(** The value of a member of the enumeration [TimeFrame]. *)
Definition TimeFrame_value (tf : TimeFrame) : Z :=
  match tf with
  | M1 => 1
  | M5 => 5
  | M15 => 15
  | M30 => 30
  | H1 => 16385
  | H4 => 16388
  | D1 => 16408
  | W1 => 32769
  | MN1 => 49153
  end.

Definition TimeFrame_members : list TimeFrame :=
  [M1; M5; M15; M30; H1; H4; D1; W1; MN1].

(** [TimeFrame(value)]: the member with that value, [ValueError] when
    there is none. *)
Definition TimeFrame_call (value : Z) : result TimeFrame :=
  match list_find (fun tf => TimeFrame_value tf = value) TimeFrame_members with
  | Some (_, tf) => Ok tf
  | None => Raise (ValueError (pretty value ++ " is not a valid TimeFrame"))
  end.

(** ** Further request models, [application/dtos] *)

Definition valid_timeframes : list Z :=
  [1; 5; 15; 30; 16385; 16388; 16408; 32769; 49153].

(** [validate_timeframe], the same in the three request models that have
    a timeframe. *)
Definition validate_timeframe (v : Z) : result Z :=
  raise_if (negb (bool_decide (v ∈ valid_timeframes)))
    (ValueError
       "Invalid timeframe. Valid values: [1, 5, 15, 30, 16385, 16388, 16408, 32769, 49153]");;
  mret v.

(** [GetSymbolInfoRequest.validate_symbol_name] *)
Definition validate_symbol_name (v : string) : result string :=
  raise_if (negb (truthy_str v) || negb (truthy_str (strip v)))
    (ValueError "Symbol name cannot be empty");;
  mret (upper (strip v)).

(** ** The terminal, [infrastructure/adapters/mt5_adapter] *)

(** A symbol description of the terminal.  The attributes read with
    [getattr(_, _, default)] may be missing; [s_bid] and [s_ask] are the
    quotes the trading service reads.  Numbers are finite. *)
Record mt5_symbol := {
  s_name : string;
  s_description : option string;
  s_currency_base : string;
  s_currency_profit : string;
  s_currency_margin : string;
  s_digits : Z;
  s_point : Qc;
  s_volume_min : Qc;
  s_volume_max : Qc;
  s_volume_step : Qc;
  s_trade_mode : Z;
  s_margin_initial : option Qc;
  s_margin_maintenance : option Qc;
  s_bid : Qc;
  s_ask : Qc
}.

(** A row of the rate array, by the field names the adapter reads; the
    numbers are finite. *)
Record mt5_rate := {
  r_time : Z;
  r_open : Qc;
  r_high : Qc;
  r_low : Qc;
  r_close : Qc;
  r_tick_volume : Z
}.

(** The answer of [order_send].  [o_asdict] is its method [_asdict]:
    missing, or present with the outcome of calling it (the dictionary it
    returns is not used). *)
Record order_result := {
  o_asdict : option (Py.result unit);
  retcode : Z;
  deal : Z;
  order : Z;
  o_volume : Qc;
  o_price : Qc;
  o_bid : Qc;
  o_ask : Qc;
  o_comment : string;
  request_id : Z;
  retcode_external : Z
}.

(** The module [mt5]: its constants and the calls the adapters make.  A
    call may raise and may return [None]. *)
Record mt5_module := {
  TIMEFRAME_M1 : Z;
  TIMEFRAME_M5 : Z;
  TIMEFRAME_M15 : Z;
  TIMEFRAME_M30 : Z;
  TIMEFRAME_H1 : Z;
  TIMEFRAME_H4 : Z;
  TIMEFRAME_D1 : Z;
  TIMEFRAME_W1 : Z;
  TIMEFRAME_MN1 : Z;
  TRADE_ACTION_DEAL : Z;
  ORDER_TYPE_BUY : Z;
  ORDER_TYPE_SELL : Z;
  ORDER_TIME_GTC : Z;
  TRADE_RETCODE_DONE : Z;
  symbols_get : result (option (list mt5_symbol));
  symbol_info : string -> result (option mt5_symbol);
  copy_rates_from_pos : string -> Z -> Z -> Z -> result (option (list mt5_rate));
  order_send : dict -> result (option order_result)
}.

(** [MockMT5], the stand-in used when the package [MetaTrader5] cannot be
    imported.  The [_asdict] of its order answer is a function without
    parameters stored in the class, so calling it on the answer raises
    [TypeError]. *)
Definition MockMT5 : mt5_module :=
  {| TIMEFRAME_M1 := 1;
     TIMEFRAME_M5 := 5;
     TIMEFRAME_M15 := 15;
     TIMEFRAME_M30 := 30;
     TIMEFRAME_H1 := 16385;
     TIMEFRAME_H4 := 16388;
     TIMEFRAME_D1 := 16408;
     TIMEFRAME_W1 := 32769;
     TIMEFRAME_MN1 := 49153;
     TRADE_ACTION_DEAL := 1;
     ORDER_TYPE_BUY := 0;
     ORDER_TYPE_SELL := 1;
     ORDER_TIME_GTC := 0;
     TRADE_RETCODE_DONE := 10009;
     symbols_get := Ok (Some []);
     symbol_info := fun _ => Ok None;
     copy_rates_from_pos := fun _ _ _ _ => Ok None;
     order_send := fun _ =>
       Ok (Some {| o_asdict :=
                     Some (Raise (TypeError
                       "MockMT5.order_send.<locals>.<lambda>() takes 0 positional arguments but 1 was given"));
                   retcode := 10009; deal := 12345; order := 12345;
                   o_volume := dec 1 1; o_price := 1%Qc;
                   o_bid := dec 9999 4; o_ask := dec 10001 4;
                   o_comment := "Mock trade"; request_id := 1;
                   retcode_external := 0 |}) |}.

(** [d.get(k, default)] for a dictionary given by the list of its
    items. *)
Definition items_get {K V} `{EqDecision K} (items : list (K * V)) (k : K)
    (default : V) : V :=
  match list_find (fun kv => kv.1 = k) items with
  | Some (_, kv) => kv.2
  | None => default
  end.

(** *** [MT5SymbolRepository] *)

Definition trade_mode_mapping : list (Z * TradeMode) :=
  [(0, DISABLED); (1, LONG_ONLY); (2, SHORT_ONLY); (3, CLOSE_ONLY); (4, FULL)].

(** [MT5SymbolRepository._convert_mt5_symbol_to_domain] *)
Definition _convert_mt5_symbol_to_domain (mt5_symbol : mt5_symbol)
  : result Symbol :=
  new_Symbol
    {| name := s_name mt5_symbol;
       description := default "" (s_description mt5_symbol);
       currency_base := s_currency_base mt5_symbol;
       currency_profit := s_currency_profit mt5_symbol;
       currency_margin := s_currency_margin mt5_symbol;
       digits := s_digits mt5_symbol;
       point := s_point mt5_symbol;
       volume_min := s_volume_min mt5_symbol;
       volume_max := s_volume_max mt5_symbol;
       volume_step := s_volume_step mt5_symbol;
       trade_mode := items_get trade_mode_mapping (s_trade_mode mt5_symbol)
                       DISABLED;
       margin_initial := default 0%Qc (s_margin_initial mt5_symbol);
       margin_maintenance := default 0%Qc (s_margin_maintenance mt5_symbol) |}.

(** [MT5SymbolRepository.get_all_symbols]: a description that cannot be
    converted is reported on the console and skipped. *)
Definition MT5_get_all_symbols (mt5 : mt5_module) : result (list Symbol) :=
  symbols_data ← symbols_get mt5;
  match symbols_data with
  | None => mret []
  | Some symbols_data =>
      mret (foldl (fun symbols symbol_data =>
                     match _convert_mt5_symbol_to_domain symbol_data with
                     | Ok symbol => (symbols ++ [symbol])%list
                     | Raise _ => symbols
                     end)
                  [] symbols_data)
  end.

(** [MT5SymbolRepository.get_symbol_by_name] *)
Definition MT5_get_symbol_by_name (mt5 : mt5_module) (symbol_name : string)
  : result (option Symbol) :=
  symbol_data ← symbol_info mt5 symbol_name;
  match symbol_data with
  | None => mret None
  | Some symbol_data =>
      match _convert_mt5_symbol_to_domain symbol_data with
      | Ok symbol => mret (Some symbol)
      | Raise _ => mret None
      end
  end.

Definition MT5SymbolRepository (mt5 : mt5_module) : ISymbolRepository :=
  {| get_all_symbols := MT5_get_all_symbols mt5 |}.

(** *** [MT5MarketDataRepository] *)

(** [MT5MarketDataRepository._convert_timeframe_to_mt5] *)
Definition _convert_timeframe_to_mt5 (mt5 : mt5_module) (timeframe : TimeFrame)
  : Z :=
  items_get
    [(M1, TIMEFRAME_M1 mt5); (M5, TIMEFRAME_M5 mt5); (M15, TIMEFRAME_M15 mt5);
     (M30, TIMEFRAME_M30 mt5); (H1, TIMEFRAME_H1 mt5); (H4, TIMEFRAME_H4 mt5);
     (D1, TIMEFRAME_D1 mt5); (W1, TIMEFRAME_W1 mt5); (MN1, TIMEFRAME_MN1 mt5)]
    timeframe (TIMEFRAME_M1 mt5).

(** The candle a row is converted to, when the conversion of the time
    and the construction succeed.  [to_datetime] is
    [pd.to_datetime(_, unit='s')], which raises for a time outside the range
    of its timestamps. *)
Definition ticker_of_rate (to_datetime : Z -> result Z) (symbol : string)
    (timeframe : TimeFrame) (rate : mt5_rate) : result Ticker :=
  timestamp ← to_datetime (r_time rate);
  new_Ticker symbol timeframe timestamp (r_open rate) (r_high rate)
    (r_low rate) (r_close rate) (r_tick_volume rate).

(** [MT5MarketDataRepository._convert_rates_to_tickers]: a row that cannot
    be converted is reported on the console and skipped. *)
Definition _convert_rates_to_tickers (to_datetime : Z -> result Z)
    (rates : list mt5_rate) (symbol : string) (timeframe : TimeFrame)
  : list Ticker :=
  foldl (fun tickers rate =>
           match ticker_of_rate to_datetime symbol timeframe rate with
           | Ok ticker => (tickers ++ [ticker])%list
           | Raise _ => tickers
           end)
        [] rates.



(** *** [MT5TradingService] *)

(** The trading service.  [open_position] is given with its effect on the
    terminal: the list of the orders handed to [mt5.order_send]. *)
Record ITradingService := {
  open_position : TradeRequest -> list dict * result dict;
  close_position : Z -> option Qc -> result dict
}.

(** [MT5TradingService._prepare_mt5_trade_request] *)
Definition _prepare_mt5_trade_request (mt5 : mt5_module)
    (trade_request : TradeRequest) (symbol_info : mt5_symbol) : dict :=
  let price :=
    if bool_decide (order_type trade_request = BUY) then s_ask symbol_info
    else s_bid symbol_info in
  let mt5_order_type :=
    if bool_decide (order_type trade_request = BUY) then ORDER_TYPE_BUY mt5
    else ORDER_TYPE_SELL mt5 in
  let mt5_request : dict :=
    <["action" := VInt (TRADE_ACTION_DEAL mt5)]>
    (<["symbol" := VStr (tr_symbol trade_request)]>
    (<["volume" := VFloat (tr_volume trade_request)]>
    (<["type" := VInt mt5_order_type]>
    (<["price" := VFloat price]>
    (<["deviation" := VInt (deviation trade_request)]>
    (<["magic" := VInt (magic_number trade_request)]>
    (<["comment" := VStr (comment trade_request)]>
    (<["type_time" := VInt (ORDER_TIME_GTC mt5)]> ∅)))))))) in
  let mt5_request :=
    if truthy_opt_Decimal (stop_loss trade_request)
    then <["sl" := VFloat (default 0%Qc (stop_loss trade_request))]> mt5_request
    else mt5_request in
  let mt5_request :=
    if truthy_opt_Decimal (take_profit trade_request)
    then <["tp" := VFloat (default 0%Qc (take_profit trade_request))]> mt5_request
    else mt5_request in
  mt5_request.

(** [MT5TradingService._process_trade_result]: [_asdict] is called when
    the answer has it, then the fields are read.  When the terminal answers
    [None] the attribute access fails (an [AttributeError], not told apart
    from [Exception] here). *)
Definition _process_trade_result (mt5 : mt5_module)
    (result : option order_result) : Py.result dict :=
  match result with
  | None => Raise (Exception "'NoneType' object has no attribute 'retcode'")
  | Some result =>
      match o_asdict result with
      | Some called => called
      | None => Ok tt
      end;;
      mret (<["success" :=
                VBool (bool_decide (retcode result = TRADE_RETCODE_DONE mt5))]>
            (<["retcode" := VInt (retcode result)]>
            (<["deal" := VInt (deal result)]>
            (<["order" := VInt (order result)]>
            (<["volume" := VFloat (o_volume result)]>
            (<["price" := VFloat (o_price result)]>
            (<["bid" := VFloat (o_bid result)]>
            (<["ask" := VFloat (o_ask result)]>
            (<["comment" := VStr (o_comment result)]>
            (<["request_id" := VInt (request_id result)]>
            (<["retcode_external" := VInt (retcode_external result)]>
               (∅ : dict))))))))))))
  end.

(** [MT5TradingService.open_position] *)
Definition MT5_open_position (mt5 : mt5_module) (trade_request : TradeRequest)
  : list dict * Py.result dict :=
  match symbol_info mt5 (tr_symbol trade_request) with
  | Raise e => ([], Raise e)
  | Ok None =>
      ([], Raise (ValueError
                    ("Symbol " ++ tr_symbol trade_request ++ " not found")))
  | Ok (Some symbol_info) =>
      let mt5_request :=
        _prepare_mt5_trade_request mt5 trade_request symbol_info in
      ([mt5_request],
       result ← order_send mt5 mt5_request;
       _process_trade_result mt5 result)
  end.

(** [MT5TradingService.close_position]: [NotImplementedError] is a
    [RuntimeError]. *)
Definition MT5_close_position (ticket : Z) (volume : option Qc)
  : Py.result dict :=
  Raise (RuntimeError "Close position functionality to be implemented").

Definition MT5TradingService (mt5 : mt5_module) : ITradingService :=
  {| open_position := MT5_open_position mt5;
     close_position := MT5_close_position |}.

(** ** Further use cases, [application/use_cases] *)

(** [GetSymbolsUseCase.execute] *)
Definition GetSymbols_execute (symbol_repository : ISymbolRepository)
  : result (list Symbol) :=
  try_except (get_all_symbols symbol_repository)
    (fun e => Raise (RuntimeError ("Failed to retrieve symbols: " ++ str_exn e))).

(** [GetSymbolInfoUseCase.execute], over the repository's
    [get_symbol_by_name]. *)
Definition GetSymbolInfo_execute
    (get_symbol_by_name : string -> result (option Symbol))
    (symbol_name : string) : result (option Symbol) :=
  raise_if (negb (truthy_str symbol_name) || negb (truthy_str (strip symbol_name)))
    (ValueError "Symbol name cannot be empty");;
  try_except (get_symbol_by_name (upper (strip symbol_name)))
    (fun e =>
       Raise (RuntimeError ("Failed to retrieve symbol info for " ++ symbol_name
                            ++ ": " ++ str_exn e))).


(** The two handlers of [OpenPositionUseCase.execute]. *)
Definition open_position_handlers (e : exn) : Py.result dict :=
  match e with
  | ValueError msg => Raise (ValueError ("Invalid trade request: " ++ msg))
  | _ => Raise (RuntimeError ("Failed to open position: " ++ str_exn e))
  end.

(** [OpenPositionUseCase.execute], with the orders that reached the
    terminal. *)
Definition OpenPosition_execute (trading_service : ITradingService)
    (trade_request : TradeRequest) : list dict * Py.result dict :=
  match validate trade_request with
  | Raise e => ([], open_position_handlers e)
  | Ok _ =>
      let '(sent, result) := open_position trading_service trade_request in
      (sent, try_except result open_position_handlers)
  end.

(** [ClosePositionUseCase.execute] *)
Definition ClosePosition_execute (trading_service : ITradingService)
    (ticket : Z) (volume : option Qc) : Py.result dict :=
  raise_if (ticket <=? 0)
    (ValueError "Ticket must be positive");;
  raise_if (match volume with
            | Some v => Qc_leb v 0%Qc
            | None => false
            end)
    (ValueError "Volume must be positive if specified");;
  try_except (close_position trading_service ticket volume)
    (fun e =>
       Raise (RuntimeError ("Failed to close position " ++ pretty ticket
                            ++ ": " ++ str_exn e))).

End Layered.

(* ===================================================================== *)
(** * The client SDK, [client/mt5_client] *)
(* ===================================================================== *)

Module Client.
Import Py.

(** ** Domain entities, [domain/entities] *)

Record Symbol := {
  name : string;
  description : string;
  digits : Z;
  point : Qc;
  currency_base : string;
  currency_profit : string;
  currency_margin : option string;
  volume_min : option Qc;
  volume_max : option Qc;
  trade_mode : option Z
}.

(** [Symbol.__post_init__] *)
Definition Symbol_post_init (self : Symbol) : result unit :=
  raise_if (negb (truthy_str (name self)))
    (ValueError "Symbol name cannot be empty");;
  raise_if (digits self <? 0)
    (ValueError "Digits must be non-negative");;
  raise_if (Qc_leb (point self) 0%Qc)
    (ValueError "Point must be positive");;
  mret tt.

(** The annotation [volume: int] is not enforced at run time: the field
    holds the value the constructor was given. *)
Record Ticker := {
  symbol : string;
  time : Z;
  open : Qc;
  high : Qc;
  low : Qc;
  close : Qc;
  volume : value
}.

(** [Ticker.__post_init__]; [not (low <= x <= high)] is the chained
    comparison. *)
Definition Ticker_post_init (self : Ticker) : result unit :=
  raise_if (negb (truthy_str (symbol self)))
    (ValueError "Symbol cannot be empty");;
  raise_if (Qc_ltb (high self) (low self))
    (ValueError "High must be >= Low");;
  raise_if (negb (Qc_leb (low self) (open self) && Qc_leb (open self) (high self)))
    (ValueError "Open must be between Low and High");;
  raise_if (negb (Qc_leb (low self) (close self) && Qc_leb (close self) (high self)))
    (ValueError "Close must be between Low and High");;
  negative ← lt_int (volume self) 0;
  raise_if negative (ValueError "Volume cannot be negative");;
  mret tt.

Definition new_Ticker (symbol : string) (time : Z) (open high low close : Qc)
    (volume : value) : result Ticker :=
  let self :=
    {| symbol := symbol; time := time; open := open; high := high;
       low := low; close := close; volume := volume |} in
  Ticker_post_init self;; mret self.

(** The properties of [Ticker] the DTOs read. *)
Definition body (self : Ticker) : Qc := (close self - open self)%Qc.
Definition is_bullish (self : Ticker) : bool := Qc_ltb (open self) (close self).
Definition range_value (self : Ticker) : Qc := (high self - low self)%Qc.

Record SymbolPercentChange := {
  pc_symbol : string;
  pct_change : Qc;
  error : option string
}.

Definition is_valid (self : SymbolPercentChange) : bool :=
  match error self with None => true | Some _ => false end.

Definition is_positive (self : SymbolPercentChange) : bool :=
  is_valid self && Qc_ltb 0%Qc (pct_change self).

Definition is_negative (self : SymbolPercentChange) : bool :=
  is_valid self && Qc_ltb (pct_change self) 0%Qc.

Definition abs_ (x : Qc) : Qc := if Qc_ltb x 0%Qc then (- x)%Qc else x.

Definition trend_strength (self : SymbolPercentChange) : string :=
  if negb (is_valid self) then "INVALID"
  else
    let abs_change := abs_ (pct_change self) in
    if Qc_leb (Qc_of_Z 2) abs_change then "STRONG"
    else if Qc_leb (Qc_of_Z 1) abs_change then "MODERATE"
    else if Qc_leb (dec 5 1) abs_change then "WEAK"
    else "MINIMAL".

Record MarketData := {
  md_symbol : Symbol;
  latest_ticker : option Ticker;
  tickers : option (list Ticker);
  percent_change : option SymbolPercentChange
}.

(** [MarketData.__post_init__] *)
Definition MarketData_post_init (self : MarketData) : result unit :=
  raise_if (match latest_ticker self with
            | Some t => negb (String.eqb (symbol t) (name (md_symbol self)))
            | None => false
            end)
    (ValueError "Latest ticker symbol must match symbol name");;
  raise_if (match tickers self with
            | Some l =>
                existsb (fun ticker =>
                           negb (String.eqb (symbol ticker) (name (md_symbol self)))) l
            | None => false
            end)
    (ValueError "All tickers must match symbol name");;
  raise_if (match percent_change self with
            | Some pc => negb (String.eqb (pc_symbol pc) (name (md_symbol self)))
            | None => false
            end)
    (ValueError "Percent change symbol must match symbol name");;
  mret tt.

Definition new_MarketData (symbol : Symbol) (latest_ticker : option Ticker)
    (tickers : option (list Ticker)) (percent_change : option SymbolPercentChange)
  : result MarketData :=
  let self :=
    {| md_symbol := symbol; latest_ticker := latest_ticker;
       tickers := tickers; percent_change := percent_change |} in
  MarketData_post_init self;; mret self.

(** Truthiness of an optional object without [__bool__] or [__len__]:
    only [None] is falsy. *)
Definition truthy_opt_obj {A} (o : option A) : bool :=
  match o with None => false | Some _ => true end.

(** Truthiness of an optional list: [None] and [[]] are falsy. *)
Definition truthy_opt_list {A} (o : option (list A)) : bool :=
  match o with
  | None | Some [] => false
  | Some (_ :: _) => true
  end.

(** Truthiness of an [Optional[Decimal]]: [None] and zero are falsy. *)
Definition truthy_opt_Decimal (o : option Qc) : bool :=
  match o with
  | None => false
  | Some d => negb (Qc_eqb d 0%Qc)
  end.

(** [MarketData.current_price] *)
Definition current_price (self : MarketData) : option Qc :=
  match latest_ticker self with
  | Some t => Some (close t)
  | None =>
      match tickers self with
      | Some l =>
          if truthy_opt_list (Some l) && (0 <? length l)%nat
          then close <$> last l
          else None
      | None => None
      end
  end.

(** [min(lows)] and [max(highs)] of a non-empty list. *)
Definition min_list (x : Qc) (l : list Qc) : Qc := foldl min_ x l.
Definition max_list (x : Qc) (l : list Qc) : Qc := foldl max_ x l.

(** [MarketData.calculate_price_range] *)
Definition calculate_price_range (self : MarketData) : option (Qc * Qc) :=
  match tickers self with
  | Some (t :: l) =>
      Some (min_list (low t) (map low l), max_list (high t) (map high l))
  | _ => None
  end.

(** ** Response DTOs, [application/dtos]

    [float_] is the conversion [float(d)] of a [Decimal] to the type [F] of
    floats. *)
Section DTOs.
Context {F : Type} (float_ : Qc -> F).

Record TickerResponse := {
  tr_symbol : string;
  tr_time : Z;
  tr_open : F;
  tr_high : F;
  tr_low : F;
  tr_close : F;
  tr_volume : value;
  tr_body : option F;
  tr_is_bullish : option bool;
  tr_range_value : option F
}.

Definition TickerResponse_from_entity (ticker : Ticker) : TickerResponse :=
  {| tr_symbol := symbol ticker;
     tr_time := time ticker;
     tr_open := float_ (open ticker);
     tr_high := float_ (high ticker);
     tr_low := float_ (low ticker);
     tr_close := float_ (close ticker);
     tr_volume := volume ticker;
     tr_body := Some (float_ (body ticker));
     tr_is_bullish := Some (is_bullish ticker);
     tr_range_value := Some (float_ (range_value ticker)) |}.

Record SymbolPctChangeResponse := {
  pr_symbol : string;
  pr_pct_change : F;
  pr_error : option string;
  pr_trend_strength : option string
}.

Definition SymbolPctChangeResponse_from_entity (pct_change : SymbolPercentChange)
  : SymbolPctChangeResponse :=
  {| pr_symbol := pc_symbol pct_change;
     pr_pct_change := float_ (Client.pct_change pct_change);
     pr_error := error pct_change;
     pr_trend_strength := Some (trend_strength pct_change) |}.

(** [SymbolResponse] has the fields of [Symbol]; the entity stands for
    its copy. *)
Record MarketDataResponse := {
  r_symbol : Symbol;
  r_latest_ticker : option TickerResponse;
  r_tickers : option (list TickerResponse);
  r_percent_change : option SymbolPctChangeResponse;
  r_current_price : option F;
  r_price_range : option (F * F)
}.

(** [MarketDataResponse.from_entity] *)
Definition from_entity (market_data : MarketData) : MarketDataResponse :=
  let tickers_dto :=
    if truthy_opt_list (tickers market_data)
    then map TickerResponse_from_entity <$> tickers market_data
    else None in
  let latest_ticker_dto :=
    if truthy_opt_obj (latest_ticker market_data)
    then TickerResponse_from_entity <$> latest_ticker market_data
    else None in
  let percent_change_dto :=
    if truthy_opt_obj (percent_change market_data)
    then SymbolPctChangeResponse_from_entity <$> percent_change market_data
    else None in
  let price_range :=
    match calculate_price_range market_data with
    | Some (lo, hi) => Some (float_ lo, float_ hi)
    | None => None
    end in
  {| r_symbol := md_symbol market_data;
     r_latest_ticker := latest_ticker_dto;
     r_tickers := tickers_dto;
     r_percent_change := percent_change_dto;
     r_current_price :=
       if truthy_opt_Decimal (current_price market_data)
       then float_ <$> current_price market_data
       else None;
     r_price_range := price_range |}.

End DTOs.

(** ** The HTTP adapter, [infrastructure/adapters]: [HttpClient] *)

Record ApiConfig := {
  base_url : string;
  api_key : option string;
  timeout : Z;
  max_retries : Z;
  retry_delay : Qc;
  verify_ssl : bool
}.

Inductive http_method : Type := POST | GET.

(** What the client does to the outside world, in order. *)
Inductive event : Type :=
| Sent (m : http_method) (url : string)
| Slept (seconds : Qc).

(** The outside world: the requests sent so far are counted, and the
    events are recorded, latest last. *)
Record world := {
  sent : nat;
  trace : list event
}.

Definition world0 : world := {| sent := 0; trace := [] |}.

Section HttpClient.
(** The decoded body of an answer. *)
Context {json : Type}.
(** The network: the outcome of the [n]-th request sent (from 0), i.e. of
    [async with session.post(...)], [raise_for_status()] and
    [response.json()] together. *)
Variable transport : nat -> result json.
Variable config : ApiConfig.

Definition is_slash (c : ascii) : bool := Ascii.eqb c "/".

(** [f"{base_url.rstrip('/')}/{endpoint.strip('/')}"] *)
Definition url_of (endpoint : string) : string :=
  rstrip_by is_slash (base_url config) ++ "/" ++ strip_by is_slash endpoint.

Definition send (m : http_method) (url : string) (w : world)
  : result json * world :=
  (transport (sent w),
   {| sent := S (sent w); trace := (trace w ++ [Sent m url])%list |}).

(** [await asyncio.sleep(seconds)] *)
Definition sleep (seconds : Qc) (w : world) : world :=
  {| sent := sent w; trace := (trace w ++ [Slept seconds])%list |}.

Definition method_name (m : http_method) : string :=
  match m with POST => "POST" | GET => "GET" end.

(** [range(n)] *)
Definition range (n : Z) : list Z := map Z.of_nat (seq 0 (Z.to_nat n)).

(** The [for attempt in range(max_retries)] loop, common to [post] and
    [get], and the [raise] that follows it. *)
Fixpoint request_loop (m : http_method) (url : string) (attempts : list Z)
    (w : world) : result json * world :=
  match attempts with
  | [] =>
      (Raise (Exception ("Failed to " ++ method_name m ++ " " ++ url ++ " after "
                         ++ pretty (max_retries config) ++ " attempts")), w)
  | attempt :: rest =>
      let '(r, w) := send m url w in
      match r with
      | Ok result => (Ok result, w)
      | Raise TimeoutError =>
          if attempt =? max_retries config - 1 then (Raise TimeoutError, w)
          else request_loop m url rest (sleep (retry_delay config) w)
      | Raise (ClientError e) =>
          if attempt =? max_retries config - 1 then (Raise (ClientError e), w)
          else request_loop m url rest (sleep (retry_delay config) w)
      | Raise e => (Raise e, w)
      end
  end.

(** [HttpClient.post] and [HttpClient.get] (the request body does not
    influence the control flow). *)
Definition post (endpoint : string) (w : world) : result json * world :=
  request_loop POST (url_of endpoint) (range (max_retries config)) w.

Definition get_ (endpoint : string) (w : world) : result json * world :=
  request_loop GET (url_of endpoint) (range (max_retries config)) w.

End HttpClient.

(** ** The HTTP adapter: [TickerRepositoryAdapter._map_to_ticker] *)

Section MapToTicker.
(** [datetime.strptime(s, "%Y-%m-%d %H:%M:%S")] and the parser of
    [Decimal(s)]; both raise on text they do not accept. *)
Variable strptime : string -> result Z.
Variable Decimal_of_str : string -> result Qc.

(** [Decimal(str(v))]: the text of a number denotes that number, the
    text of [None], [True] and [False] is not a decimal literal. *)
Definition Decimal_str (v : value) : result Qc :=
  match v with
  | VInt z => Ok (Qc_of_Z z)
  | VFloat q => Ok q
  | VStr s => Decimal_of_str s
  | VNone | VBool _ => Raise (InvalidOperation "ConversionSyntax")
  end.

(** [now] is the reading of [datetime.now()]. *)
Definition _map_to_ticker (now : Z) (ticker_data : dict) (symbol : string)
  : result Ticker :=
  let time_str := get ticker_data "time" (VStr "") in
  time_obj ←
    (if truthy time_str then
       match time_str with
       | VStr s => strptime s
       | _ => Raise (TypeError "strptime() argument 1 must be str")
       end
     else Ok now);
  open ← Decimal_str (get ticker_data "open" (VInt 0));
  high ← Decimal_str (get ticker_data "high" (VInt 0));
  low ← Decimal_str (get ticker_data "low" (VInt 0));
  close ← Decimal_str (get ticker_data "close" (VInt 0));
  new_Ticker symbol time_obj open high low close
             (get ticker_data "volume" (VInt 0)).

End MapToTicker.

(** ** Use cases, [application/use_cases]: [MarketAnalysisUseCase] *)

(** The two repository calls [analyze_symbols] makes. *)
Record IMT5Repository := {
  get_multiple_market_data : list string -> result (list MarketData);
  get_symbols_percent_change : list string -> Z -> result (list SymbolPercentChange)
}.

Section MarketAnalysis.
Context {F : Type} (float_ : Qc -> F).

Record statistics := {
  total_symbols : nat;
  valid_symbols : nat;
  positive_count : nat;
  negative_count : nat;
  average_change : F;
  market_sentiment : string
}.

Record analysis := {
  market_data : list (MarketDataResponse (F := F));
  percent_changes : list (SymbolPctChangeResponse (F := F));
  stats : statistics
}.

Definition Qc_of_nat (n : nat) : Qc := Qc_of_Z (Z.of_nat n).

(** [sum(x for x in l)] *)
Definition sum_Qc (l : list Qc) : Qc := foldl Qcplus 0%Qc l.

(** [count > total_count * 0.6] *)
Definition exceeds_60_percent (count total_count : nat) : bool :=
  Qc_ltb (Qc_of_nat total_count * dec 6 1)%Qc (Qc_of_nat count).

(** The statistics block of [analyze_symbols]. *)
Definition statistics_of (symbols : list string)
    (pct_changes : list SymbolPercentChange) : statistics :=
  let valid_changes := filter (fun pct => is_valid pct = true) pct_changes in
  match valid_changes with
  | _ :: _ =>
      let positive_count :=
        length (filter (fun pct => is_positive pct = true) valid_changes) in
      let negative_count :=
        length (filter (fun pct => is_negative pct = true) valid_changes) in
      let total_count := length valid_changes in
      let avg_change :=
        (sum_Qc (map pct_change valid_changes) / Qc_of_nat total_count)%Qc in
      let market_sentiment :=
        if exceeds_60_percent positive_count total_count then "bullish"
        else if exceeds_60_percent negative_count total_count then "bearish"
        else "neutral" in
      {| total_symbols := length symbols;
         valid_symbols := length valid_changes;
         positive_count := positive_count;
         negative_count := negative_count;
         average_change := float_ avg_change;
         market_sentiment := market_sentiment |}
  | [] =>
      {| total_symbols := length symbols;
         valid_symbols := length valid_changes;
         positive_count := 0;
         negative_count := 0;
         average_change := float_ 0%Qc;
         market_sentiment := "unknown" |}
  end.

(** [MarketAnalysisUseCase.analyze_symbols] *)
Definition analyze_symbols (repository : IMT5Repository)
    (symbols : list string) (timeframe : Z) : result analysis :=
  market_data_list ← get_multiple_market_data repository symbols;
  pct_changes ← get_symbols_percent_change repository symbols timeframe;
  mret {| market_data := map (from_entity float_) market_data_list;
          percent_changes :=
            map (SymbolPctChangeResponse_from_entity float_) pct_changes;
          stats := statistics_of symbols pct_changes |}.

End MarketAnalysis.

(** ** Further properties of the entities *)

(** [Symbol.is_forex] *)
Definition is_forex (self : Symbol) : bool :=
  (String.length (name self) =? 6)%nat && isalpha (name self).




Definition is_neutral (self : SymbolPercentChange) : bool :=
  is_valid self && Qc_eqb (pct_change self) 0%Qc.

(** [MarketData.has_price_data] *)
Definition has_price_data (self : MarketData) : bool :=
  match latest_ticker self with Some _ => true | None => false end
  || match tickers self with
     | Some l => (0 <? length l)%nat
     | None => false
     end.

(** ** [ApiResponse] *)

Record ApiResponse := {
  success : bool;
  data : option dict;
  error_message : option string;
  timestamp : option Z
}.

(** [ApiResponse.__post_init__] *)
Definition ApiResponse_post_init (self : ApiResponse) : result unit :=
  raise_if (negb (success self) && negb (truthy_opt_str (error_message self)))
    (ValueError "Failed responses must have error message");;
  raise_if (success self && truthy_opt_str (error_message self))
    (ValueError "Successful responses should not have error message");;
  mret tt.

Definition new_ApiResponse (success : bool) (data : option dict)
    (error_message : option string) (timestamp : option Z) : result ApiResponse :=
  let self :=
    {| success := success; data := data; error_message := error_message;
       timestamp := timestamp |} in
  ApiResponse_post_init self;; mret self.

(** [ApiResponse.has_data] *)
Definition has_data (self : ApiResponse) : bool :=
  success self && match data self with Some _ => true | None => false end.

(** [ApiResponse.success_response] and [ApiResponse.error_response];
    [now] is the reading of [datetime.now()] used when no timestamp is
    given. *)
Definition success_response (now : Z) (data : dict) (timestamp : option Z)
  : result ApiResponse :=
  new_ApiResponse true (Some data) None (Some (default now timestamp)).

Definition error_response (now : Z) (error_message : string) (timestamp : option Z)
  : result ApiResponse :=
  new_ApiResponse false None (Some error_message) (Some (default now timestamp)).

(** ** The HTTP adapter: [HealthRepositoryAdapter] *)

(** [HealthRepositoryAdapter.check_health]: the request, and the response
    built from its outcome at time [now]. *)
Definition check_health (transport : nat -> result dict) (config : ApiConfig)
    (now : Z) (w : world) : result ApiResponse * world :=
  let '(r, w) := get_ transport config "/health" w in
  match r with
  | Ok response => (success_response now response (Some now), w)
  | Raise e => (error_response now (str_exn e) (Some now), w)
  end.

(** The health report of [CheckApiHealthUseCase]. *)
Record ApiHealthResponse := {
  h_status : value;
  h_mt5_connection : value;
  h_mt5_available : value;
  h_timestamp : option Z
}.

(** Truthiness of an optional dictionary: [None] and [{}] are falsy. *)
Definition truthy_opt_dict (o : option dict) : bool :=
  match o with
  | None => false
  | Some d => negb (bool_decide (d = ∅))
  end.

(** The body of [CheckApiHealthUseCase.execute] once the response of the
    repository is known. *)
Definition health_report (health_response : ApiResponse) : ApiHealthResponse :=
  if success health_response && truthy_opt_dict (data health_response) then
    let d := default ∅ (data health_response) in
    {| h_status := get d "status" (VStr "unknown");
       h_mt5_connection := get d "mt5_connection" (VStr "unknown");
       h_mt5_available := get d "mt5_available" (VBool false);
       h_timestamp := timestamp health_response |}
  else
    {| h_status := VStr "error";
       h_mt5_connection := VStr "disconnected";
       h_mt5_available := VBool false;
       h_timestamp := timestamp health_response |}.

(** [CheckApiHealthUseCase.execute] over the health adapter. *)
Definition CheckApiHealth_execute (transport : nat -> result dict)
    (config : ApiConfig) (now : Z) (w : world) : result ApiHealthResponse * world :=
  let '(r, w) := check_health transport config now w in
  (health_response ← r; mret (health_report health_response), w).

(** ** The HTTP adapter: [MarketAnalysisRepositoryAdapter._map_to_percent_change] *)

Section MapToPercentChange.
Variable Decimal_of_str : string -> result Qc.

(** The entity holds a string as [symbol] and [None] or a string as
    [error]; a dictionary with other types of values there has no counterpart
    in this model, which is the answer [None]. *)
Definition _map_to_percent_change (symbol_data : dict)
  : option (result SymbolPercentChange) :=
  match get symbol_data "symbol" (VStr ""), get symbol_data "error" VNone with
  | VStr symbol, VNone =>
      Some (pct_change ← Decimal_str Decimal_of_str
                            (get symbol_data "pct_change" (VInt 0));
            raise_if (negb (truthy_str symbol))
              (ValueError "Symbol cannot be empty");;
            mret {| pc_symbol := symbol; pct_change := pct_change; error := None |})
  | VStr symbol, VStr error =>
      Some (pct_change ← Decimal_str Decimal_of_str
                            (get symbol_data "pct_change" (VInt 0));
            raise_if (negb (truthy_str symbol))
              (ValueError "Symbol cannot be empty");;
            mret {| pc_symbol := symbol; pct_change := pct_change;
                    error := Some error |})
  | _, _ => None
  end.

End MapToPercentChange.

(** ** The HTTP adapter: [MarketDataRepositoryAdapter] *)

(** The repositories the aggregate adapter is built from. *)
Record market_repositories := {
  get_symbol_by_name : string -> result (option Symbol);
  get_latest_ticker : string -> result (option Ticker);
  get_latest_tickers : string -> Z -> result (list Ticker);
  get_symbol_percent_change : string -> result (option SymbolPercentChange)
}.

(** [MarketDataRepositoryAdapter.get_complete_market_data]: the three
    fetches are gathered with [return_exceptions=True] and an exception is
    replaced by [None]. *)
Definition get_complete_market_data (repos : market_repositories)
    (symbol_name : string) : result (option MarketData) :=
  symbol ← get_symbol_by_name repos symbol_name;
  match symbol with
  | None => mret None
  | Some symbol =>
      let latest_ticker :=
        match get_latest_ticker repos symbol_name with
        | Ok t => t
        | Raise _ => None
        end in
      let tickers :=
        match get_latest_tickers repos symbol_name 10 with
        | Ok l => Some l
        | Raise _ => None
        end in
      let percent_change :=
        match get_symbol_percent_change repos symbol_name with
        | Ok p => p
        | Raise _ => None
        end in
      market_data ← new_MarketData symbol latest_ticker tickers percent_change;
      mret (Some market_data)
  end.

(** [MarketDataRepositoryAdapter.get_multiple_market_data]: only the
    results that are aggregates are kept. *)
Definition adapter_get_multiple_market_data (repos : market_repositories)
    (symbol_names : list string) : list MarketData :=
  flat_map
    (fun symbol =>
       match get_complete_market_data repos symbol with
       | Ok (Some market_data) => [market_data]
       | Ok None | Raise _ => []
       end)
    symbol_names.

(** ** The HTTP adapter: [SymbolRepositoryAdapter.search_symbols] *)

Definition search_symbols (get_all_symbols : result (list Symbol))
    (pattern : string) : result (list Symbol) :=
  all_symbols ← get_all_symbols;
  let pattern_upper := upper pattern in
  mret (filter (fun symbol =>
                  contains pattern_upper (upper (name symbol))
                  || contains pattern_upper (upper (description symbol)) = true)
               all_symbols).

(** ** Use cases: [SearchSymbolsUseCase] *)

(** Truthiness of an [Optional[int]]: [None] and 0 are falsy. *)
Definition truthy_opt_int (o : option Z) : bool :=
  match o with
  | None => false
  | Some n => negb (n =? 0)
  end.

(** [SearchSymbolsUseCase.execute]; the response of a symbol stands for the
    symbol. *)
Definition SearchSymbols_execute (search : string -> result (list Symbol))
    (pattern : string) (limit : option Z) : result (list Symbol) :=
  symbols ← search pattern;
  let result := symbols in
  mret (if truthy_opt_int limit then slice_to (default 0 limit) result
        else result).

(** ** The facade, [presentation]: convenience methods *)

(** [MT5TradingClient.get_forex_pairs] *)
Definition get_forex_pairs (get_symbols : result (list Symbol))
  : result (list Symbol) :=
  symbols ← get_symbols;
  mret (filter (fun symbol =>
                  (String.length (name symbol) =? 6)%nat && isalpha (name symbol)
                  = true)
               symbols).

Definition major_pairs : list string :=
  ["EURUSD"; "USDJPY"; "GBPUSD"; "AUDUSD"; "USDCHF"; "NZDUSD"; "USDCAD"].

(** [MT5TradingClient.get_major_pairs] *)
Definition get_major_pairs (get_symbols : result (list Symbol))
  : result (list Symbol) :=
  symbols ← get_symbols;
  mret (filter (fun symbol => name symbol ∈ major_pairs) symbols).

Section DailyChanges.
Context {F : Type} (float_ : Qc -> F).

(** [{change.symbol: change.pct_change for change in changes
       if change.error is None}]: a later entry replaces an earlier one of
    the same symbol. *)
Definition daily_changes_dict (changes : list (SymbolPctChangeResponse (F := F)))
  : gmap string F :=
  foldl (fun d change =>
           match pr_error change with
           | None => <[pr_symbol change := pr_pct_change change]> d
           | Some _ => d
           end)
        ∅ changes.

(** [MT5TradingClient.get_daily_changes], through
    [GetSymbolsPctChangeUseCase.execute]. *)
Definition get_daily_changes (repository : IMT5Repository)
    (symbols : list string) : result (gmap string F) :=
  pct_changes ← get_symbols_percent_change repository symbols 16408;
  let changes := map (SymbolPctChangeResponse_from_entity float_) pct_changes in
  mret (daily_changes_dict changes).

End DailyChanges.

End Client.

(* ===================================================================== *)
(** * Inputs used by the examples *)
(* ===================================================================== *)

Module Examples.
Import Py.

(** A request for a protected endpoint that carries no key. *)
Definition monolith_unauthenticated : Monolith.Request :=
  {| Monolith.url_path := "/GetSymbols/"; Monolith.headers := ∅ |}.

Definition layered_unauthenticated : Layered.Request :=
  {| Layered.url_path := "/GetSymbols/"; Layered.headers := ∅;
     Layered.state_user_permissions := None; Layered.state_api_key := None |}.

(** The BUY request of the specification: price 1.1000, stop loss
    1.0990, take profit 1.1050. *)
Definition buy_request (stop_loss take_profit : option Qc) : Layered.TradeRequest :=
  {| Layered.tr_symbol := "EURUSD";
     Layered.tr_volume := dec 1 1;
     Layered.order_type := Layered.BUY;
     Layered.price := Some (dec 11000 4);
     Layered.stop_loss := stop_loss;
     Layered.take_profit := take_profit;
     Layered.deviation := 20;
     Layered.comment := "";
     Layered.magic_number := 234000 |}.

(** A BUY request whose stop loss is given as zero and whose take profit
    is below the price. *)
Definition buy_zero_stop : Layered.TradeRequest :=
  buy_request (Some 0%Qc) (Some (dec 10000 4)).

(** Percent changes without error, from a list of values. *)
Definition changes (l : list Qc) : list Client.SymbolPercentChange :=
  map (fun x => {| Client.pc_symbol := "S"; Client.pct_change := x;
                   Client.error := None |}) l.

(** [+1, +2, +3, -1, +0.5] *)
Definition bullish_changes : list Client.SymbolPercentChange :=
  changes [dec 1 0; dec 2 0; dec 3 0; dec (-1) 0; dec 5 1].

Definition EURUSD : Client.Symbol :=
  {| Client.name := "EURUSD"; Client.description := "Euro vs US Dollar";
     Client.digits := 5; Client.point := dec 1 5;
     Client.currency_base := "EUR"; Client.currency_profit := "USD";
     Client.currency_margin := None; Client.volume_min := None;
     Client.volume_max := None; Client.trade_mode := None |}.

(** A candle of [EURUSD] whose four prices are [x]. *)
Definition flat_candle (x : Qc) : Client.Ticker :=
  {| Client.symbol := "EURUSD"; Client.time := 0; Client.open := x;
     Client.high := x; Client.low := x; Client.close := x;
     Client.volume := VInt 0 |}.

(** The aggregate of [EURUSD] whose latest candle is [flat_candle x]. *)
Definition market_data_at (x : Qc) : Client.MarketData :=
  {| Client.md_symbol := EURUSD; Client.latest_ticker := Some (flat_candle x);
     Client.tickers := None; Client.percent_change := None |}.



(** The instrument [CL] of the layered server, and repositories that know
    it and answer every request for candles with [tickers]. *)
Definition CL : Layered.Symbol :=
  {| Layered.name := "CL"; Layered.description := "Crude Oil";
     Layered.currency_base := "USD"; Layered.currency_profit := "USD";
     Layered.currency_margin := "USD"; Layered.digits := 2;
     Layered.point := dec 1 2; Layered.volume_min := dec 1 2;
     Layered.volume_max := dec 100 0; Layered.volume_step := dec 1 2;
     Layered.trade_mode := Layered.FULL; Layered.margin_initial := 0%Qc;
     Layered.margin_maintenance := 0%Qc |}.

(** A connected terminal whose candle query raises. *)
Definition connected : Monolith.globals :=
  {| Monolith.MT5_AVAILABLE := true; Monolith.mt5_connected := true |}.

Definition failing_terminal : Monolith.mt5_module :=
  {| Monolith.TIMEFRAME_M1 := 1; Monolith.TIMEFRAME_M5 := 5;
     Monolith.TIMEFRAME_M15 := 15; Monolith.TIMEFRAME_M30 := 30;
     Monolith.TIMEFRAME_H1 := 16385; Monolith.TIMEFRAME_H4 := 16388;
     Monolith.TIMEFRAME_D1 := 16408;
     Monolith.copy_rates_from_pos :=
       fun _ _ _ _ => Raise (RuntimeError "terminal not responding");
     Monolith.strftime := fun _ => Ok "" |}.

Definition symbols_CL : Layered.ISymbolRepository :=
  {| Layered.get_all_symbols := Ok [CL] |}.

Definition market_data_of (tickers : list Layered.Ticker)
  : Layered.IMarketDataRepository :=
  {| Layered.get_tickers_by_count := fun _ _ _ => Ok tickers |}.

(** A network that times out on the first [k] requests and then answers
    [r]; a network on which every request times out. *)
Definition flaky (k : nat) (r : string) : nat -> result string :=
  fun i => if (i <? k)%nat then Raise TimeoutError else Ok r.

Definition down : nat -> result string := fun _ => Raise TimeoutError.

(** The default configuration of the client: 3 attempts, 1 second. *)
Definition default_config : Client.ApiConfig :=
  {| Client.base_url := "http://localhost:8000"; Client.api_key := None;
     Client.timeout := 30; Client.max_retries := 3;
     Client.retry_delay := dec 1 0; Client.verify_ssl := true |}.

(** Repositories that know EURUSD under that name and answer every ticker
    request with a flat candle labelled EURUSD; the other fetches fail. *)
Definition repos_EURUSD : Client.market_repositories :=
  {| Client.get_symbol_by_name :=
       fun n => if String.eqb (upper n) "EURUSD" then Ok (Some EURUSD) else Ok None;
     Client.get_latest_ticker := fun _ => Ok (Some (flat_candle (dec 11 1)));
     Client.get_latest_tickers := fun _ _ => Raise TimeoutError;
     Client.get_symbol_percent_change := fun _ => Raise TimeoutError |}.

(** A repository whose percent-change answer holds two entries for EURUSD
    and an entry with an error for XAUUSD. *)
Definition repository_two_entries : Client.IMT5Repository :=
  {| Client.get_multiple_market_data := fun _ => Ok [];
     Client.get_symbols_percent_change := fun _ _ =>
       Ok [ {| Client.pc_symbol := "EURUSD"; Client.pct_change := dec 1 0;
               Client.error := None |};
            {| Client.pc_symbol := "EURUSD"; Client.pct_change := dec 2 0;
               Client.error := None |};
            {| Client.pc_symbol := "XAUUSD"; Client.pct_change := 0%Qc;
               Client.error := Some "Symbol not found" |} ] |}.

(** The description of [CL] in the terminal, with quotes 80.00 / 80.02,
    and a description whose minimum volume is zero. *)
Definition CL_data : Layered.mt5_symbol :=
  {| Layered.s_name := "CL"; Layered.s_description := Some "Crude Oil";
     Layered.s_currency_base := "USD"; Layered.s_currency_profit := "USD";
     Layered.s_currency_margin := "USD"; Layered.s_digits := 2;
     Layered.s_point := dec 1 2; Layered.s_volume_min := dec 1 2;
     Layered.s_volume_max := dec 100 0; Layered.s_volume_step := dec 1 2;
     Layered.s_trade_mode := 4; Layered.s_margin_initial := None;
     Layered.s_margin_maintenance := None;
     Layered.s_bid := dec 8000 2; Layered.s_ask := dec 8002 2 |}.

Definition no_volume_data : Layered.mt5_symbol :=
  {| Layered.s_name := "XX"; Layered.s_description := None;
     Layered.s_currency_base := "USD"; Layered.s_currency_profit := "USD";
     Layered.s_currency_margin := "USD"; Layered.s_digits := 2;
     Layered.s_point := dec 1 2; Layered.s_volume_min := 0%Qc;
     Layered.s_volume_max := dec 100 0; Layered.s_volume_step := dec 1 2;
     Layered.s_trade_mode := 7; Layered.s_margin_initial := None;
     Layered.s_margin_maintenance := None;
     Layered.s_bid := 1%Qc; Layered.s_ask := 1%Qc |}.



(** A terminal with the constants of [MockMT5] that knows the given
    symbols, answers every candle query with [rates] and every order with
    [answer]. *)
Definition terminal (symbols : list Layered.mt5_symbol)
    (rates : list Layered.mt5_rate) (answer : option Layered.order_result)
  : Layered.mt5_module :=
  {| Layered.TIMEFRAME_M1 := 1;
     Layered.TIMEFRAME_M5 := 5;
     Layered.TIMEFRAME_M15 := 15;
     Layered.TIMEFRAME_M30 := 30;
     Layered.TIMEFRAME_H1 := 16385;
     Layered.TIMEFRAME_H4 := 16388;
     Layered.TIMEFRAME_D1 := 16408;
     Layered.TIMEFRAME_W1 := 32769;
     Layered.TIMEFRAME_MN1 := 49153;
     Layered.TRADE_ACTION_DEAL := 1;
     Layered.ORDER_TYPE_BUY := 0;
     Layered.ORDER_TYPE_SELL := 1;
     Layered.ORDER_TIME_GTC := 0;
     Layered.TRADE_RETCODE_DONE := 10009;
     Layered.symbols_get := Ok (Some symbols);
     Layered.symbol_info := fun n =>
       Ok (snd <$> list_find (fun s => Layered.s_name s = n) symbols);
     Layered.copy_rates_from_pos := fun _ _ _ _ => Ok (Some rates);
     Layered.order_send := fun _ => Ok answer |}.

(** An answer of the broker that rejects the order (10013, invalid
    request). *)
Definition rejected : Layered.order_result :=
  {| Layered.o_asdict := Some (Ok tt);
     Layered.retcode := 10013; Layered.deal := 0; Layered.order := 0;
     Layered.o_volume := 0%Qc; Layered.o_price := 0%Qc;
     Layered.o_bid := 0%Qc; Layered.o_ask := 0%Qc;
     Layered.o_comment := "Invalid request"; Layered.request_id := 1;
     Layered.retcode_external := 0 |}.

(** The description of [EURUSD] in the terminal, with quotes
    1.1000 / 1.1002. *)
Definition EURUSD_data : Layered.mt5_symbol :=
  {| Layered.s_name := "EURUSD"; Layered.s_description := None;
     Layered.s_currency_base := "EUR"; Layered.s_currency_profit := "USD";
     Layered.s_currency_margin := "EUR"; Layered.s_digits := 5;
     Layered.s_point := dec 1 5; Layered.s_volume_min := dec 1 2;
     Layered.s_volume_max := dec 100 0; Layered.s_volume_step := dec 1 2;
     Layered.s_trade_mode := 4; Layered.s_margin_initial := None;
     Layered.s_margin_maintenance := None;
     Layered.s_bid := dec 11000 4; Layered.s_ask := dec 11002 4 |}.

(** The monolith without terminal: the package is missing. *)
Definition simulation : Monolith.globals :=
  {| Monolith.MT5_AVAILABLE := false; Monolith.mt5_connected := false |}.

(** A terminal that answers a candle query with one flat row whose time
    column holds the timeframe constant it was queried with, the time being
    rendered as that number, and a negative time being out of range. *)
Definition echo_terminal : Monolith.mt5_module :=
  {| Monolith.TIMEFRAME_M1 := 1; Monolith.TIMEFRAME_M5 := 5;
     Monolith.TIMEFRAME_M15 := 15; Monolith.TIMEFRAME_M30 := 30;
     Monolith.TIMEFRAME_H1 := 16385; Monolith.TIMEFRAME_H4 := 16388;
     Monolith.TIMEFRAME_D1 := 16408;
     Monolith.copy_rates_from_pos := fun _ mt5_timeframe _ _ =>
       Ok (Some [ {| Monolith.rate_0 := mt5_timeframe;
                     Monolith.rate_1 := 1%Qc; Monolith.rate_2 := 1%Qc;
                     Monolith.rate_3 := 1%Qc; Monolith.rate_4 := 1%Qc;
                     Monolith.rate_5 := 0; Monolith.rate_6 := 0;
                     Monolith.rate_7 := 0 |} ]);
     Monolith.strftime := fun t =>
       if t <? 0 then Raise (ValueError "year out of range") else Ok (pretty t) |}.

(** A conversion of times with the range of nanosecond timestamps. *)
Definition to_datetime (t : Z) : result Z :=
  if (t <? -9223372036) || (9223372036 <? t)
  then Raise (ValueError "Out of bounds nanosecond timestamp")
  else Ok t.


End Examples.

(* ===================================================================== *)
(** * The conditions the specification names *)
(* ===================================================================== *)

Module Spec.
Import Py.

(** A candle is well formed: symbol not empty, high >= max(open, close),
    low <= min(open, close), volume >= 0. *)
Definition ticker_ok (symbol : string) (o h l c : Qc) (v : Z) : Prop :=
  symbol <> "" /\ (max_ o c <= h)%Qc /\ (l <= min_ o c)%Qc /\ 0 <= v.

(** The protective levels of a trade request are on the wrong side of the
    price: for BUY the stop loss is not strictly below the price or the take
    profit not strictly above it; for SELL the other way round. *)
Definition wrong_side (o : Layered.OrderType) (p sl tp : Qc) : Prop :=
  match o with
  | Layered.BUY => (p <= sl)%Qc \/ (tp <= p)%Qc
  | Layered.SELL => (sl <= p)%Qc \/ (p <= tp)%Qc
  end.

(** A trade request is invalid in the words of the specification: the
    three levels only have to be given. *)
Definition invalid_as_specified (r : Layered.TradeRequest) : Prop :=
  Layered.tr_symbol r = ""
  \/ (Layered.tr_volume r <= 0)%Qc
  \/ Layered.deviation r < 0
  \/ exists p sl tp,
       Layered.price r = Some p /\ Layered.stop_loss r = Some sl
       /\ Layered.take_profit r = Some tp
       /\ wrong_side (Layered.order_type r) p sl tp.

(** A trade request is invalid for the code: the three levels have to be
    given and different from zero. *)
Definition invalid_trade_request (r : Layered.TradeRequest) : Prop :=
  Layered.tr_symbol r = ""
  \/ (Layered.tr_volume r <= 0)%Qc
  \/ Layered.deviation r < 0
  \/ exists p sl tp,
       Layered.price r = Some p /\ Layered.stop_loss r = Some sl
       /\ Layered.take_profit r = Some tp
       /\ p <> 0%Qc /\ sl <> 0%Qc /\ tp <> 0%Qc
       /\ wrong_side (Layered.order_type r) p sl tp.


(** The error-free percent changes, and the positive and the negative
    ones among them. *)
Definition error_free (l : list Client.SymbolPercentChange)
  : list Client.SymbolPercentChange :=
  filter (fun p => Client.error p = None) l.

Definition positives (l : list Client.SymbolPercentChange)
  : list Client.SymbolPercentChange :=
  filter (fun p => Client.error p = None /\ (0 < Client.pct_change p)%Qc) l.

Definition negatives (l : list Client.SymbolPercentChange)
  : list Client.SymbolPercentChange :=
  filter (fun p => Client.error p = None /\ (Client.pct_change p < 0)%Qc) l.



(** The percent change evaluated in double precision on the closes as
    floats, every operation rounded to the nearest double (the monolith). *)
Definition float_pct (previous_close current_close : Qc) : Qc :=
  let p := double previous_close in
  let c := double current_close in
  double (double (double (c - p) / p) * Qc_of_Z 100)%Qc.




(** An outcome of the network that the client retries: a timeout or a
    transport-level error. *)
Definition retryable_failure {json} (o : result json) : Prop :=
  o = Raise TimeoutError \/ exists msg, o = Raise (ClientError msg).

(** [k] attempts with a pause of [delay] seconds between consecutive
    attempts and none after the last. *)
Fixpoint attempts_trace (m : Client.http_method) (url : string) (delay : Qc)
    (k : nat) : list Client.event :=
  match k with
  | O => []
  | S k' =>
      match k' with
      | O => [Client.Sent m url]
      | S _ => Client.Sent m url :: Client.Slept delay
               :: attempts_trace m url delay k'
      end
  end.

Definition is_sent (e : Client.event) : bool :=
  match e with Client.Sent _ _ => true | Client.Slept _ => false end.

Definition is_slept (e : Client.event) : bool :=
  match e with Client.Sent _ _ => false | Client.Slept _ => true end.

(** The parts of a market-data aggregate all carry the name of its
    symbol. *)
Definition market_data_consistent (sym : Client.Symbol)
    (latest : option Client.Ticker) (tickers : option (list Client.Ticker))
    (pc : option Client.SymbolPercentChange) : Prop :=
  (forall t, latest = Some t -> Client.symbol t = Client.name sym)
  /\ (forall l t, tickers = Some l -> t ∈ l -> Client.symbol t = Client.name sym)
  /\ (forall p, pc = Some p -> Client.pc_symbol p = Client.name sym).

(** A row of the rate array can be converted for [symbol]: its time is
    in the range of [to_datetime] and its numbers give a well-formed
    candle. *)
Definition rate_ok (to_datetime : Z -> result Z) (symbol : string)
    (r : Layered.mt5_rate) : Prop :=
  is_ok (to_datetime (Layered.r_time r)) = true
  /\ ticker_ok symbol (Layered.r_open r) (Layered.r_high r) (Layered.r_low r)
       (Layered.r_close r) (Layered.r_tick_volume r).

#[global] Instance rate_ok_dec (to_datetime : Z -> result Z) (symbol : string)
    (r : Layered.mt5_rate)
  : Decision (rate_ok to_datetime symbol r).
Proof. unfold rate_ok, ticker_ok. apply _. Defined.

(** The candle of a row whose time converts to [timestamp], field by
    field. *)
Definition rate_ticker (symbol : string) (timeframe : Layered.TimeFrame)
    (timestamp : Z) (r : Layered.mt5_rate) : Layered.Ticker :=
  {| Layered.symbol := symbol; Layered.timeframe := timeframe;
     Layered.timestamp := timestamp;
     Layered.open_price := Layered.r_open r;
     Layered.high_price := Layered.r_high r;
     Layered.low_price := Layered.r_low r;
     Layered.close_price := Layered.r_close r;
     Layered.volume := Layered.r_tick_volume r |}.

(** The candles of the rows that can be converted, in order. *)
Definition rates_tickers (to_datetime : Z -> result Z) (symbol : string)
    (timeframe : Layered.TimeFrame) (rates : list Layered.mt5_rate)
  : list Layered.Ticker :=
  omap (fun r =>
          match to_datetime (Layered.r_time r) with
          | Ok timestamp =>
              if decide (ticker_ok symbol (Layered.r_open r) (Layered.r_high r)
                           (Layered.r_low r) (Layered.r_close r)
                           (Layered.r_tick_volume r))
              then Some (rate_ticker symbol timeframe timestamp r)
              else None
          | Raise _ => None
          end) rates.

(** A symbol is well formed: name not empty, digits >= 0, minimum volume
    above 0 and not above the maximum volume. *)
Definition symbol_ok (s : Layered.Symbol) : Prop :=
  Layered.name s <> "" /\ 0 <= Layered.digits s
  /\ (0 < Layered.volume_min s)%Qc
  /\ (Layered.volume_min s <= Layered.volume_max s)%Qc.

(** The timeframe constants of the terminal module are the values of the
    enumeration, as they are in [MockMT5]. *)
Definition standard_timeframes (mt5 : Layered.mt5_module) : Prop :=
  Layered.TIMEFRAME_M1 mt5 = 1 /\ Layered.TIMEFRAME_M5 mt5 = 5
  /\ Layered.TIMEFRAME_M15 mt5 = 15 /\ Layered.TIMEFRAME_M30 mt5 = 30
  /\ Layered.TIMEFRAME_H1 mt5 = 16385 /\ Layered.TIMEFRAME_H4 mt5 = 16388
  /\ Layered.TIMEFRAME_D1 mt5 = 16408 /\ Layered.TIMEFRAME_W1 mt5 = 32769
  /\ Layered.TIMEFRAME_MN1 mt5 = 49153.

(** A trade request with another entry price. *)
Definition with_price (r : Layered.TradeRequest) (p : option Qc)
  : Layered.TradeRequest :=
  {| Layered.tr_symbol := Layered.tr_symbol r;
     Layered.tr_volume := Layered.tr_volume r;
     Layered.order_type := Layered.order_type r;
     Layered.price := p;
     Layered.stop_loss := Layered.stop_loss r;
     Layered.take_profit := Layered.take_profit r;
     Layered.deviation := Layered.deviation r;
     Layered.comment := Layered.comment r;
     Layered.magic_number := Layered.magic_number r |}.

(** The timeframes the monolith has a terminal constant for. *)
Definition monolith_timeframes : list Z := [1; 5; 15; 30; 16385; 16388; 16408].

(** The aggregate the adapter finds for one name, if any. *)
Definition aggregate_of (repos : Client.market_repositories) (n : string)
  : option Client.MarketData :=
  match Client.get_complete_market_data repos n with
  | Ok (Some md) => Some md
  | Ok None | Raise _ => None
  end.

(** The candle of the monolith for a row of the rate array whose time is
    rendered as [time]. *)
Definition rate_candle (time : string) (r : Monolith.rate) : Monolith.candle :=
  {| Monolith.c_time := time; Monolith.c_open := Monolith.rate_1 r;
     Monolith.c_high := Monolith.rate_2 r; Monolith.c_low := Monolith.rate_3 r;
     Monolith.c_close := Monolith.rate_4 r; Monolith.c_volume := Monolith.rate_7 r |}.

End Spec.

(* ===================================================================== *)
(** * Properties *)
(* ===================================================================== *)

Import Py.
Import Spec.

Ltac head_cond t :=
  lazymatch t with
  | mbind _ ?m => head_cond m
  | raise_if ?c _ => c
  end.

(** Case analysis on the first [if c: raise e] of the computation under
    scrutiny. *)
Ltac case_raise_if :=
  lazymatch goal with
  | |- match ?X with Ok _ => _ | Raise _ => _ end =>
      let c := head_cond X in
      let E := fresh "E" in
      destruct c eqn:E; cbn [raise_if mbind result_bind mret result_ret]
  end.

(** Order facts on canonical rationals, decided on the underlying
    rationals. *)
Ltac qc_order :=
  unfold Qcle, Qclt, Qcminus, Qcplus, Qcopp, Qcmult, Q2Qc in *;
  cbn [this] in *; rewrite ?Qred_correct in *; lra.

(** ** Comparisons of rationals *)

Lemma Qc_ltb_lt (x y : Qc) : Qc_ltb x y = true <-> (x < y)%Qc.
Proof. unfold Qc_ltb. apply bool_decide_eq_true. Qed.

Lemma Qc_leb_le (x y : Qc) : Qc_leb x y = true <-> (x <= y)%Qc.
Proof. unfold Qc_leb. apply bool_decide_eq_true. Qed.

Lemma Qc_ltb_ge (x y : Qc) : Qc_ltb x y = false <-> (y <= x)%Qc.
Proof.
  unfold Qc_ltb. rewrite bool_decide_eq_false. split.
  - apply Qcnot_lt_le.
  - apply Qcle_not_lt.
Qed.

Lemma Qc_leb_gt (x y : Qc) : Qc_leb x y = false <-> (y < x)%Qc.
Proof.
  unfold Qc_leb. rewrite bool_decide_eq_false. split.
  - apply Qcnot_le_lt.
  - apply Qclt_not_le.
Qed.

Lemma Qc_eqb_eq (x y : Qc) : Qc_eqb x y = true <-> x = y.
Proof. unfold Qc_eqb. apply bool_decide_eq_true. Qed.

Lemma truthy_str_nonempty (s : string) : truthy_str s = true <-> s <> "".
Proof. destruct s; simpl; split; congruence. Qed.

(** ** The accepted keys of the monolith *)

Lemma API_KEYS_head (env : Monolith.environ) :
  exists rest, Monolith.API_KEYS env = Monolith.DEFAULT_API_KEY :: rest.
Proof.
  unfold Monolith.API_KEYS, Monolith.API_KEYS_nested.
  cbn [flat_map]. rewrite filter_cons.
  destruct (decide (truthy_str Monolith.DEFAULT_API_KEY = true)) as [_|n].
  - eexists. reflexivity.
  - exfalso. apply n. reflexivity.
Qed.

(** C10: whatever the environment holds for [API_KEYS], the accepted-key
    list of the monolith contains the built-in key, is not empty, makes the
    emptiness test of the middleware false, and no request leaves the
    middleware through the branch guarded by that test. *)
Theorem monolith_api_keys_never_empty (env : Monolith.environ) :
  Monolith.DEFAULT_API_KEY ∈ Monolith.API_KEYS env
  /\ Monolith.API_KEYS env <> []
  /\ Monolith.keys_empty (Monolith.API_KEYS env) = false
  /\ forall request : Monolith.Request,
       Monolith.auth_middleware_exit (Monolith.API_KEYS env) request
       <> Monolith.ReturnNoKeys.
Proof.
  destruct (API_KEYS_head env) as [rest E]. rewrite E.
  split; [ apply list_elem_of_here | ].
  split; [ discriminate | ].
  split; [ reflexivity | ].
  intros request. unfold Monolith.auth_middleware_exit.
  change (Monolith.keys_empty (Monolith.DEFAULT_API_KEY :: rest)) with false.
  cbv iota.
  repeat match goal with
         | |- context [if ?c then _ else _] => destruct c
         end; discriminate.
Qed.

(** ** The path test of the middlewares *)

Lemma startswith_slash (p : string) : startswith (String "/" p) "/" = true.
Proof. unfold startswith. simpl. destruct p; reflexivity. Qed.

Lemma monolith_slash_is_public (keys : list string) (p : string)
    (hs : gmap string string) :
  Monolith.auth_middleware_exit keys
    {| Monolith.url_path := String "/" p; Monolith.headers := hs |}
  = Monolith.ReturnPublic.
Proof.
  unfold Monolith.auth_middleware_exit, Monolith.public_paths, any.
  cbn [existsb Monolith.url_path]. rewrite startswith_slash. reflexivity.
Qed.

(** C1: evaluation of both middlewares on a request for the protected
    endpoint [/GetSymbols/] that carries no key, with the built-in key
    configured: the request is handed to the route, no 401 is produced.
    The prefix ["/"] in the list of public paths matches every path. *)
Theorem auth_unauthenticated_request_passes
    (call_next : Monolith.Request -> Monolith.Response)
    (call_next' : Layered.Request -> Layered.Response)
    (process_time : string) :
  Monolith.API_KEYS ∅ = [Monolith.DEFAULT_API_KEY]
  /\ Monolith.auth_middleware_exit (Monolith.API_KEYS ∅)
       Examples.monolith_unauthenticated = Monolith.ReturnPublic
  /\ Monolith.auth_middleware (Monolith.API_KEYS ∅) call_next process_time
       Examples.monolith_unauthenticated
     = call_next Examples.monolith_unauthenticated
  /\ Layered.dispatch ∅ call_next' process_time Examples.layered_unauthenticated
     = call_next' Examples.layered_unauthenticated.
Proof.
  split; [ reflexivity | ].
  split; [ reflexivity | ].
  split; reflexivity.
Qed.

(** ** Construction of a [Ticker] *)

Lemma max__le (x y h : Qc) : (max_ x y <= h)%Qc <-> (x <= h)%Qc /\ (y <= h)%Qc.
Proof.
  unfold max_. destruct (Qc_ltb x y) eqn:E.
  - apply Qc_ltb_lt in E. split.
    + intros H. split; [ | exact H ].
      apply Qclt_le_weak. eapply Qclt_le_trans; eauto.
    + tauto.
  - apply Qc_ltb_ge in E. split.
    + intros H. split; [ exact H | ]. eapply Qcle_trans; eauto.
    + tauto.
Qed.

Lemma le_min_ (x y l : Qc) : (l <= min_ x y)%Qc <-> (l <= x)%Qc /\ (l <= y)%Qc.
Proof.
  unfold min_. destruct (Qc_ltb y x) eqn:E.
  - apply Qc_ltb_lt in E. split.
    + intros H. split; [ | exact H ].
      apply Qclt_le_weak. eapply Qcle_lt_trans; eauto.
    + tauto.
  - apply Qc_ltb_ge in E. split.
    + intros H. split; [ exact H | ]. eapply Qcle_trans; eauto.
    + tauto.
Qed.

Lemma layered_new_Ticker_cases (symbol : string) (tf : Layered.TimeFrame)
    (time : Z) (o h l c : Qc) (v : Z) :
  match Layered.new_Ticker symbol tf time o h l c v with
  | Ok t =>
      ticker_ok symbol o h l c v
      /\ t = {| Layered.symbol := symbol; Layered.timeframe := tf;
                Layered.timestamp := time; Layered.open_price := o;
                Layered.high_price := h; Layered.low_price := l;
                Layered.close_price := c; Layered.volume := v |}
  | Raise e => ~ ticker_ok symbol o h l c v /\ exists msg, e = ValueError msg
  end.
Proof.
  unfold Layered.new_Ticker, Layered.Ticker_post_init, ticker_ok.
  cbn [Layered.symbol Layered.high_price Layered.low_price Layered.open_price
       Layered.close_price Layered.volume].
  case_raise_if.
  { split; [ | eauto ]. intros (Hs & _).
    apply truthy_str_nonempty in Hs. rewrite Hs in E. discriminate. }
  apply negb_false_iff, truthy_str_nonempty in E.
  case_raise_if.
  { split; [ | eauto ]. intros (_ & Hh & _).
    apply Qc_ltb_lt in E0. exact (Qcle_not_lt _ _ Hh E0). }
  apply Qc_ltb_ge in E0.
  case_raise_if.
  { split; [ | eauto ]. intros (_ & _ & Hl & _).
    apply Qc_ltb_lt in E1. exact (Qcle_not_lt _ _ Hl E1). }
  apply Qc_ltb_ge in E1.
  case_raise_if.
  { split; [ | eauto ]. intros (_ & _ & _ & Hv).
    apply Z.ltb_lt in E2. lia. }
  apply Z.ltb_ge in E2. split; [ tauto | reflexivity ].
Qed.

Lemma client_new_Ticker_cases (symbol : string) (time : Z) (o h l c : Qc) (v : Z) :
  match Client.new_Ticker symbol time o h l c (VInt v) with
  | Ok t =>
      ticker_ok symbol o h l c v
      /\ t = {| Client.symbol := symbol; Client.time := time; Client.open := o;
                Client.high := h; Client.low := l; Client.close := c;
                Client.volume := VInt v |}
  | Raise e => ~ ticker_ok symbol o h l c v /\ exists msg, e = ValueError msg
  end.
Proof.
  unfold Client.new_Ticker, Client.Ticker_post_init, ticker_ok.
  cbn [Client.symbol Client.high Client.low Client.open Client.close
       Client.volume lt_int].
  case_raise_if.
  { split; [ | eauto ]. intros (Hs & _).
    apply truthy_str_nonempty in Hs. rewrite Hs in E. discriminate. }
  apply negb_false_iff, truthy_str_nonempty in E.
  case_raise_if.
  { split; [ | eauto ]. intros (_ & Hh & Hl & _).
    apply max__le in Hh. apply le_min_ in Hl.
    apply Qc_ltb_lt in E0.
    exact (Qcle_not_lt _ _ (Qcle_trans _ _ _ (proj1 Hl) (proj1 Hh)) E0). }
  case_raise_if.
  { split; [ | eauto ]. intros (_ & Hh & Hl & _).
    apply max__le in Hh. apply le_min_ in Hl.
    destruct Hh as [Ho _], Hl as [Hl _].
    apply Qc_leb_le in Hl, Ho. rewrite Hl, Ho in E1. discriminate. }
  apply negb_false_iff, andb_true_iff in E1. destruct E1 as [Hlo Hoh].
  case_raise_if.
  { split; [ | eauto ]. intros (_ & Hh & Hl & _).
    apply max__le in Hh. apply le_min_ in Hl.
    destruct Hh as [_ Hc], Hl as [_ Hl].
    apply Qc_leb_le in Hl, Hc. rewrite Hl, Hc in E1. discriminate. }
  apply negb_false_iff, andb_true_iff in E1. destruct E1 as [Hlc Hch].
  apply Qc_leb_le in Hlo, Hoh, Hlc, Hch.
  cbn [mbind result_bind].
  case_raise_if.
  { split; [ | eauto ]. intros (_ & _ & _ & Hv).
    apply Z.ltb_lt in E1. lia. }
  apply Z.ltb_ge in E1.
  split; [ | reflexivity ].
  split; [ exact E | ].
  split; [ apply max__le; tauto | ].
  split; [ apply le_min_; tauto | exact E1 ].
Qed.

Lemma example_candle_not_ok (symbol : string) (l : Qc) (v : Z) :
  ~ ticker_ok symbol (dec 110 2) (dec 111 2) l (dec 112 2) v.
Proof.
  intros (_ & Hh & _). apply max__le in Hh. destruct Hh as [_ Hh].
  revert Hh. apply Qclt_not_le. reflexivity.
Qed.

(** C3: a [Ticker], on the client and on the layered server, is
    constructed exactly when the symbol is not empty, high >= max(open,
    close), low <= min(open, close) and volume >= 0; it then holds the fields
    it was given; every other construction raises [ValueError].  With open =
    1.10, close = 1.12 and high = 1.11 the construction fails. *)
Theorem ticker_constructed_iff_invariants (symbol : string)
    (tf : Layered.TimeFrame) (time : Z) (o h l c : Qc) (v : Z) :
  (is_ok (Client.new_Ticker symbol time o h l c (VInt v)) = true
   <-> ticker_ok symbol o h l c v)
  /\ (is_ok (Layered.new_Ticker symbol tf time o h l c v) = true
      <-> ticker_ok symbol o h l c v)
  /\ (ticker_ok symbol o h l c v ->
      Client.new_Ticker symbol time o h l c (VInt v)
      = Ok {| Client.symbol := symbol; Client.time := time; Client.open := o;
              Client.high := h; Client.low := l; Client.close := c;
              Client.volume := VInt v |}
      /\ Layered.new_Ticker symbol tf time o h l c v
         = Ok {| Layered.symbol := symbol; Layered.timeframe := tf;
                 Layered.timestamp := time; Layered.open_price := o;
                 Layered.high_price := h; Layered.low_price := l;
                 Layered.close_price := c; Layered.volume := v |})
  /\ (~ ticker_ok symbol o h l c v ->
      (exists msg, Client.new_Ticker symbol time o h l c (VInt v)
                   = Raise (ValueError msg))
      /\ (exists msg, Layered.new_Ticker symbol tf time o h l c v
                      = Raise (ValueError msg)))
  /\ is_ok (Client.new_Ticker symbol time (dec 110 2) (dec 111 2) l (dec 112 2)
                              (VInt v)) = false
  /\ is_ok (Layered.new_Ticker symbol tf time (dec 110 2) (dec 111 2) l
                               (dec 112 2) v) = false.
Proof.
  pose proof (client_new_Ticker_cases symbol time o h l c v) as HC.
  pose proof (layered_new_Ticker_cases symbol tf time o h l c v) as HL.
  pose proof (client_new_Ticker_cases symbol time (dec 110 2) (dec 111 2) l
                (dec 112 2) v) as HC'.
  pose proof (layered_new_Ticker_cases symbol tf time (dec 110 2) (dec 111 2) l
                (dec 112 2) v) as HL'.
  pose proof (example_candle_not_ok symbol l v) as Hex.
  set (P := ticker_ok symbol o h l c v) in *.
  set (P' := ticker_ok symbol (dec 110 2) (dec 111 2) l (dec 112 2) v) in *.
  clearbody P P'.
  destruct (Client.new_Ticker symbol time o h l c (VInt v)) as [tc|ec];
    destruct (Layered.new_Ticker symbol tf time o h l c v) as [tl|el];
    destruct (Client.new_Ticker _ _ (dec 110 2) _ _ _ _) as [tc'|ec'];
    destruct (Layered.new_Ticker _ _ _ (dec 110 2) _ _ _ _) as [tl'|el'];
    cbn [is_ok]; try tauto;
    destruct HC as [HC1 HC2]; destruct HL as [HL1 HL2]; try tauto.
  - subst tc tl. intuition (try discriminate; eauto).
  - destruct HC2 as [mc ->], HL2 as [ml ->].
    intuition (try discriminate; eauto).
Qed.

(** The theorem applied to the candle open 1.10, high 1.12, low 1.09, close
    1.11, volume 100 of EURUSD: it is constructed on both sides. *)
Lemma ticker_constructed_iff_invariants_witness :
  ticker_ok "EURUSD" (dec 110 2) (dec 112 2) (dec 109 2) (dec 111 2) 100
  /\ is_ok (Client.new_Ticker "EURUSD" 0 (dec 110 2) (dec 112 2) (dec 109 2)
                              (dec 111 2) (VInt 100)) = true
  /\ is_ok (Layered.new_Ticker "EURUSD" Layered.M1 0 (dec 110 2) (dec 112 2)
                               (dec 109 2) (dec 111 2) 100) = true.
Proof.
  assert (Hok : ticker_ok "EURUSD" (dec 110 2) (dec 112 2) (dec 109 2)
                  (dec 111 2) 100).
  { split; [ discriminate | ].
    split; [ apply Qc_leb_le; vm_compute; reflexivity | ].
    split; [ apply Qc_leb_le; vm_compute; reflexivity | lia ]. }
  pose proof (ticker_constructed_iff_invariants "EURUSD" Layered.M1 0
                (dec 110 2) (dec 112 2) (dec 109 2) (dec 111 2) 100)
    as (Hc & Hl & _).
  split; [ exact Hok | ].
  split; [ apply Hc; exact Hok | apply Hl; exact Hok ].
Defined.

(** ** Validation of a trade request *)

Lemma truthy_opt_Decimal_Some (d : Qc) :
  Layered.truthy_opt_Decimal (Some d) = true <-> d <> 0%Qc.
Proof.
  cbn. rewrite negb_true_iff. unfold Qc_eqb. rewrite bool_decide_eq_false.
  reflexivity.
Qed.

Lemma validate_cases (r : Layered.TradeRequest) :
  match Layered.validate r with
  | Ok _ => ~ invalid_trade_request r
  | Raise e => invalid_trade_request r /\ exists msg, e = ValueError msg
  end.
Proof.
  destruct r as [sym vol ot p sl tp dev com mag].
  unfold Layered.validate, invalid_trade_request.
  cbn [Layered.tr_symbol Layered.tr_volume Layered.order_type Layered.price
       Layered.stop_loss Layered.take_profit Layered.deviation].
  case_raise_if.
  { split; [ | eauto ]. left.
    apply negb_true_iff in E. destruct sym; [ reflexivity | discriminate ]. }
  apply negb_false_iff, truthy_str_nonempty in E.
  case_raise_if.
  { split; [ | eauto ]. right; left. apply Qc_leb_le. exact E0. }
  apply Qc_leb_gt in E0.
  case_raise_if.
  { split; [ | eauto ]. right; right; left. apply Z.ltb_lt. exact E1. }
  apply Z.ltb_ge in E1.
  assert (Hbase : forall Q : Prop,
             (sym = "" \/ (vol <= 0)%Qc \/ dev < 0 \/ Q) -> Q).
  { intros Q [H|[H|[H|H]]]; [ congruence | | lia | exact H ].
    exfalso. exact (Qclt_not_le _ _ E0 H). }
  destruct (Layered.truthy_opt_Decimal p && Layered.truthy_opt_Decimal sl
            && Layered.truthy_opt_Decimal tp) eqn:Et.
  - apply andb_true_iff in Et. destruct Et as [Et Htp].
    apply andb_true_iff in Et. destruct Et as [Hp Hsl].
    destruct p as [p|]; [ | discriminate ].
    destruct sl as [sl|]; [ | discriminate ].
    destruct tp as [tp|]; [ | discriminate ].
    apply truthy_opt_Decimal_Some in Hp, Hsl, Htp.
    destruct ot.
    + case_raise_if.
      { split; [ | eauto ]. right; right; right.
        exists p, sl, tp. repeat (split; [ assumption || reflexivity | ]).
        left. apply Qc_leb_le. exact E2. }
      apply Qc_leb_gt in E2.
      case_raise_if.
      { split; [ | eauto ]. right; right; right.
        exists p, sl, tp. repeat (split; [ assumption || reflexivity | ]).
        right. apply Qc_leb_le. exact E3. }
      apply Qc_leb_gt in E3.
      intros H. apply Hbase in H.
      destruct H as (p' & sl' & tp' & Ep & Esl & Etp & _ & _ & _ & [H|H]);
        injection Ep as <-; injection Esl as <-; injection Etp as <-.
      * exact (Qclt_not_le _ _ E2 H).
      * exact (Qclt_not_le _ _ E3 H).
    + case_raise_if.
      { split; [ | eauto ]. right; right; right.
        exists p, sl, tp. repeat (split; [ assumption || reflexivity | ]).
        left. apply Qc_leb_le. exact E2. }
      apply Qc_leb_gt in E2.
      case_raise_if.
      { split; [ | eauto ]. right; right; right.
        exists p, sl, tp. repeat (split; [ assumption || reflexivity | ]).
        right. apply Qc_leb_le. exact E3. }
      apply Qc_leb_gt in E3.
      intros H. apply Hbase in H.
      destruct H as (p' & sl' & tp' & Ep & Esl & Etp & _ & _ & _ & [H|H]);
        injection Ep as <-; injection Esl as <-; injection Etp as <-.
      * exact (Qclt_not_le _ _ E2 H).
      * exact (Qclt_not_le _ _ E3 H).
  - cbn [mret result_ret].
    intros H. apply Hbase in H.
    destruct H as (p' & sl' & tp' & -> & -> & -> & Hp & Hsl & Htp & _).
    apply truthy_opt_Decimal_Some in Hp, Hsl, Htp.
    rewrite Hp, Hsl, Htp in Et. discriminate.
Qed.

(** C7, as the code has it: [validate] raises, and then a [ValueError],
    exactly when the symbol is empty, the volume is not positive, the
    deviation is negative, or price, stop loss and take profit are all given
    and different from zero and the levels are on the wrong side of the
    price; otherwise it returns.  The BUY request with price 1.1000, stop
    loss 1.0990 and take profit 1.1050 passes; with stop loss 1.1010 it
    fails. *)
Theorem trade_request_validate_iff (r : Layered.TradeRequest) :
  (is_ok (Layered.validate r) = false <-> invalid_trade_request r)
  /\ (invalid_trade_request r ->
      exists msg, Layered.validate r = Raise (ValueError msg))
  /\ (~ invalid_trade_request r -> Layered.validate r = Ok tt)
  /\ Layered.validate
       (Examples.buy_request (Some (dec 10990 4)) (Some (dec 11050 4))) = Ok tt
  /\ is_ok (Layered.validate
              (Examples.buy_request (Some (dec 11010 4)) (Some (dec 11050 4))))
     = false.
Proof.
  pose proof (validate_cases r) as H.
  destruct (Layered.validate r) as [[]|e]; cbn [is_ok].
  - repeat split; try tauto; try discriminate; try reflexivity.
  - destruct H as [Hi [msg ->]].
    repeat split; try tauto; try discriminate; try reflexivity.
    intros _. eauto.
Qed.

(** The theorem applied to the failing BUY request of the specification. *)
Lemma trade_request_validate_iff_witness :
  invalid_trade_request
    (Examples.buy_request (Some (dec 11010 4)) (Some (dec 11050 4)))
  /\ exists msg,
       Layered.validate
         (Examples.buy_request (Some (dec 11010 4)) (Some (dec 11050 4)))
       = Raise (ValueError msg).
Proof.
  assert (Hi : invalid_trade_request
                 (Examples.buy_request (Some (dec 11010 4)) (Some (dec 11050 4)))).
  { right; right; right.
    exists (dec 11000 4), (dec 11010 4), (dec 11050 4).
    repeat (split; [ reflexivity || discriminate | ]).
    left. apply Qc_leb_le. vm_compute. reflexivity. }
  split; [ exact Hi | ].
  exact (proj1 (proj2 (trade_request_validate_iff _)) Hi).
Defined.

(** C7 as stated fails: a BUY request with price 1.1000, a stop loss given
    as 0 and a take profit of 1.0000, which is not above the price, is
    invalid in the words of the specification and is accepted by
    [validate]. *)
Lemma trade_request_zero_level_accepted :
  invalid_as_specified Examples.buy_zero_stop
  /\ Layered.validate Examples.buy_zero_stop = Ok tt.
Proof.
  split; [ | reflexivity ].
  right; right; right.
  exists (dec 11000 4), 0%Qc, (dec 10000 4).
  repeat (split; [ reflexivity | ]).
  right. apply Qc_leb_le. vm_compute. reflexivity.
Qed.

(** ** The symbol-list validator *)



Lemma upper_empty_iff (s : string) : upper s = "" <-> s = "".
Proof. destruct s; cbn; split; congruence. Qed.




(** ** The sentiment of the market analysis *)

Lemma exceeds_60_percent_iff (count total : nat) :
  Client.exceeds_60_percent count total = true <-> (3 * total < 5 * count)%nat.
Proof.
  unfold Client.exceeds_60_percent. rewrite Qc_ltb_lt.
  unfold Qclt, Client.Qc_of_nat, Qc_of_Z.
  cbn [this Qcmult Q2Qc]. rewrite !Qred_correct.
  change (this (dec 6 1)) with (3 # 5)%Q.
  unfold Qlt, Qmult, inject_Z. cbn [Qnum Qden]. lia.
Qed.

Lemma is_valid_iff (p : Client.SymbolPercentChange) :
  Client.is_valid p = true <-> Client.error p = None.
Proof. unfold Client.is_valid. destruct (Client.error p); split; congruence. Qed.

Lemma valid_changes_error_free (l : list Client.SymbolPercentChange) :
  filter (fun pct => Client.is_valid pct = true) l = error_free l.
Proof. apply list_filter_iff. intros p. apply is_valid_iff. Qed.

Lemma positive_changes_positives (l : list Client.SymbolPercentChange) :
  filter (fun pct => Client.is_positive pct = true) (error_free l) = positives l.
Proof.
  unfold error_free, positives. rewrite list_filter_filter.
  apply list_filter_iff. intros p. unfold Client.is_positive.
  rewrite andb_true_iff, is_valid_iff, Qc_ltb_lt. tauto.
Qed.

Lemma negative_changes_negatives (l : list Client.SymbolPercentChange) :
  filter (fun pct => Client.is_negative pct = true) (error_free l) = negatives l.
Proof.
  unfold error_free, negatives. rewrite list_filter_filter.
  apply list_filter_iff. intros p. unfold Client.is_negative.
  rewrite andb_true_iff, is_valid_iff, Qc_ltb_lt. tauto.
Qed.

Lemma positives_negatives_bound (l : list Client.SymbolPercentChange) :
  (length (positives l) + length (negatives l) <= length (error_free l))%nat.
Proof.
  unfold positives, negatives, error_free.
  induction l as [|p l IH]; [ reflexivity | ].
  rewrite !filter_cons.
  repeat case_decide; cbn [length]; try lia; try tauto.
  exfalso.
  match goal with
  | H1 : _ /\ (0 < ?x)%Qc, H2 : _ /\ (?x < 0)%Qc |- _ =>
      exact (Qclt_not_le _ _ (proj2 H1) (Qclt_le_weak _ _ (proj2 H2)))
  end.
Qed.

Lemma statistics_of_nonempty {F} (float_ : Qc -> F) (symbols : list string)
    (pcs : list Client.SymbolPercentChange) :
  error_free pcs <> [] ->
  Client.statistics_of float_ symbols pcs
  = {| Client.total_symbols := length symbols;
       Client.valid_symbols := length (error_free pcs);
       Client.positive_count := length (positives pcs);
       Client.negative_count := length (negatives pcs);
       Client.average_change :=
         float_ (Client.sum_Qc (map Client.pct_change (error_free pcs))
                 / Client.Qc_of_nat (length (error_free pcs)))%Qc;
       Client.market_sentiment :=
         if Client.exceeds_60_percent (length (positives pcs))
                                      (length (error_free pcs))
         then "bullish"
         else if Client.exceeds_60_percent (length (negatives pcs))
                                           (length (error_free pcs))
              then "bearish" else "neutral" |}.
Proof.
  intros Hne. unfold Client.statistics_of.
  rewrite valid_changes_error_free.
  rewrite <- positive_changes_positives, <- negative_changes_negatives.
  destruct (error_free pcs) as [|p l]; [ congruence | reflexivity ].
Qed.

Lemma statistics_of_empty {F} (float_ : Qc -> F) (symbols : list string)
    (pcs : list Client.SymbolPercentChange) :
  error_free pcs = [] ->
  Client.statistics_of float_ symbols pcs
  = {| Client.total_symbols := length symbols;
       Client.valid_symbols := 0;
       Client.positive_count := 0;
       Client.negative_count := 0;
       Client.average_change := float_ 0%Qc;
       Client.market_sentiment := "unknown" |}.
Proof.
  intros He. unfold Client.statistics_of.
  rewrite valid_changes_error_free, He. reflexivity.
Qed.

(** C6: with [n] error-free entries of which [pos] are positive and [neg]
    negative, the statistics report these counts; for [n > 0] the sentiment is
    "bullish" exactly when [pos] exceeds 60% of [n] (3n < 5 pos), "bearish"
    exactly when [neg] exceeds 60% of [n], and "neutral" otherwise; for [n = 0]
    the sentiment is "unknown", the counts are zero and the average change is
    0.  [analyze_symbols] returns these statistics whenever its two repository
    calls return. *)
Theorem market_sentiment_classification {F} (float_ : Qc -> F)
    (symbols : list string) (pcs : list Client.SymbolPercentChange) :
  let st := Client.statistics_of float_ symbols pcs in
  let n := length (error_free pcs) in
  let pos := length (positives pcs) in
  let neg := length (negatives pcs) in
  Client.valid_symbols st = n
  /\ (n <> 0%nat ->
      Client.positive_count st = pos /\ Client.negative_count st = neg
      /\ (Client.market_sentiment st = "bullish" <-> (3 * n < 5 * pos)%nat)
      /\ (Client.market_sentiment st = "bearish" <-> (3 * n < 5 * neg)%nat)
      /\ (Client.market_sentiment st = "neutral"
          <-> ~ (3 * n < 5 * pos)%nat /\ ~ (3 * n < 5 * neg)%nat))
  /\ (n = 0%nat ->
      Client.market_sentiment st = "unknown"
      /\ Client.positive_count st = 0%nat /\ Client.negative_count st = 0%nat
      /\ Client.valid_symbols st = 0%nat
      /\ Client.average_change st = float_ 0%Qc)
  /\ (forall (repository : Client.IMT5Repository) (timeframe : Z)
        (mds : list Client.MarketData),
        Client.get_multiple_market_data repository symbols = Ok mds ->
        Client.get_symbols_percent_change repository symbols timeframe = Ok pcs ->
        exists a, Client.analyze_symbols float_ repository symbols timeframe = Ok a
                  /\ Client.stats a = st).
Proof.
  intros st n pos neg.
  assert (Ha : forall (repository : Client.IMT5Repository) (timeframe : Z)
                 (mds : list Client.MarketData),
             Client.get_multiple_market_data repository symbols = Ok mds ->
             Client.get_symbols_percent_change repository symbols timeframe
             = Ok pcs ->
             exists a,
               Client.analyze_symbols float_ repository symbols timeframe = Ok a
               /\ Client.stats a = st).
  { intros repository timeframe mds H1 H2. unfold Client.analyze_symbols.
    rewrite H1, H2. eexists. split; reflexivity. }
  revert Ha. generalize (forall (repository : Client.IMT5Repository)
                           (timeframe : Z) (mds : list Client.MarketData),
             Client.get_multiple_market_data repository symbols = Ok mds ->
             Client.get_symbols_percent_change repository symbols timeframe
             = Ok pcs ->
             exists a,
               Client.analyze_symbols float_ repository symbols timeframe = Ok a
               /\ Client.stats a = st).
  intros A Ha. subst st n pos neg.
  pose proof (positives_negatives_bound pcs) as Hb.
  destruct (error_free pcs) as [|p0 l0] eqn:He.
  - rewrite (statistics_of_empty float_ symbols pcs He).
    cbn [length Client.valid_symbols Client.market_sentiment
         Client.positive_count Client.negative_count Client.average_change].
    split; [ reflexivity | ].
    split; [ congruence | ].
    split; [ intros _; repeat split | exact Ha ].
  - assert (Hne : error_free pcs <> []) by (rewrite He; discriminate).
    rewrite (statistics_of_nonempty float_ symbols pcs Hne).
    rewrite He in *.
    set (n := length (p0 :: l0)) in *.
    set (pos := length (positives pcs)) in *.
    set (neg := length (negatives pcs)) in *.
    cbn [Client.valid_symbols Client.market_sentiment
         Client.positive_count Client.negative_count Client.average_change].
    split; [ reflexivity | ].
    split.
    { intros _. split; [ reflexivity | ]. split; [ reflexivity | ].
      pose proof (exceeds_60_percent_iff pos n) as Hp.
      pose proof (exceeds_60_percent_iff neg n) as Hn.
      destruct (Client.exceeds_60_percent pos n);
        destruct (Client.exceeds_60_percent neg n);
        repeat split; intros; try discriminate; try reflexivity;
        try (apply Hp; reflexivity); try (apply Hn; reflexivity);
        try (exfalso; lia);
        try (intros Hc; apply Hp in Hc; discriminate);
        try (intros Hc; apply Hn in Hc; discriminate).
      all: try (destruct Hp as [Hp _]; specialize (Hp eq_refl)).
      all: try (destruct Hn as [Hn _]; specialize (Hn eq_refl)).
      all: try lia.
      all: try (match goal with H : ~ _ /\ ~ _ |- _ => destruct H; tauto end). }
    split; [ subst n; cbn [length]; congruence | exact Ha ].
Qed.

(** The theorem applied to the percent changes [+1, +2, +3, -1, +0.5] of the
    specification: four of five are positive, the sentiment is "bullish". *)
Lemma market_sentiment_classification_witness :
  length (error_free Examples.bullish_changes) <> 0%nat
  /\ Client.market_sentiment
       (Client.statistics_of (fun q : Qc => q) [] Examples.bullish_changes)
     = "bullish".
Proof.
  assert (Hn : length (error_free Examples.bullish_changes) <> 0%nat)
    by (vm_compute; discriminate).
  split; [ exact Hn | ].
  pose proof (market_sentiment_classification (fun q : Qc => q) []
                Examples.bullish_changes) as H.
  cbv zeta in H. destruct H as (_ & H & _).
  destruct (H Hn) as (_ & _ & Hb & _).
  apply Hb. vm_compute. lia.
Defined.

(** ** The current price of a market-data aggregate *)

Lemma current_price_derivation (md : Client.MarketData) :
  Client.current_price md
  = match Client.latest_ticker md with
    | Some t => Some (Client.close t)
    | None =>
        match Client.tickers md with
        | Some l => Client.close <$> last l
        | None => None
        end
    end.
Proof.
  unfold Client.current_price.
  destruct (Client.latest_ticker md); [ reflexivity | ].
  destruct (Client.tickers md) as [[|t l]|]; reflexivity.
Qed.

(** C5, as the code has it: the derived current price is the close of the
    latest ticker when there is one, else the close of the last element of
    the tickers, else absent; the [current_price] of the response is the
    float of the derived price when that price is present and not zero, and
    absent when the derived price is absent or zero.  In particular the two
    agree whenever the derived price is not zero. *)
Theorem market_data_response_current_price {F} (float_ : Qc -> F)
    (md : Client.MarketData) :
  Client.current_price md
  = match Client.latest_ticker md with
    | Some t => Some (Client.close t)
    | None =>
        match Client.tickers md with
        | Some l => Client.close <$> last l
        | None => None
        end
    end
  /\ Client.r_current_price (Client.from_entity float_ md)
     = match Client.current_price md with
       | Some p => if decide (p = 0%Qc) then None else Some (float_ p)
       | None => None
       end
  /\ (Client.current_price md <> Some 0%Qc ->
      Client.r_current_price (Client.from_entity float_ md)
      = float_ <$> Client.current_price md).
Proof.
  split; [ apply current_price_derivation | ].
  assert (H : Client.r_current_price (Client.from_entity float_ md)
              = match Client.current_price md with
                | Some p => if decide (p = 0%Qc) then None else Some (float_ p)
                | None => None
                end).
  { unfold Client.from_entity. cbn [Client.r_current_price].
    destruct (Client.current_price md) as [p|]; [ | reflexivity ].
    cbn [Client.truthy_opt_Decimal]. unfold Qc_eqb.
    destruct (decide (p = 0%Qc)) as [->|Hp].
    - rewrite bool_decide_eq_true_2 by reflexivity. reflexivity.
    - rewrite bool_decide_eq_false_2 by exact Hp. reflexivity. }
  split; [ exact H | ].
  intros Hnz. rewrite H.
  destruct (Client.current_price md) as [p|]; [ | reflexivity ].
  destruct (decide (p = 0%Qc)) as [->|Hp]; [ congruence | reflexivity ].
Qed.

(** The theorem applied to the aggregate whose latest candle closes at
    1.1050: the response carries that price. *)
Lemma market_data_response_current_price_witness :
  Client.current_price (Examples.market_data_at (dec 11050 4)) <> Some 0%Qc
  /\ Client.r_current_price
       (Client.from_entity (fun q : Qc => q) (Examples.market_data_at (dec 11050 4)))
     = Some (dec 11050 4).
Proof.
  assert (Hnz : Client.current_price (Examples.market_data_at (dec 11050 4))
                <> Some 0%Qc).
  { cbn. intros H. injection H as H. discriminate H. }
  split; [ exact Hnz | ].
  rewrite (proj2 (proj2 (market_data_response_current_price (fun q : Qc => q)
                           (Examples.market_data_at (dec 11050 4)))) Hnz).
  reflexivity.
Defined.

(** C5 as stated fails at the boundary price 0: the all-zero candle and the
    aggregate holding it are constructed without error, the derived current
    price is 0, and the response reports no current price. *)
Lemma market_data_response_drops_zero_price :
  Client.new_Ticker "EURUSD" 0 0%Qc 0%Qc 0%Qc 0%Qc (VInt 0)
  = Ok (Examples.flat_candle 0%Qc)
  /\ Client.new_MarketData Examples.EURUSD (Some (Examples.flat_candle 0%Qc))
       None None
     = Ok (Examples.market_data_at 0%Qc)
  /\ Client.current_price (Examples.market_data_at 0%Qc) = Some 0%Qc
  /\ Client.r_current_price
       (Client.from_entity (fun q : Qc => q) (Examples.market_data_at 0%Qc))
     = None
  /\ Client.r_current_price
       (Client.from_entity (fun q : Qc => q) (Examples.market_data_at 0%Qc))
     <> (fun q : Qc => q) <$> Client.current_price (Examples.market_data_at 0%Qc).
Proof.
  repeat split; try reflexivity. discriminate.
Qed.

(** ** Percent change of a batch of symbols *)

Lemma foldl_snoc_map {A B} (f : A -> B) (l : list A) (init : list B) :
  foldl (fun results x => (results ++ [f x])%list) init l
  = (init ++ map f l)%list.
Proof.
  revert init. induction l as [|x l IH]; intros init; cbn [foldl map].
  - rewrite app_nil_r. reflexivity.
  - rewrite IH, <- app_assoc. reflexivity.
Qed.

Lemma round_zero (n : nat) : round 0%Qc n = 0%Qc.
Proof.
  unfold round. rewrite Qcmult_0_l.
  change (round_half_even 0%Qc) with 0.
  change (Qc_of_Z 0) with 0%Qc.
  unfold Qcdiv. apply Qcmult_0_l.
Qed.

(** ** Rounding *)

Lemma round_half_even_cases (n d : Z) : 0 < d ->
  let k := match 2 * (n mod d) ?= d with
           | Lt => n / d
           | Gt => n / d + 1
           | Eq => if Z.even (n / d) then n / d else n / d + 1
           end in
  - d <= 2 * (k * d - n) <= d.
Proof.
  intros Hd k. subst k.
  pose proof (Z.div_mod n d ltac:(lia)) as Hdm.
  pose proof (Z.mod_pos_bound n d Hd) as Hm.
  destruct (Z.compare_spec (2 * (n mod d)) d) as [H|H|H];
    [ destruct (Z.even (n / d)) | | ]; nia.
Qed.

(** The nearest integer is at most one half away. *)
Lemma round_half_even_spec (y : Qc) :
  (Qcabs (Qc_of_Z (round_half_even y) - y) <= Q2Qc (1 # 2))%Qc.
Proof.
  apply Qcabs_Qcle_condition.
  pose proof (round_half_even_cases (Qnum y) (Zpos (Qden y)) ltac:(lia)) as H.
  cbv zeta in H. fold (round_half_even y) in H.
  set (k := round_half_even y) in *. clearbody k.
  destruct y as [[n d] Hc]. cbn [Qnum Qden this] in H.
  unfold Qcle, Qcminus, Qcplus, Qcopp, Qc_of_Z, Q2Qc. cbn [this].
  rewrite ?Qred_correct.
  unfold Qle, Qplus, Qopp, inject_Z. cbn [Qnum Qden].
  split; cbn; nia.
Qed.


Lemma Qc_of_Z_le (a b : Z) : a <= b <-> (Qc_of_Z a <= Qc_of_Z b)%Qc.
Proof.
  unfold Qcle, Qc_of_Z, Q2Qc. cbn [this]. rewrite !Qred_correct.
  unfold Qle, inject_Z. cbn [Qnum Qden]. lia.
Qed.

Lemma Qc_of_Z_pos (z : Z) : 0 < z -> (0 < Qc_of_Z z)%Qc.
Proof.
  intros H. unfold Qclt, Qc_of_Z, Q2Qc. cbn [this]. rewrite !Qred_correct.
  unfold Qlt, inject_Z. cbn [Qnum Qden]. lia.
Qed.

Lemma Qc_pow_pos (b e : Z) : 0 < b -> (0 < Qc_pow b e)%Qc.
Proof.
  intros Hb. unfold Qc_pow. destruct (0 <=? e) eqn:E.
  - apply Qc_of_Z_pos, Z.pow_pos_nonneg; lia.
  - apply Qcinv_pos, Qc_of_Z_pos, Z.pow_pos_nonneg; lia.
Qed.


Lemma round_half_even_nonpos (y : Qc) :
  (y <= 0)%Qc -> (Qc_of_Z (round_half_even y) <= 0)%Qc.
Proof.
  intros Hy. pose proof (round_half_even_spec y) as H.
  apply Qcabs_Qcle_condition in H. destruct H as [_ H].
  set (k := round_half_even y) in *. clearbody k.
  apply (proj1 (Qc_of_Z_le k 0)).
  destruct (Z_le_gt_dec k 0) as [Hle|Hgt]; [ exact Hle | exfalso ].
  assert (H1 : (Qc_of_Z 1 <= Qc_of_Z k)%Qc)
    by (apply (proj1 (Qc_of_Z_le 1 k)); lia).
  change (Qc_of_Z 1) with (Q2Qc 1) in H1. qc_order.
Qed.

(** Rounding to a format keeps the sign. *)
Lemma round_sig_nonpos (b prec emin : Z) (x : Qc) :
  0 < b -> (x <= 0)%Qc -> (round_sig b prec emin x <= 0)%Qc.
Proof.
  intros Hb Hx. unfold round_sig.
  destruct (Qc_eqb x 0%Qc); [ apply Qcle_refl | ].
  set (pw := Qc_pow b _).
  assert (Hpw : (0 < pw)%Qc) by (apply Qc_pow_pos; exact Hb).
  assert (Hy : (x / pw <= 0)%Qc).
  { unfold Qcdiv. rewrite <- (Qcmult_0_l (/ pw)).
    apply Qcmult_le_compat_r; [ exact Hx | ].
    apply Qclt_le_weak, Qcinv_pos. exact Hpw. }
  apply round_half_even_nonpos in Hy.
  rewrite <- (Qcmult_0_l pw).
  apply Qcmult_le_compat_r; [ exact Hy | apply Qclt_le_weak; exact Hpw ].
Qed.

Lemma double_nonpos (x : Qc) : (x <= 0)%Qc -> (double x <= 0)%Qc.
Proof. apply round_sig_nonpos. lia. Qed.

(** ** The percent change of one symbol *)

Lemma monolith_pct_change_of_cases (tickers : list Monolith.candle) :
  (forall t0 t1 rest, tickers = t0 :: t1 :: rest ->
     (0 < double (Monolith.c_close t0))%Qc ->
     Monolith.pct_change_of tickers
     = float_pct (Monolith.c_close t0) (Monolith.c_close t1))
  /\ (forall t0 t1 rest, tickers = t0 :: t1 :: rest ->
       (Monolith.c_close t0 <= 0)%Qc ->
       round (Monolith.pct_change_of tickers) 4 = 0%Qc)
  /\ ((length tickers < 2)%nat ->
      round (Monolith.pct_change_of tickers) 4 = 0%Qc).
Proof.
  split; [ | split ].
  - intros t0 t1 rest -> Hpos. unfold Monolith.pct_change_of.
    cbn [length Nat.leb lookup list_lookup].
    apply (proj2 (Qc_ltb_lt _ _)) in Hpos. rewrite Hpos.
    unfold float_pct. cbv zeta. reflexivity.
  - intros t0 t1 rest -> Hle. unfold Monolith.pct_change_of.
    cbn [length Nat.leb lookup list_lookup].
    apply double_nonpos in Hle. apply (proj2 (Qc_ltb_ge _ _)) in Hle.
    rewrite Hle. apply round_zero.
  - intros Hlen. unfold Monolith.pct_change_of.
    destruct tickers as [|t0 [|t1 rest]]; cbn [length] in *; try lia;
      apply round_zero.
Qed.


Lemma execute_batch (symbol_repository : Layered.ISymbolRepository)
    (market_data_repository : Layered.IMarketDataRepository)
    (symbols : list string) (timeframe : Layered.TimeFrame)
    (all_symbols : list Layered.Symbol) :
  symbols <> [] -> (length symbols <= 1000)%nat ->
  Layered.get_all_symbols symbol_repository = Ok all_symbols ->
  Layered.execute symbol_repository market_data_repository symbols timeframe
  = Ok (map (Layered.symbol_entry market_data_repository
               (Layered.symbol_dict_of all_symbols) timeframe) symbols).
Proof.
  intros Hne Hlen Hall. unfold Layered.execute.
  destruct symbols as [|s0 symbols]; [ congruence | ].
  cbn [raise_if mbind result_bind].
  destruct (1000 <? length (s0 :: symbols))%nat eqn:E.
  { apply Nat.ltb_lt in E. lia. }
  cbn [raise_if mbind result_bind]. rewrite Hall.
  cbn [mbind result_bind mret result_ret try_except].
  rewrite foldl_snoc_map. reflexivity.
Qed.




(** ** Retries of the HTTP client *)

Lemma attempts_trace_SS (m : Client.http_method) (url : string) (delay : Qc)
    (k : nat) :
  attempts_trace m url delay (S (S k))
  = Client.Sent m url :: Client.Slept delay :: attempts_trace m url delay (S k).
Proof. reflexivity. Qed.

Lemma attempts_trace_counts (m : Client.http_method) (url : string) (delay : Qc)
    (k : nat) :
  length (List.filter is_sent (attempts_trace m url delay (S k))) = S k
  /\ length (List.filter is_slept (attempts_trace m url delay (S k))) = k
  /\ last (attempts_trace m url delay (S k)) = Some (Client.Sent m url).
Proof.
  induction k as [|k (IH1 & IH2 & IH3)]; [ repeat split | ].
  rewrite attempts_trace_SS. cbn [List.filter is_sent is_slept length].
  rewrite IH1, IH2. repeat split.
  rewrite !last_cons, IH3. reflexivity.
Qed.

Section RequestLoop.
Context {json : Type}.
Variable transport : nat -> result json.
Variable config : Client.ApiConfig.
Variable m : Client.http_method.
Variable url : string.

Let n := Z.to_nat (Client.max_retries config).
Let delay := Client.retry_delay config.

Lemma request_loop_success (k : nat) :
  forall (a len : nat) (w : Client.world) (r : json),
    (a + len = n)%nat -> (k < len)%nat ->
    (forall i, (i < k)%nat -> retryable_failure (transport (Client.sent w + i))) ->
    transport (Client.sent w + k) = Ok r ->
    Client.request_loop transport config m url (map Z.of_nat (seq a len)) w
    = (Ok r,
       {| Client.sent := Client.sent w + S k;
          Client.trace :=
            (Client.trace w ++ attempts_trace m url delay (S k))%list |}).
Proof.
  induction k as [|k IH]; intros a len w r Hn Hk Hfail Hok;
    (destruct len as [|len]; [ lia | ]);
    cbn [seq map Client.request_loop Client.send].
  - rewrite Nat.add_0_r in Hok. rewrite Hok.
    f_equal. f_equal. lia.
  - assert (Hne : (Z.of_nat a =? Client.max_retries config - 1) = false).
    { apply Z.eqb_neq. subst n. lia. }
    pose proof (Hfail 0%nat ltac:(lia)) as H0. rewrite Nat.add_0_r in H0.
    set (w1 := Client.sleep delay
                 {| Client.sent := S (Client.sent w);
                    Client.trace := (Client.trace w ++ [Client.Sent m url])%list |}).
    assert (Hrec : Client.request_loop transport config m url
                     (map Z.of_nat (seq (S a) len)) w1
                   = (Ok r,
                      {| Client.sent := Client.sent w + S (S k);
                         Client.trace :=
                           (Client.trace w
                            ++ attempts_trace m url delay (S (S k)))%list |})).
    { rewrite (IH (S a) len w1 r); [ | lia | lia | | ].
      - subst w1. cbn [Client.sleep Client.sent Client.trace].
        rewrite attempts_trace_SS. rewrite <- !app_assoc. cbn [app].
        f_equal. f_equal. lia.
      - intros i Hi. subst w1. cbn [Client.sleep Client.sent].
        replace (S (Client.sent w) + i)%nat with (Client.sent w + S i)%nat by lia.
        apply Hfail. lia.
      - subst w1. cbn [Client.sleep Client.sent].
        replace (S (Client.sent w) + k)%nat with (Client.sent w + S k)%nat by lia.
        exact Hok. }
    destruct H0 as [H0|[msg H0]]; rewrite H0, Hne; exact Hrec.
Qed.

Lemma request_loop_exhausted (len : nat) :
  forall (a : nat) (w : Client.world),
    (a + len = n)%nat -> (0 < len)%nat ->
    (forall i, (i < len)%nat -> retryable_failure (transport (Client.sent w + i))) ->
    Client.request_loop transport config m url (map Z.of_nat (seq a len)) w
    = (transport (Client.sent w + (len - 1)),
       {| Client.sent := Client.sent w + len;
          Client.trace :=
            (Client.trace w ++ attempts_trace m url delay len)%list |}).
Proof.
  induction len as [|len IH]; intros a w Hn Hlen Hfail; [ lia | ].
  cbn [seq map Client.request_loop Client.send].
  pose proof (Hfail 0%nat ltac:(lia)) as H0. rewrite Nat.add_0_r in H0.
  destruct len as [|len].
  - assert (He : (Z.of_nat a =? Client.max_retries config - 1) = true).
    { apply Z.eqb_eq. subst n. lia. }
    replace (Client.sent w + (1 - 1))%nat with (Client.sent w) by lia.
    destruct H0 as [H0|[msg H0]]; rewrite H0, He;
      (f_equal; f_equal; lia).
  - assert (Hne : (Z.of_nat a =? Client.max_retries config - 1) = false).
    { apply Z.eqb_neq. subst n. lia. }
    set (w1 := Client.sleep delay
                 {| Client.sent := S (Client.sent w);
                    Client.trace := (Client.trace w ++ [Client.Sent m url])%list |}).
    assert (Hrec : Client.request_loop transport config m url
                     (map Z.of_nat (seq (S a) (S len))) w1
                   = (transport (Client.sent w + (S (S len) - 1)),
                      {| Client.sent := Client.sent w + S (S len);
                         Client.trace :=
                           (Client.trace w
                            ++ attempts_trace m url delay (S (S len)))%list |})).
    { rewrite (IH (S a) w1); [ | lia | lia | ].
      - subst w1. cbn [Client.sleep Client.sent Client.trace].
        rewrite attempts_trace_SS. rewrite <- !app_assoc. cbn [app].
        f_equal; [ f_equal; lia | f_equal; lia ].
      - intros i Hi. subst w1. cbn [Client.sleep Client.sent].
        replace (S (Client.sent w) + i)%nat with (Client.sent w + S i)%nat by lia.
        apply Hfail. lia. }
    destruct H0 as [H0|[msg H0]]; rewrite H0, Hne; exact Hrec.
Qed.

End RequestLoop.

(** C4: [post] and [get] with [n = max_retries].  If the first [k < n]
    requests fail with a timeout or a transport-level error and the next one
    succeeds, the call returns that answer after [k + 1] attempts.  If [n > 0]
    and all [n] requests fail in that way, the call raises the error of the
    last request after exactly [n] attempts.  In both cases the client sleeps
    [retry_delay] seconds between two consecutive attempts and not after the
    last one.  With [n = 0] no request is sent and the generic failure is
    raised. *)
Theorem http_client_retries {json} (transport : nat -> result json)
    (config : Client.ApiConfig) (m : Client.http_method) (endpoint : string)
    (w : Client.world) :
  let n := Z.to_nat (Client.max_retries config) in
  let url := Client.url_of config endpoint in
  let delay := Client.retry_delay config in
  let call :=
    match m with
    | Client.POST => Client.post transport config endpoint w
    | Client.GET => Client.get_ transport config endpoint w
    end in
  (forall (k : nat) (r : json),
      (k < n)%nat ->
      (forall i, (i < k)%nat -> retryable_failure (transport (Client.sent w + i)%nat)) ->
      transport (Client.sent w + k)%nat = Ok r ->
      call = (Ok r,
              {| Client.sent := (Client.sent w + S k)%nat;
                 Client.trace :=
                   (Client.trace w ++ attempts_trace m url delay (S k))%list |}))
  /\ ((0 < n)%nat ->
      (forall i, (i < n)%nat -> retryable_failure (transport (Client.sent w + i)%nat)) ->
      call = (transport (Client.sent w + (n - 1))%nat,
              {| Client.sent := (Client.sent w + n)%nat;
                 Client.trace :=
                   (Client.trace w ++ attempts_trace m url delay n)%list |}))
  /\ (forall k : nat,
        length (List.filter is_sent (attempts_trace m url delay (S k))) = S k
        /\ length (List.filter is_slept (attempts_trace m url delay (S k))) = k
        /\ last (attempts_trace m url delay (S k)) = Some (Client.Sent m url))
  /\ (n = 0%nat ->
      call = (Raise (Exception ("Failed to " ++ Client.method_name m ++ " " ++ url
                                ++ " after " ++ pretty (Client.max_retries config)
                                ++ " attempts")), w)).
Proof.
  intros n url delay call.
  assert (Hcall : call
                  = Client.request_loop transport config m url
                      (map Z.of_nat (seq 0 n)) w).
  { subst call. destruct m; reflexivity. }
  rewrite Hcall. split; [ | split; [ | split ] ].
  - intros k r Hk Hfail Hok.
    apply request_loop_success; [ reflexivity | exact Hk | exact Hfail | exact Hok ].
  - intros Hn Hfail.
    apply request_loop_exhausted; [ reflexivity | exact Hn | exact Hfail ].
  - intros k. apply attempts_trace_counts.
  - intros ->. reflexivity.
Qed.

(** The theorem applied to the default configuration (3 attempts, 1 second)
    on a network that is down: three requests, two pauses, and the timeout
    of the third request is raised. *)
Lemma http_client_retries_witness :
  (0 < Z.to_nat (Client.max_retries Examples.default_config))%nat
  /\ (forall i, (i < 3)%nat ->
        retryable_failure (Examples.down (Client.sent Client.world0 + i)%nat))
  /\ Client.post Examples.down Examples.default_config "/GetSymbols/" Client.world0
     = (Raise TimeoutError,
        {| Client.sent := 3%nat;
           Client.trace :=
             [ Client.Sent Client.POST "http://localhost:8000/GetSymbols";
               Client.Slept (dec 1 0);
               Client.Sent Client.POST "http://localhost:8000/GetSymbols";
               Client.Slept (dec 1 0);
               Client.Sent Client.POST "http://localhost:8000/GetSymbols" ] |})
  /\ Client.get_ (Examples.flaky 2 "healthy") Examples.default_config "health"
       Client.world0
     = (Ok "healthy",
        {| Client.sent := 3%nat;
           Client.trace :=
             [ Client.Sent Client.GET "http://localhost:8000/health";
               Client.Slept (dec 1 0);
               Client.Sent Client.GET "http://localhost:8000/health";
               Client.Slept (dec 1 0);
               Client.Sent Client.GET "http://localhost:8000/health" ] |}).
Proof.
  assert (Hn : (0 < Z.to_nat (Client.max_retries Examples.default_config))%nat)
    by (cbn; lia).
  assert (Hf : forall i, (i < 3)%nat ->
                 retryable_failure (Examples.down (Client.sent Client.world0 + i)%nat))
    by (intros i _; left; reflexivity).
  split; [ exact Hn | ]. split; [ exact Hf | ].
  split.
  - exact (proj1 (proj2 (http_client_retries Examples.down Examples.default_config
                           Client.POST "/GetSymbols/" Client.world0)) Hn Hf).
  - refine (proj1 (http_client_retries (Examples.flaky 2 "healthy")
                     Examples.default_config Client.GET "health" Client.world0)
              2%nat "healthy" _ _ _).
    + cbn; lia.
    + intros i Hi. left. cbn [Client.sent Client.world0 Nat.add].
      unfold Examples.flaky. destruct (Nat.ltb_spec i 2); [ reflexivity | lia ].
    + reflexivity.
Defined.

(** ** The ticker adapter *)

Lemma get_insert_absent (d : dict) (k : string) (v : value) :
  d !! k = None -> get (<[k := v]> d) k v = get d k v.
Proof. intros H. unfold get. rewrite lookup_insert_eq, H. reflexivity. Qed.

Lemma get_insert_other (d : dict) (k k' : string) (v dflt : value) :
  k <> k' -> get (<[k := v]> d) k' dflt = get d k' dflt.
Proof. intros H. unfold get. rewrite lookup_insert_ne by exact H. reflexivity. Qed.

(** C9: in the element mapped by the ticker adapter a missing [open],
    [high], [low], [close] or [volume] is read as 0, and a missing [time] as
    the empty text; with a missing or empty [time] the ticker produced is
    timestamped with the current time; the empty object (and the object that
    only holds an empty [time]) is mapped, for a symbol that is not empty, to
    the all-zero candle timestamped now, without error. *)
Theorem map_to_ticker_defaults (strptime : string -> result Z)
    (Decimal_of_str : string -> result Qc) (now : Z) (symbol : string)
    (ticker_data : dict) :
  let map_to_ticker := Client._map_to_ticker strptime Decimal_of_str now in
  (forall k, k ∈ ["open"; "high"; "low"; "close"; "volume"] ->
     ticker_data !! k = None ->
     map_to_ticker ticker_data symbol
     = map_to_ticker (<[k := VInt 0]> ticker_data) symbol)
  /\ (ticker_data !! "time" = None ->
      map_to_ticker ticker_data symbol
      = map_to_ticker (<["time" := VStr ""]> ticker_data) symbol)
  /\ (ticker_data !! "time" = None \/ ticker_data !! "time" = Some (VStr "") ->
      forall t, map_to_ticker ticker_data symbol = Ok t -> Client.time t = now)
  /\ (symbol <> "" ->
      let zero_candle :=
        {| Client.symbol := symbol; Client.time := now;
           Client.open := 0%Qc; Client.high := 0%Qc; Client.low := 0%Qc;
           Client.close := 0%Qc; Client.volume := VInt 0 |} in
      map_to_ticker ∅ symbol = Ok zero_candle
      /\ map_to_ticker {["time" := VStr ""]} symbol = Ok zero_candle).
Proof.
  intros map_to_ticker. subst map_to_ticker.
  split; [ | split; [ | split ] ].
  - intros k Hk Hnone. unfold Client._map_to_ticker.
    repeat (apply elem_of_cons in Hk as [->|Hk]);
      try (exfalso; apply elem_of_nil in Hk; exact Hk);
      rewrite (get_insert_absent _ _ _ Hnone);
      rewrite !get_insert_other by discriminate; reflexivity.
  - intros Hnone. unfold Client._map_to_ticker.
    rewrite (get_insert_absent _ _ _ Hnone).
    rewrite !get_insert_other by discriminate. reflexivity.
  - intros Htime t. unfold Client._map_to_ticker, Client.new_Ticker.
    assert (Hget : get ticker_data "time" (VStr "") = VStr "").
    { unfold get. destruct Htime as [-> | ->]; reflexivity. }
    rewrite Hget. cbn [truthy truthy_str mbind result_bind].
    repeat match goal with
           | |- context [Client.Decimal_str ?f ?v] =>
               destruct (Client.Decimal_str f v); cbn [mbind result_bind];
               try discriminate
           end.
    destruct (Client.Ticker_post_init _); cbn [mbind result_bind mret result_ret];
      [ | discriminate ].
    intros [= <-]. reflexivity.
  - intros Hs zero_candle. subst zero_candle.
    destruct symbol as [|c symbol]; [ congruence | ].
    split; reflexivity.
Qed.

(** The theorem applied to the empty object for the symbol EURUSD at time
    1700000000. *)
Lemma map_to_ticker_defaults_witness :
  "EURUSD" <> ""
  /\ Client._map_to_ticker (fun _ => Raise (ValueError "time")) (fun _ => Ok 0%Qc)
       1700000000 ∅ "EURUSD"
     = Ok {| Client.symbol := "EURUSD"; Client.time := 1700000000;
             Client.open := 0%Qc; Client.high := 0%Qc; Client.low := 0%Qc;
             Client.close := 0%Qc; Client.volume := VInt 0 |}.
Proof.
  assert (Hs : "EURUSD" <> "") by discriminate.
  split; [ exact Hs | ].
  exact (proj1 (proj2 (proj2 (proj2
           (map_to_ticker_defaults (fun _ => Raise (ValueError "time"))
              (fun _ => Ok 0%Qc) 1700000000 "EURUSD" ∅))) Hs)).
Defined.

(* ===================================================================== *)
(** * Further properties of the client entities *)
(* ===================================================================== *)

Lemma client_new_Ticker_inv (symbol : string) (time : Z) (o h l c : Qc)
    (vol : value) (t : Client.Ticker) :
  Client.new_Ticker symbol time o h l c vol = Ok t ->
  t = {| Client.symbol := symbol; Client.time := time; Client.open := o;
         Client.high := h; Client.low := l; Client.close := c;
         Client.volume := vol |}
  /\ symbol <> ""
  /\ (l <= o)%Qc /\ (o <= h)%Qc /\ (l <= c)%Qc /\ (c <= h)%Qc.
Proof.
  unfold Client.new_Ticker, Client.Ticker_post_init.
  cbn [Client.symbol Client.high Client.low Client.open Client.close
       Client.volume].
  destruct (negb (truthy_str symbol)) eqn:Es;
    cbn [raise_if mbind result_bind]; [ discriminate | ].
  destruct (Qc_ltb h l) eqn:E0; cbn [raise_if mbind result_bind];
    [ discriminate | ].
  destruct (negb (Qc_leb l o && Qc_leb o h)) eqn:E1;
    cbn [raise_if mbind result_bind]; [ discriminate | ].
  destruct (negb (Qc_leb l c && Qc_leb c h)) eqn:E2;
    cbn [raise_if mbind result_bind]; [ discriminate | ].
  destruct (lt_int vol 0) as [b|e]; cbn [mbind result_bind]; [ | discriminate ].
  destruct b; cbn [raise_if mbind result_bind mret result_ret];
    [ discriminate | ].
  intros [= <-].
  apply negb_false_iff, truthy_str_nonempty in Es.
  apply negb_false_iff, andb_true_iff in E1. destruct E1 as [H1 H2].
  apply negb_false_iff, andb_true_iff in E2. destruct E2 as [H3 H4].
  apply Qc_leb_le in H1, H2, H3, H4. auto 10.
Qed.


Lemma max__cases (x y : Qc) :
  (max_ x y = x /\ (y <= x)%Qc) \/ (max_ x y = y /\ (x < y)%Qc).
Proof.
  unfold max_. destruct (Qc_ltb x y) eqn:E.
  - right. split; [ reflexivity | apply Qc_ltb_lt; exact E ].
  - left. split; [ reflexivity | apply Qc_ltb_ge; exact E ].
Qed.

Lemma min__cases (x y : Qc) :
  (min_ x y = x /\ (x <= y)%Qc) \/ (min_ x y = y /\ (y < x)%Qc).
Proof.
  unfold min_. destruct (Qc_ltb y x) eqn:E.
  - right. split; [ reflexivity | apply Qc_ltb_lt; exact E ].
  - left. split; [ reflexivity | apply Qc_ltb_ge; exact E ].
Qed.

Lemma abs__cases (x : Qc) :
  (Client.abs_ x = x /\ (0 <= x)%Qc) \/ (Client.abs_ x = (- x)%Qc /\ (x < 0)%Qc).
Proof.
  unfold Client.abs_. destruct (Qc_ltb x 0%Qc) eqn:E.
  - right. split; [ reflexivity | apply Qc_ltb_lt; exact E ].
  - left. split; [ reflexivity | apply Qc_ltb_ge; exact E ].
Qed.



Lemma Qc_eqb_neq (x y : Qc) : Qc_eqb x y = false <-> x <> y.
Proof. unfold Qc_eqb. apply bool_decide_eq_false. Qed.



Lemma abs__opp (x : Qc) : Client.abs_ (- x) = Client.abs_ x.
Proof.
  destruct (abs__cases x) as [[-> H]|[-> H]];
    destruct (abs__cases (- x)) as [[-> H']|[-> H']]; try ring.
  - assert (x = 0%Qc) as ->; [ | ring ].
    apply Qcle_antisym; [ | exact H ]. qc_order.
  - exfalso. qc_order.
Qed.

(** X3: a percent change with an error is neither positive, negative nor
    neutral and its trend strength is "INVALID"; one without error is exactly
    one of the three and its trend strength is not "INVALID"; the trend
    strength does not depend on the sign of the change. *)
Theorem percent_change_classification (p : Client.SymbolPercentChange) :
  (Client.error p <> None ->
   Client.is_positive p = false /\ Client.is_negative p = false
   /\ Client.is_neutral p = false /\ Client.trend_strength p = "INVALID")
  /\ (Client.error p = None ->
      Client.trend_strength p <> "INVALID"
      /\ ((Client.is_positive p = true /\ Client.is_negative p = false
           /\ Client.is_neutral p = false)
          \/ (Client.is_positive p = false /\ Client.is_negative p = true
              /\ Client.is_neutral p = false)
          \/ (Client.is_positive p = false /\ Client.is_negative p = false
              /\ Client.is_neutral p = true)))
  /\ Client.trend_strength
       {| Client.pc_symbol := Client.pc_symbol p;
          Client.pct_change := (- Client.pct_change p)%Qc;
          Client.error := Client.error p |}
     = Client.trend_strength p.
Proof.
  destruct p as [sym x e].
  unfold Client.is_positive, Client.is_negative, Client.is_neutral,
    Client.trend_strength, Client.is_valid.
  cbn [Client.error Client.pct_change Client.pc_symbol].
  split; [ | split ].
  - intros He. destruct e; [ auto | congruence ].
  - intros ->. cbn [negb andb]. split.
    + repeat match goal with
             | |- context [if ?c then _ else _] => destruct c
             end; discriminate.
    + destruct (Qc_ltb 0%Qc x) eqn:E1; destruct (Qc_ltb x 0%Qc) eqn:E2;
        destruct (Qc_eqb x 0%Qc) eqn:E3; auto 10; exfalso.
      * apply Qc_ltb_lt in E1, E2. qc_order.
      * apply Qc_ltb_lt in E1, E2. qc_order.
      * apply Qc_ltb_lt in E1. apply Qc_eqb_eq in E3. subst.
        exact (Qclt_not_le _ _ E1 (Qcle_refl _)).
      * apply Qc_ltb_lt in E2. apply Qc_eqb_eq in E3. subst.
        exact (Qclt_not_le _ _ E2 (Qcle_refl _)).
      * apply Qc_ltb_ge in E1, E2. apply Qc_eqb_neq in E3.
        apply E3. apply Qcle_antisym; assumption.
  - rewrite abs__opp. reflexivity.
Qed.

(** The theorem applied to a percent change of 1.5 without error. *)
Lemma percent_change_classification_witness :
  Client.error {| Client.pc_symbol := "EURUSD"; Client.pct_change := dec 15 1;
                  Client.error := None |} = None
  /\ Client.trend_strength
       {| Client.pc_symbol := "EURUSD"; Client.pct_change := dec 15 1;
          Client.error := None |} <> "INVALID".
Proof.
  split; [ reflexivity | ].
  exact (proj1 (proj1 (proj2 (percent_change_classification
           {| Client.pc_symbol := "EURUSD"; Client.pct_change := dec 15 1;
              Client.error := None |})) eq_refl)).
Defined.

(** X4: an aggregate has price data exactly when its current price is
    present. *)
Theorem has_price_data_iff_current_price (md : Client.MarketData) :
  Client.has_price_data md = true <-> Client.current_price md <> None.
Proof.
  unfold Client.has_price_data, Client.current_price.
  destruct (Client.latest_ticker md) as [t|]; cbn [orb].
  - split; [ discriminate | reflexivity ].
  - destruct (Client.tickers md) as [[|t l]|]; cbn.
    + split; [ discriminate | congruence ].
    + split; [ intros _ | reflexivity ].
      rewrite last_cons. destruct (last l); discriminate.
    + split; [ discriminate | congruence ].
Qed.

Lemma min_list_spec (l : list Qc) :
  forall x, ((Client.min_list x l <= x)%Qc
             /\ (forall y, y ∈ l -> (Client.min_list x l <= y)%Qc))
            /\ Client.min_list x l ∈ x :: l.
Proof.
  unfold Client.min_list. induction l as [|a l IH]; intros x; cbn [foldl].
  - split; [ split; [ apply Qcle_refl | ] | apply list_elem_of_here ].
    intros y Hy. apply elem_of_nil in Hy. destruct Hy.
  - destruct (IH (min_ x a)) as [[H1 H2] H3].
    assert (Hx : (min_ x a <= x)%Qc /\ (min_ x a <= a)%Qc)
      by (apply le_min_; apply Qcle_refl).
    split; [ split | ].
    + eapply Qcle_trans; [ exact H1 | tauto ].
    + intros y Hy. apply elem_of_cons in Hy as [->|Hy].
      * eapply Qcle_trans; [ exact H1 | tauto ].
      * apply H2. exact Hy.
    + apply elem_of_cons in H3 as [H3|H3].
      * rewrite H3. destruct (min__cases x a) as [[-> _]|[-> _]].
        -- apply list_elem_of_here.
        -- apply list_elem_of_further, list_elem_of_here.
      * apply list_elem_of_further, list_elem_of_further. exact H3.
Qed.

Lemma max_list_spec (l : list Qc) :
  forall x, ((x <= Client.max_list x l)%Qc
             /\ (forall y, y ∈ l -> (y <= Client.max_list x l)%Qc))
            /\ Client.max_list x l ∈ x :: l.
Proof.
  unfold Client.max_list. induction l as [|a l IH]; intros x; cbn [foldl].
  - split; [ split; [ apply Qcle_refl | ] | apply list_elem_of_here ].
    intros y Hy. apply elem_of_nil in Hy. destruct Hy.
  - destruct (IH (max_ x a)) as [[H1 H2] H3].
    assert (Hx : (x <= max_ x a)%Qc /\ (a <= max_ x a)%Qc)
      by (apply max__le; apply Qcle_refl).
    split; [ split | ].
    + eapply Qcle_trans; [ | exact H1 ]. tauto.
    + intros y Hy. apply elem_of_cons in Hy as [->|Hy].
      * eapply Qcle_trans; [ | exact H1 ]. tauto.
      * apply H2. exact Hy.
    + apply elem_of_cons in H3 as [H3|H3].
      * rewrite H3. destruct (max__cases x a) as [[-> _]|[-> _]].
        -- apply list_elem_of_here.
        -- apply list_elem_of_further, list_elem_of_here.
      * apply list_elem_of_further, list_elem_of_further. exact H3.
Qed.

(** X5: the price range of an aggregate is absent exactly when it has no
    tickers (none given, or an empty list); otherwise its lower end is below
    the low of every ticker and is the low of one of them, and its upper end
    is above the high of every ticker and is the high of one of them. *)
Theorem price_range_bounds (md : Client.MarketData) :
  (Client.calculate_price_range md = None
   <-> Client.tickers md = None \/ Client.tickers md = Some [])
  /\ (forall lo hi, Client.calculate_price_range md = Some (lo, hi) ->
        exists l, Client.tickers md = Some l
          /\ (forall t, t ∈ l -> (lo <= Client.low t)%Qc /\ (Client.high t <= hi)%Qc)
          /\ (exists t, t ∈ l /\ Client.low t = lo)
          /\ (exists t, t ∈ l /\ Client.high t = hi)).
Proof.
  unfold Client.calculate_price_range.
  destruct (Client.tickers md) as [[|t l]|].
  - split; [ split; auto | discriminate ].
  - split; [ split; [ discriminate | intros [H|H]; discriminate ] | ].
    intros lo hi [= <- <-]. exists (t :: l). split; [ reflexivity | ].
    destruct (min_list_spec (map Client.low l) (Client.low t)) as [[Hm1 Hm2] Hm3].
    destruct (max_list_spec (map Client.high l) (Client.high t)) as [[HM1 HM2] HM3].
    split; [ | split ].
    + intros t' Ht'. apply elem_of_cons in Ht' as [->|Ht']; [ tauto | ].
      split; [ apply Hm2 | apply HM2 ]; apply list_elem_of_fmap; eauto.
    + apply elem_of_cons in Hm3 as [Hm3|Hm3].
      * exists t. split; [ apply list_elem_of_here | congruence ].
      * apply list_elem_of_fmap in Hm3 as (t' & Ht' & Hin).
        exists t'. split; [ apply list_elem_of_further; exact Hin | congruence ].
    + apply elem_of_cons in HM3 as [HM3|HM3].
      * exists t. split; [ apply list_elem_of_here | congruence ].
      * apply list_elem_of_fmap in HM3 as (t' & Ht' & Hin).
        exists t'. split; [ apply list_elem_of_further; exact Hin | congruence ].
  - split; [ split; auto | discriminate ].
Qed.

(** The theorem applied to an aggregate of two flat candles at 1.10 and
    1.12: the range is (1.10, 1.12). *)
Lemma price_range_bounds_witness :
  let md :=
    {| Client.md_symbol := Examples.EURUSD; Client.latest_ticker := None;
       Client.tickers := Some [Examples.flat_candle (dec 110 2);
                               Examples.flat_candle (dec 112 2)];
       Client.percent_change := None |} in
  Client.calculate_price_range md = Some (dec 110 2, dec 112 2)
  /\ exists t, t ∈ [Examples.flat_candle (dec 110 2);
                    Examples.flat_candle (dec 112 2)]
               /\ Client.low t = dec 110 2.
Proof.
  cbv zeta.
  assert (H : Client.calculate_price_range
                {| Client.md_symbol := Examples.EURUSD;
                   Client.latest_ticker := None;
                   Client.tickers := Some [Examples.flat_candle (dec 110 2);
                                           Examples.flat_candle (dec 112 2)];
                   Client.percent_change := None |}
              = Some (dec 110 2, dec 112 2)) by reflexivity.
  split; [ exact H | ].
  destruct (proj2 (price_range_bounds _) _ _ H) as (l & [= <-] & _ & Hlo & _).
  exact Hlo.
Defined.

Lemma existsb_false_forall {A} (f : A -> bool) (l : list A) :
  existsb f l = false <-> forall x, x ∈ l -> f x = false.
Proof.
  induction l as [|a l IH]; cbn [existsb].
  - split; [ intros _ x Hx; apply elem_of_nil in Hx; destruct Hx | reflexivity ].
  - rewrite orb_false_iff, IH. split.
    + intros [Ha Hl] x Hx. apply elem_of_cons in Hx as [->|Hx]; auto.
    + intros H. split; [ apply H, list_elem_of_here | ].
      intros x Hx. apply H, list_elem_of_further, Hx.
Qed.

Lemma string_eqb_false_iff (a b : string) : negb (String.eqb a b) = false <-> a = b.
Proof. rewrite negb_false_iff. apply String.eqb_eq. Qed.

Lemma new_MarketData_cases (sym : Client.Symbol)
    (latest : option Client.Ticker) (tickers : option (list Client.Ticker))
    (pc : option Client.SymbolPercentChange) :
  match Client.new_MarketData sym latest tickers pc with
  | Ok md =>
      market_data_consistent sym latest tickers pc
      /\ md = {| Client.md_symbol := sym; Client.latest_ticker := latest;
                 Client.tickers := tickers; Client.percent_change := pc |}
  | Raise e =>
      ~ market_data_consistent sym latest tickers pc
      /\ exists msg, e = ValueError msg
  end.
Proof.
  unfold Client.new_MarketData, Client.MarketData_post_init, market_data_consistent.
  cbn [Client.latest_ticker Client.tickers Client.percent_change Client.md_symbol].
  case_raise_if.
  { split; [ | eauto ]. intros (H & _). destruct latest as [t|]; [ | discriminate ].
    rewrite (H t eq_refl), String.eqb_refl in E. discriminate. }
  case_raise_if.
  { split; [ | eauto ]. intros (_ & H & _). destruct tickers as [l|]; [ | discriminate ].
    apply existsb_exists in E0. destruct E0 as (t & Hin & Ht).
    rewrite (H l t eq_refl), String.eqb_refl in Ht; [ discriminate | ].
    apply list_elem_of_In. exact Hin. }
  case_raise_if.
  { split; [ | eauto ]. intros (_ & _ & H). destruct pc as [p|]; [ | discriminate ].
    rewrite (H p eq_refl), String.eqb_refl in E1. discriminate. }
  split; [ | reflexivity ].
  split; [ | split ].
  - intros t ->. apply string_eqb_false_iff. exact E.
  - intros l t -> Hin. apply string_eqb_false_iff.
    exact (proj1 (existsb_false_forall _ _) E0 t Hin).
  - intros p ->. apply string_eqb_false_iff. exact E1.
Qed.

(** X6: an aggregate is constructed exactly when its latest ticker, every
    one of its tickers and its percent change carry the name of its symbol;
    it then holds the parts it was given, and every other construction raises
    [ValueError]. *)
Theorem market_data_constructed_iff_consistent (sym : Client.Symbol)
    (latest : option Client.Ticker) (tickers : option (list Client.Ticker))
    (pc : option Client.SymbolPercentChange) :
  (is_ok (Client.new_MarketData sym latest tickers pc) = true
   <-> market_data_consistent sym latest tickers pc)
  /\ (market_data_consistent sym latest tickers pc ->
      Client.new_MarketData sym latest tickers pc
      = Ok {| Client.md_symbol := sym; Client.latest_ticker := latest;
              Client.tickers := tickers; Client.percent_change := pc |})
  /\ (~ market_data_consistent sym latest tickers pc ->
      exists msg,
        Client.new_MarketData sym latest tickers pc = Raise (ValueError msg)).
Proof.
  pose proof (new_MarketData_cases sym latest tickers pc) as H.
  set (P := market_data_consistent sym latest tickers pc) in *. clearbody P.
  destruct (Client.new_MarketData sym latest tickers pc) as [md|e];
    cbn [is_ok].
  - destruct H as [HP ->]. split; [ tauto | ]. split; [ reflexivity | tauto ].
  - destruct H as [HP [msg ->]]. split; [ split; [ discriminate | tauto ] | ].
    split; [ tauto | eauto ].
Qed.

(** The theorem applied to the aggregate of EURUSD with a latest candle of
    EURUSD. *)
Lemma market_data_constructed_iff_consistent_witness :
  market_data_consistent Examples.EURUSD (Some (Examples.flat_candle (dec 11 1)))
    None None
  /\ Client.new_MarketData Examples.EURUSD (Some (Examples.flat_candle (dec 11 1)))
       None None
     = Ok (Examples.market_data_at (dec 11 1)).
Proof.
  assert (Hc : market_data_consistent Examples.EURUSD
                 (Some (Examples.flat_candle (dec 11 1))) None None).
  { split; [ | split ]; [ intros t [= <-]; reflexivity | discriminate | discriminate ]. }
  split; [ exact Hc | ].
  exact (proj1 (proj2 (market_data_constructed_iff_consistent Examples.EURUSD
                         (Some (Examples.flat_candle (dec 11 1))) None None)) Hc).
Defined.

(* ===================================================================== *)
(** * The health check of the client *)
(* ===================================================================== *)

Lemma error_response_cases (now : Z) (msg : string) (ts : option Z) :
  Client.error_response now msg ts
  = if truthy_str msg
    then Ok {| Client.success := false; Client.data := None;
               Client.error_message := Some msg;
               Client.timestamp := Some (default now ts) |}
    else Raise (ValueError "Failed responses must have error message").
Proof.
  unfold Client.error_response, Client.new_ApiResponse, Client.ApiResponse_post_init.
  cbn [Client.success Client.error_message truthy_opt_str negb andb].
  destruct (truthy_str msg); reflexivity.
Qed.

(** X7: the health check of the adapter returns a success response
    holding the body when the request succeeds, and an error response holding
    the text of the exception when the request fails with an exception whose
    text is not empty; when the text is empty, as for a timeout, it raises
    [ValueError] itself.  So with [max_retries > 0] and a timeout on every
    attempt the health use case raises instead of reporting a status. *)
Theorem check_health_outcome (transport : nat -> result dict)
    (config : Client.ApiConfig) (now : Z) (w : Client.world) :
  (forall response,
      (Client.get_ transport config "/health" w).1 = Ok response ->
      (Client.check_health transport config now w).1
      = Ok {| Client.success := true; Client.data := Some response;
              Client.error_message := None; Client.timestamp := Some now |})
  /\ (forall e,
        (Client.get_ transport config "/health" w).1 = Raise e ->
        str_exn e <> "" ->
        (Client.check_health transport config now w).1
        = Ok {| Client.success := false; Client.data := None;
                Client.error_message := Some (str_exn e);
                Client.timestamp := Some now |})
  /\ (forall e,
        (Client.get_ transport config "/health" w).1 = Raise e ->
        str_exn e = "" ->
        (Client.check_health transport config now w).1
        = Raise (ValueError "Failed responses must have error message"))
  /\ ((0 < Z.to_nat (Client.max_retries config))%nat ->
      (forall i, (i < Z.to_nat (Client.max_retries config))%nat ->
                 transport (Client.sent w + i)%nat = Raise TimeoutError) ->
      (Client.CheckApiHealth_execute transport config now w).1
      = Raise (ValueError "Failed responses must have error message")).
Proof.
  assert (H3 : forall e,
             (Client.get_ transport config "/health" w).1 = Raise e ->
             str_exn e = "" ->
             (Client.check_health transport config now w).1
             = Raise (ValueError "Failed responses must have error message")).
  { intros e He Hs. unfold Client.check_health.
    destruct (Client.get_ transport config "/health" w) as [r w'].
    cbn [fst] in *. subst r. rewrite error_response_cases, Hs. reflexivity. }
  split; [ | split; [ | split; [ exact H3 | ] ] ].
  - intros response He. unfold Client.check_health.
    destruct (Client.get_ transport config "/health" w) as [r w'].
    cbn [fst] in *. subst r. reflexivity.
  - intros e He Hs. unfold Client.check_health.
    destruct (Client.get_ transport config "/health" w) as [r w'].
    cbn [fst] in *. subst r. rewrite error_response_cases.
    apply truthy_str_nonempty in Hs. rewrite Hs. reflexivity.
  - intros Hn Hdown.
    assert (Hget : (Client.get_ transport config "/health" w).1 = Raise TimeoutError).
    { unfold Client.get_, Client.range.
      rewrite (request_loop_exhausted transport config Client.GET _
                 (Z.to_nat (Client.max_retries config)) 0 w eq_refl Hn).
      - cbn [fst]. apply Hdown. lia.
      - intros i Hi. left. apply Hdown. exact Hi. }
    specialize (H3 TimeoutError Hget eq_refl).
    unfold Client.CheckApiHealth_execute.
    destruct (Client.check_health transport config now w) as [r w'].
    cbn [fst] in *. subst r. reflexivity.
Qed.

(** The theorem applied to the default configuration on a network on which
    every request times out. *)
Lemma check_health_outcome_witness :
  (0 < Z.to_nat (Client.max_retries Examples.default_config))%nat
  /\ (Client.CheckApiHealth_execute (fun _ => Raise TimeoutError)
        Examples.default_config 0 Client.world0).1
     = Raise (ValueError "Failed responses must have error message").
Proof.
  assert (Hn : (0 < Z.to_nat (Client.max_retries Examples.default_config))%nat)
    by (cbn; lia).
  split; [ exact Hn | ].
  exact (proj2 (proj2 (proj2 (check_health_outcome (fun _ => Raise TimeoutError)
                                Examples.default_config 0 Client.world0)))
           Hn (fun _ _ => eq_refl)).
Defined.

(** X8: the client's report of the monolith's own health answer: status
    "healthy", and the connection and availability flags of the server. *)
Theorem health_report_of_monolith (g : Monolith.globals) (timestamp : string)
    (now : Z) :
  exists response,
    Client.success_response now (Monolith.health g timestamp) (Some now)
    = Ok response
    /\ Client.health_report response
       = {| Client.h_status := VStr "healthy";
            Client.h_mt5_connection :=
              VStr (if Monolith.mt5_connected g then "connected"
                    else "disconnected");
            Client.h_mt5_available := VBool (Monolith.MT5_AVAILABLE g);
            Client.h_timestamp := Some now |}.
Proof.
  eexists. split; [ reflexivity | ].
  unfold Client.health_report.
  cbn [Client.success Client.data Client.timestamp Client.truthy_opt_dict andb
       default].
  assert (Hne : Monolith.health g timestamp <> ∅).
  { unfold Monolith.health. apply insert_non_empty. }
  rewrite bool_decide_eq_false_2 by exact Hne. cbn [negb].
  unfold get, Monolith.health, id.
  rewrite lookup_insert_eq.
  rewrite lookup_insert_ne by discriminate. rewrite lookup_insert_eq.
  rewrite !(lookup_insert_ne _ "status") by discriminate.
  rewrite !(lookup_insert_ne _ "mt5_connection") by discriminate.
  rewrite lookup_insert_eq. reflexivity.
Qed.

(** X9: a successful response whose body is the empty object, like every
    failed response, is reported as status "error", connection
    "disconnected" and terminal not available. *)
Theorem health_report_error_cases (response : Client.ApiResponse) :
  Client.success response = false \/ Client.data response = None
  \/ Client.data response = Some ∅ ->
  Client.health_report response
  = {| Client.h_status := VStr "error";
       Client.h_mt5_connection := VStr "disconnected";
       Client.h_mt5_available := VBool false;
       Client.h_timestamp := Client.timestamp response |}.
Proof.
  unfold Client.health_report.
  intros [H|[H|H]]; rewrite H; cbn [andb Client.truthy_opt_dict];
    rewrite ?andb_false_r; reflexivity.
Qed.

(** The theorem applied to the success response with an empty body. *)
Lemma health_report_error_cases_witness :
  Client.data {| Client.success := true; Client.data := Some ∅;
                 Client.error_message := None; Client.timestamp := Some 0 |}
  = Some ∅
  /\ Client.h_status
       (Client.health_report
          {| Client.success := true; Client.data := Some ∅;
             Client.error_message := None; Client.timestamp := Some 0 |})
     = VStr "error".
Proof.
  split; [ reflexivity | ].
  rewrite (health_report_error_cases
             {| Client.success := true; Client.data := Some ∅;
                Client.error_message := None; Client.timestamp := Some 0 |}
             (or_intror (or_intror eq_refl))).
  reflexivity.
Defined.

(* ===================================================================== *)
(** * The client adapters on the answers of the monolith *)
(* ===================================================================== *)

(** X10: the client maps an entry of the monolith's percent-change answer
    back to the symbol, the percent change and the error of that entry when
    the symbol is not empty, and raises [ValueError] when it is empty. *)
Theorem percent_change_entry_round_trip (Decimal_of_str : string -> result Qc)
    (e : Monolith.pct_entry) :
  (Monolith.symbol e <> "" ->
   Client._map_to_percent_change Decimal_of_str (Monolith.entry_dict e)
   = Some (Ok {| Client.pc_symbol := Monolith.symbol e;
                 Client.pct_change := Monolith.pct_change e;
                 Client.error := Monolith.error e |}))
  /\ (Monolith.symbol e = "" ->
      Client._map_to_percent_change Decimal_of_str (Monolith.entry_dict e)
      = Some (Raise (ValueError "Symbol cannot be empty"))).
Proof.
  destruct e as [sym pct err].
  unfold Client._map_to_percent_change, Monolith.entry_dict, get.
  cbn [Monolith.symbol Monolith.pct_change Monolith.error].
  destruct err as [msg|].
  - rewrite lookup_insert_eq.
    rewrite !(lookup_insert_ne _ "error") by discriminate.
    rewrite lookup_insert_eq.
    rewrite (lookup_insert_ne _ "symbol") by discriminate.
    rewrite lookup_insert_eq.
    cbn [Client.Decimal_str mbind result_bind].
    split; intros H.
    + apply truthy_str_nonempty in H. rewrite H. reflexivity.
    + rewrite H. reflexivity.
  - rewrite lookup_insert_eq.
    rewrite !(lookup_insert_ne _ "symbol") by discriminate.
    rewrite lookup_insert_eq.
    rewrite (lookup_insert_ne _ "pct_change") by discriminate.
    rewrite lookup_empty.
    cbn [Client.Decimal_str mbind result_bind].
    split; intros H.
    + apply truthy_str_nonempty in H. rewrite H. reflexivity.
    + rewrite H. reflexivity.
Qed.

(** The theorem applied to the entry the handler of the monolith builds
    for the symbol XAU and the error "no data". *)
Lemma percent_change_entry_round_trip_witness :
  Monolith.symbol (Monolith.symbol_pct_change (Raise (Exception "no data")) "XAU")
  <> ""
  /\ Client._map_to_percent_change (fun _ => Raise (InvalidOperation ""))
       (Monolith.entry_dict
          (Monolith.symbol_pct_change (Raise (Exception "no data")) "XAU"))
     = Some (Ok {| Client.pc_symbol := "XAU"; Client.pct_change := 0%Qc;
                   Client.error := Some "no data" |}).
Proof.
  assert (H : Monolith.symbol
                (Monolith.symbol_pct_change (Raise (Exception "no data")) "XAU")
              <> "") by discriminate.
  split; [ exact H | ].
  exact (proj1 (percent_change_entry_round_trip (fun _ => Raise (InvalidOperation ""))
                  (Monolith.symbol_pct_change (Raise (Exception "no data")) "XAU"))
           H).
Defined.

Lemma map_to_ticker_of_candle (strptime : string -> result Z)
    (Decimal_of_str : string -> result Qc) (now : Z) (c : Monolith.candle)
    (sym : string) (t : Z) :
  Monolith.c_time c <> "" -> strptime (Monolith.c_time c) = Ok t ->
  Client._map_to_ticker strptime Decimal_of_str now (Monolith.candle_dict c) sym
  = Client.new_Ticker sym t (Monolith.c_open c) (Monolith.c_high c)
      (Monolith.c_low c) (Monolith.c_close c) (VInt (Monolith.c_volume c)).
Proof.
  intros Hne Ht. unfold Client._map_to_ticker, Monolith.candle_dict, get.
  rewrite lookup_insert_eq.
  rewrite !(lookup_insert_ne _ "time") by discriminate.
  rewrite lookup_insert_eq.
  rewrite !(lookup_insert_ne _ "open") by discriminate.
  rewrite lookup_insert_eq.
  rewrite !(lookup_insert_ne _ "high") by discriminate.
  rewrite lookup_insert_eq.
  rewrite !(lookup_insert_ne _ "low") by discriminate.
  rewrite lookup_insert_eq.
  rewrite !(lookup_insert_ne _ "close") by discriminate.
  rewrite lookup_insert_eq.
  cbn [truthy]. apply truthy_str_nonempty in Hne. rewrite Hne, Ht.
  reflexivity.
Qed.

(** X11: the client maps a candle of the monolith, whose time text is
    parsed to [t], to the ticker with the same prices and volume exactly when
    the symbol asked for is not empty, the high is at least max(open, close),
    the low at most min(open, close) and the volume not negative, and raises
    [ValueError] otherwise: the monolith does not check its candles, the
    client does.  The candle served in simulation mode is accepted. *)
Theorem candle_to_ticker (strptime : string -> result Z)
    (Decimal_of_str : string -> result Qc) (now : Z) (c : Monolith.candle)
    (sym : string) (t : Z) :
  Monolith.c_time c <> "" -> strptime (Monolith.c_time c) = Ok t ->
  let mapped :=
    Client._map_to_ticker strptime Decimal_of_str now (Monolith.candle_dict c)
      sym in
  let ok :=
    ticker_ok sym (Monolith.c_open c) (Monolith.c_high c) (Monolith.c_low c)
      (Monolith.c_close c) (Monolith.c_volume c) in
  (ok -> mapped
         = Ok {| Client.symbol := sym; Client.time := t;
                 Client.open := Monolith.c_open c;
                 Client.high := Monolith.c_high c;
                 Client.low := Monolith.c_low c;
                 Client.close := Monolith.c_close c;
                 Client.volume := VInt (Monolith.c_volume c) |})
  /\ (~ ok -> exists msg, mapped = Raise (ValueError msg))
  /\ (sym <> "" ->
      ticker_ok sym (Monolith.c_open Monolith.simulated_candle)
        (Monolith.c_high Monolith.simulated_candle)
        (Monolith.c_low Monolith.simulated_candle)
        (Monolith.c_close Monolith.simulated_candle)
        (Monolith.c_volume Monolith.simulated_candle)).
Proof.
  intros Hne Ht mapped ok. subst mapped ok.
  rewrite (map_to_ticker_of_candle _ _ _ _ _ _ Hne Ht).
  pose proof (client_new_Ticker_cases sym t (Monolith.c_open c)
                (Monolith.c_high c) (Monolith.c_low c) (Monolith.c_close c)
                (Monolith.c_volume c)) as H.
  destruct (Client.new_Ticker _ _ _ _ _ _ _) as [tk|e].
  - destruct H as [Hok ->]. split; [ reflexivity | ].
    split; [ tauto | ].
    intros Hs. split; [ exact Hs | ].
    split; [ apply Qc_leb_le; vm_compute; reflexivity | ].
    split; [ apply Qc_leb_le; vm_compute; reflexivity | cbn; lia ].
  - destruct H as [Hnok [msg ->]]. split; [ tauto | ].
    split; [ eauto | ].
    intros Hs. split; [ exact Hs | ].
    split; [ apply Qc_leb_le; vm_compute; reflexivity | ].
    split; [ apply Qc_leb_le; vm_compute; reflexivity | cbn; lia ].
Qed.

(** The theorem applied to the simulated candle and the symbol EURUSD. *)
Lemma candle_to_ticker_witness :
  Monolith.c_time Monolith.simulated_candle <> ""
  /\ Client._map_to_ticker (fun _ => Ok 1704110400) (fun _ => Ok 0%Qc) 0
       (Monolith.candle_dict Monolith.simulated_candle) "EURUSD"
     = Ok {| Client.symbol := "EURUSD"; Client.time := 1704110400;
             Client.open := dec 11000 4; Client.high := dec 11050 4;
             Client.low := dec 10950 4; Client.close := dec 11020 4;
             Client.volume := VInt 1000 |}.
Proof.
  assert (Hne : Monolith.c_time Monolith.simulated_candle <> "") by discriminate.
  split; [ exact Hne | ].
  pose proof (candle_to_ticker (fun _ => Ok 1704110400) (fun _ => Ok 0%Qc) 0
                Monolith.simulated_candle "EURUSD" 1704110400 Hne eq_refl) as H.
  cbv zeta in H. destruct H as (H1 & _ & H3).
  apply H1. apply H3. discriminate.
Defined.

(* ===================================================================== *)
(** * The market-data aggregate adapter *)
(* ===================================================================== *)

Lemma map_to_ticker_symbol (strptime : string -> result Z)
    (Decimal_of_str : string -> result Qc) (now : Z) (d : dict) (sym : string)
    (t : Client.Ticker) :
  Client._map_to_ticker strptime Decimal_of_str now d sym = Ok t ->
  Client.symbol t = sym.
Proof.
  unfold Client._map_to_ticker.
  destruct (if truthy (get d "time" (VStr "")) then _ else _) as [tm|];
    cbn [mbind result_bind]; [ | discriminate ].
  repeat match goal with
         | |- context [Client.Decimal_str ?f ?v] =>
             destruct (Client.Decimal_str f v); cbn [mbind result_bind];
             try discriminate
         end.
  intros H. apply client_new_Ticker_inv in H. destruct H as [-> _]. reflexivity.
Qed.

Lemma complete_market_data_consistent (repos : Client.market_repositories)
    (symbol_name : string) (md : Client.MarketData) :
  Client.get_complete_market_data repos symbol_name = Ok (Some md) ->
  Client.get_symbol_by_name repos symbol_name = Ok (Some (Client.md_symbol md))
  /\ market_data_consistent (Client.md_symbol md) (Client.latest_ticker md)
       (Client.tickers md) (Client.percent_change md).
Proof.
  unfold Client.get_complete_market_data.
  destruct (Client.get_symbol_by_name repos symbol_name) as [[s|]|e];
    cbn [mbind result_bind mret result_ret]; try discriminate.
  match goal with
  | |- context [Client.new_MarketData ?s ?a ?b ?c] =>
      pose proof (new_MarketData_cases s a b c) as H;
      destruct (Client.new_MarketData s a b c) as [m|e]
  end; cbn [mbind result_bind mret result_ret]; [ | discriminate ].
  intros [= <-]. destruct H as [Hc ->]. split; [ reflexivity | exact Hc ].
Qed.

(** X12: the aggregate adapter answers [None] for a symbol the symbol
    repository does not know and passes on the exception of the symbol
    lookup; a failure of the ticker or percent-change fetches only leaves
    that part of the aggregate empty; an aggregate that is returned holds the
    symbol of the repository and parts that all carry its name; and since a
    ticker mapped by the ticker adapter carries the name that was asked for, a
    latest ticker whose name differs from the name of the symbol returned
    makes the call raise [ValueError]. *)
Theorem complete_market_data_cases (repos : Client.market_repositories)
    (symbol_name : string) :
  (Client.get_symbol_by_name repos symbol_name = Ok None ->
   Client.get_complete_market_data repos symbol_name = Ok None)
  /\ (forall e, Client.get_symbol_by_name repos symbol_name = Raise e ->
                Client.get_complete_market_data repos symbol_name = Raise e)
  /\ (forall s e1 e2 e3,
        Client.get_symbol_by_name repos symbol_name = Ok (Some s) ->
        Client.get_latest_ticker repos symbol_name = Raise e1 ->
        Client.get_latest_tickers repos symbol_name 10 = Raise e2 ->
        Client.get_symbol_percent_change repos symbol_name = Raise e3 ->
        Client.get_complete_market_data repos symbol_name
        = Ok (Some {| Client.md_symbol := s; Client.latest_ticker := None;
                      Client.tickers := None; Client.percent_change := None |}))
  /\ (forall md,
        Client.get_complete_market_data repos symbol_name = Ok (Some md) ->
        Client.get_symbol_by_name repos symbol_name
        = Ok (Some (Client.md_symbol md))
        /\ market_data_consistent (Client.md_symbol md) (Client.latest_ticker md)
             (Client.tickers md) (Client.percent_change md))
  /\ (forall s t,
        Client.get_symbol_by_name repos symbol_name = Ok (Some s) ->
        Client.get_latest_ticker repos symbol_name = Ok (Some t) ->
        Client.symbol t <> Client.name s ->
        exists msg,
          Client.get_complete_market_data repos symbol_name
          = Raise (ValueError msg))
  /\ (forall strptime Decimal_of_str now d t,
        Client._map_to_ticker strptime Decimal_of_str now d symbol_name = Ok t ->
        Client.symbol t = symbol_name).
Proof.
  split; [ | split; [ | split; [ | split; [ | split ] ] ] ].
  - intros H. unfold Client.get_complete_market_data. rewrite H. reflexivity.
  - intros e H. unfold Client.get_complete_market_data. rewrite H. reflexivity.
  - intros s e1 e2 e3 Hs H1 H2 H3. unfold Client.get_complete_market_data.
    rewrite Hs, H1, H2, H3. reflexivity.
  - intros md. apply complete_market_data_consistent.
  - intros s t Hs Ht Hne. unfold Client.get_complete_market_data.
    rewrite Hs, Ht. cbn [mbind result_bind].
    match goal with
    | |- context [Client.new_MarketData ?s ?a ?b ?c] =>
        pose proof (new_MarketData_cases s a b c) as H;
        destruct (Client.new_MarketData s a b c) as [m|e]
    end; cbn [mbind result_bind].
    + exfalso. destruct H as [(H & _) _]. apply Hne. apply H. reflexivity.
    + destruct H as [_ [msg ->]]. eauto.
  - intros strptime Decimal_of_str now d t. apply map_to_ticker_symbol.
Qed.

(** The theorem applied to repositories that know EURUSD: the aggregate
    returned for EURUSD carries the symbol of the repository. *)
Lemma complete_market_data_cases_witness :
  Client.get_complete_market_data Examples.repos_EURUSD "EURUSD"
  = Ok (Some {| Client.md_symbol := Examples.EURUSD;
                Client.latest_ticker := Some (Examples.flat_candle (dec 11 1));
                Client.tickers := None; Client.percent_change := None |})
  /\ Client.get_symbol_by_name Examples.repos_EURUSD "EURUSD"
     = Ok (Some Examples.EURUSD).
Proof.
  assert (H : Client.get_complete_market_data Examples.repos_EURUSD "EURUSD"
              = Ok (Some {| Client.md_symbol := Examples.EURUSD;
                            Client.latest_ticker :=
                              Some (Examples.flat_candle (dec 11 1));
                            Client.tickers := None;
                            Client.percent_change := None |})) by reflexivity.
  split; [ exact H | ].
  exact (proj1 (proj1 (proj2 (proj2 (proj2
           (complete_market_data_cases Examples.repos_EURUSD "EURUSD")))) _ H)).
Defined.

(** X13: the aggregates returned for a list of names are those of the
    names for which the single lookup returns an aggregate, in the order of
    the names and one for every occurrence of such a name: the answer for a
    single name is its aggregate or nothing, and the answer for two lists one
    after the other is the answer for the first followed by the answer for
    the second.  So there are at most as many aggregates as names, each is
    the answer for one of the names and is consistent, and a name whose
    lookup fails or finds nothing contributes nothing. *)
Theorem multiple_market_data_sound (repos : Client.market_repositories)
    (symbol_names : list string) :
  Client.adapter_get_multiple_market_data repos symbol_names
  = omap (aggregate_of repos) symbol_names
  /\ (forall n,
        Client.adapter_get_multiple_market_data repos [n]
        = match Client.get_complete_market_data repos n with
          | Ok (Some md) => [md]
          | Ok None | Raise _ => []
          end)
  /\ (forall l1 l2,
        Client.adapter_get_multiple_market_data repos (l1 ++ l2)%list
        = (Client.adapter_get_multiple_market_data repos l1
           ++ Client.adapter_get_multiple_market_data repos l2)%list)
  /\ (length (Client.adapter_get_multiple_market_data repos symbol_names)
      <= length symbol_names)%nat
  /\ (forall md,
        md ∈ Client.adapter_get_multiple_market_data repos symbol_names
        <-> exists n, n ∈ symbol_names
                      /\ Client.get_complete_market_data repos n = Ok (Some md))
  /\ (forall md,
        md ∈ Client.adapter_get_multiple_market_data repos symbol_names ->
        market_data_consistent (Client.md_symbol md) (Client.latest_ticker md)
          (Client.tickers md) (Client.percent_change md))
  /\ (forall l1 l2 n,
        symbol_names = (l1 ++ n :: l2)%list ->
        (forall md, Client.get_complete_market_data repos n <> Ok (Some md)) ->
        Client.adapter_get_multiple_market_data repos symbol_names
        = Client.adapter_get_multiple_market_data repos (l1 ++ l2)%list).
Proof.
  assert (Hin : forall md,
             md ∈ Client.adapter_get_multiple_market_data repos symbol_names
             <-> exists n, n ∈ symbol_names
                           /\ Client.get_complete_market_data repos n
                              = Ok (Some md)).
  { intros md. unfold Client.adapter_get_multiple_market_data.
    rewrite list_elem_of_In, in_flat_map. split.
    - intros (n & Hn & Hmd). exists n. split; [ apply list_elem_of_In; exact Hn | ].
      destruct (Client.get_complete_market_data repos n) as [[m|]|e];
        cbn in Hmd; try tauto.
      destruct Hmd as [->|[]]. reflexivity.
    - intros (n & Hn & Hmd). exists n. split; [ apply list_elem_of_In; exact Hn | ].
      rewrite Hmd. left. reflexivity. }
  split.
  { clear Hin. unfold Client.adapter_get_multiple_market_data.
    induction symbol_names as [|n l IH]; [ reflexivity | ].
    cbn [flat_map]. rewrite IH.
    change (omap (aggregate_of repos) (n :: l))
      with (match aggregate_of repos n with
            | Some md => md :: omap (aggregate_of repos) l
            | None => omap (aggregate_of repos) l
            end).
    unfold aggregate_of at 2.
    destruct (Client.get_complete_market_data repos n) as [[m|]|e]; reflexivity. }
  split.
  { intros n. unfold Client.adapter_get_multiple_market_data. cbn [flat_map].
    apply app_nil_r. }
  split.
  { intros l1 l2. unfold Client.adapter_get_multiple_market_data.
    apply flat_map_app. }
  split; [ | split; [ exact Hin | split ] ].
  - clear Hin. unfold Client.adapter_get_multiple_market_data.
    induction symbol_names as [|n l IH]; [ reflexivity | ].
    cbn [flat_map length]. rewrite length_app.
    destruct (Client.get_complete_market_data repos n) as [[m|]|e];
      cbn [length]; lia.
  - intros md Hmd. apply Hin in Hmd. destruct Hmd as (n & _ & Hmd).
    apply complete_market_data_consistent in Hmd. tauto.
  - intros l1 l2 n -> Hn. unfold Client.adapter_get_multiple_market_data.
    rewrite !flat_map_app. cbn [flat_map].
    destruct (Client.get_complete_market_data repos n) as [[m|]|e];
      [ exfalso; exact (Hn m eq_refl) | reflexivity | reflexivity ].
Qed.

(** The theorem applied to the names EURUSD and XXXYYY, the second of which
    the repository does not know. *)
Lemma multiple_market_data_sound_witness :
  (forall md, Client.get_complete_market_data Examples.repos_EURUSD "XXXYYY"
              <> Ok (Some md))
  /\ Client.adapter_get_multiple_market_data Examples.repos_EURUSD
       ["EURUSD"; "XXXYYY"]
     = Client.adapter_get_multiple_market_data Examples.repos_EURUSD ["EURUSD"].
Proof.
  assert (H : forall md,
             Client.get_complete_market_data Examples.repos_EURUSD "XXXYYY"
             <> Ok (Some md)) by (intros md; discriminate).
  split; [ exact H | ].
  destruct (multiple_market_data_sound Examples.repos_EURUSD ["EURUSD"; "XXXYYY"])
    as (_ & _ & _ & _ & _ & _ & Hdrop).
  exact (Hdrop ["EURUSD"] [] "XXXYYY" eq_refl H).
Defined.

(* ===================================================================== *)
(** * URLs, search and the convenience methods of the facade *)
(* ===================================================================== *)

Lemma append_nil_l (t : string) : "" ++ t = t.
Proof. reflexivity. Qed.

Lemma append_cons (a : ascii) (s t : string) :
  String a s ++ t = String a (s ++ t).
Proof. reflexivity. Qed.

Lemma rstrip_by_snoc (p : ascii -> bool) (s : string) (c : ascii) :
  p c = true -> rstrip_by p (s ++ String c "") = rstrip_by p s.
Proof.
  intros Hc. induction s as [|a s IH].
  - rewrite append_nil_l. cbn [rstrip_by]. rewrite Hc. reflexivity.
  - rewrite append_cons. cbn [rstrip_by]. rewrite IH. reflexivity.
Qed.

Lemma lstrip_by_app (p : ascii -> bool) (s t : string) :
  lstrip_by p (s ++ t)
  = if Py.all_of p s then lstrip_by p t else lstrip_by p s ++ t.
Proof.
  induction s as [|a s IH]; [ reflexivity | ].
  rewrite append_cons. cbn [lstrip_by Py.all_of].
  destruct (p a); cbn [andb]; [ exact IH | rewrite append_cons; reflexivity ].
Qed.

Lemma lstrip_by_all (p : ascii -> bool) (s : string) :
  Py.all_of p s = true -> lstrip_by p s = "".
Proof.
  induction s as [|a s IH]; cbn [lstrip_by Py.all_of]; [ reflexivity | ].
  destruct (p a); cbn [andb]; [ exact IH | discriminate ].
Qed.

Lemma strip_by_snoc (p : ascii -> bool) (s : string) (c : ascii) :
  p c = true -> strip_by p (s ++ String c "") = strip_by p s.
Proof.
  intros Hc. unfold strip_by. rewrite lstrip_by_app.
  destruct (Py.all_of p s) eqn:E.
  - cbn [lstrip_by]. rewrite Hc. rewrite (lstrip_by_all p s E). reflexivity.
  - apply rstrip_by_snoc. exact Hc.
Qed.

Lemma rstrip_by_last (p : ascii -> bool) (s r : string) (c : ascii) :
  rstrip_by p s = (r ++ String c "") -> p c = false.
Proof.
  revert r. induction s as [|a s IH]; intros r; cbn [rstrip_by].
  - destruct r; discriminate.
  - destruct (rstrip_by p s) as [|b q] eqn:E.
    + destruct (p a) eqn:Ha; [ destruct r; discriminate | ].
      destruct r as [|x r]; rewrite ?append_nil_l, ?append_cons.
      * intros [= <-]. exact Ha.
      * intros [= _ H]. destruct r; discriminate.
    + destruct r as [|x r]; rewrite ?append_nil_l, ?append_cons;
        [ discriminate | ].
      intros [= _ H]. apply (IH r). exact H.
Qed.

Lemma lstrip_by_head (p : ascii -> bool) (s r : string) (c : ascii) :
  lstrip_by p s = String c r -> p c = false.
Proof.
  induction s as [|a s IH]; cbn [lstrip_by]; [ discriminate | ].
  destruct (p a) eqn:Ha; [ exact IH | ].
  intros [= <- _]. exact Ha.
Qed.

Lemma rstrip_by_head (p : ascii -> bool) (s r : string) (c : ascii) :
  rstrip_by p s = String c r -> exists s', s = String c s'.
Proof.
  destruct s as [|a s]; cbn [rstrip_by]; [ discriminate | ].
  destruct (rstrip_by p s); [ destruct (p a); [ discriminate | ] | ];
    intros [= <- _]; eauto.
Qed.

(** X14: the URL of a request is the base URL without its trailing
    slashes, one slash, and the endpoint without its leading and trailing
    slashes; so a leading or a trailing slash of the endpoint, and a trailing
    slash of the base URL, do not change the URL, and the endpoint part
    neither begins nor ends with a slash. *)
Theorem url_ignores_outer_slashes (config : Client.ApiConfig) (endpoint : string) :
  Client.url_of config (String "/" endpoint) = Client.url_of config endpoint
  /\ Client.url_of config (endpoint ++ "/") = Client.url_of config endpoint
  /\ Client.url_of
       {| Client.base_url := Client.base_url config ++ "/";
          Client.api_key := Client.api_key config;
          Client.timeout := Client.timeout config;
          Client.max_retries := Client.max_retries config;
          Client.retry_delay := Client.retry_delay config;
          Client.verify_ssl := Client.verify_ssl config |} endpoint
     = Client.url_of config endpoint
  /\ (forall r, strip_by Client.is_slash endpoint <> String "/" r)
  /\ (forall r, strip_by Client.is_slash endpoint <> r ++ "/")
  /\ (forall r, rstrip_by Client.is_slash (Client.base_url config) <> r ++ "/").
Proof.
  unfold Client.url_of. cbn [Client.base_url].
  split; [ reflexivity | ].
  split; [ rewrite strip_by_snoc by reflexivity; reflexivity | ].
  split; [ rewrite rstrip_by_snoc by reflexivity; reflexivity | ].
  split; [ | split ].
  - intros r H. unfold strip_by in H.
    destruct (rstrip_by_head _ _ _ _ H) as [s' Hs'].
    apply lstrip_by_head in Hs'. discriminate.
  - intros r H. unfold strip_by in H.
    apply rstrip_by_last in H. discriminate.
  - intros r H. apply rstrip_by_last in H. discriminate.
Qed.

Lemma upper_lower_char (c : ascii) : upper_char (lower_char c) = upper_char c.
Proof.
  destruct c as [[] [] [] [] [] [] [] []]; reflexivity.
Qed.

Lemma upper_lower (s : string) : upper (lower s) = upper s.
Proof.
  unfold upper, lower. induction s as [|c s IH]; cbn [Py.map_string];
    [ reflexivity | ].
  rewrite upper_lower_char, IH. reflexivity.
Qed.

Lemma contains_empty (s : string) : contains "" s = true.
Proof. destruct s; reflexivity. Qed.

(** X15: the search of the symbol adapter does not depend on the case of
    the pattern, returns every symbol for the empty pattern, and returns only
    symbols of the repository, in their order. *)
Theorem search_symbols_properties (get_all_symbols : result (list Client.Symbol))
    (pattern : string) :
  Client.search_symbols get_all_symbols (lower pattern)
  = Client.search_symbols get_all_symbols pattern
  /\ Client.search_symbols get_all_symbols (upper pattern)
     = Client.search_symbols get_all_symbols pattern
  /\ Client.search_symbols get_all_symbols "" = get_all_symbols
  /\ (forall all found,
        get_all_symbols = Ok all ->
        Client.search_symbols get_all_symbols pattern = Ok found ->
        sublist found all).
Proof.
  unfold Client.search_symbols.
  split; [ rewrite upper_lower; reflexivity | ].
  split.
  { replace (upper (upper pattern)) with (upper pattern); [ reflexivity | ].
    rewrite <- (upper_lower (upper pattern)).
    rewrite <- (upper_lower pattern) at 1.
    f_equal. unfold upper, lower.
    induction pattern as [|c s IH]; cbn [Py.map_string]; [ reflexivity | ].
    rewrite IH. f_equal.
    destruct c as [[] [] [] [] [] [] [] []]; reflexivity. }
  split.
  { destruct get_all_symbols as [all|e]; cbn [mbind result_bind mret result_ret];
      [ | reflexivity ].
    f_equal. change (upper "") with "".
    induction all as [|s all IH]; [ reflexivity | ].
    rewrite filter_cons.
    rewrite contains_empty. cbn [orb].
    destruct (decide (true = true)); [ | congruence ].
    rewrite IH. reflexivity. }
  intros all found -> [= <-]. apply sublist_filter.
Qed.

(** The theorem applied to a repository that holds EURUSD. *)
Lemma search_symbols_properties_witness :
  Client.search_symbols (Ok [Examples.EURUSD]) "eur" = Ok [Examples.EURUSD]
  /\ sublist [Examples.EURUSD] [Examples.EURUSD].
Proof.
  assert (H : Client.search_symbols (Ok [Examples.EURUSD]) "eur"
              = Ok [Examples.EURUSD]) by reflexivity.
  split; [ exact H | ].
  exact (proj2 (proj2 (proj2 (search_symbols_properties (Ok [Examples.EURUSD])
                                "eur")))
           [Examples.EURUSD] [Examples.EURUSD] eq_refl H).
Defined.

(** X16: the limit of the symbol search: without a limit, or with the
    limit 0, every symbol found is returned; with a positive limit [n] the
    first [n] symbols found, so at most [n]; with a negative limit [-k] all
    but the last [k]. *)
Theorem search_limit_semantics (search : string -> result (list Client.Symbol))
    (pattern : string) (found : list Client.Symbol) :
  search pattern = Ok found ->
  Client.SearchSymbols_execute search pattern None = Ok found
  /\ Client.SearchSymbols_execute search pattern (Some 0) = Ok found
  /\ (forall n, 0 < n ->
        Client.SearchSymbols_execute search pattern (Some n)
        = Ok (take (Z.to_nat n) found)
        /\ (length (take (Z.to_nat n) found) <= Z.to_nat n)%nat)
  /\ (forall k, 0 < k ->
        Client.SearchSymbols_execute search pattern (Some (- k))
        = Ok (take (length found - Z.to_nat k) found)
        /\ length (take (length found - Z.to_nat k) found)
           = (length found - Z.to_nat k)%nat).
Proof.
  intros H. unfold Client.SearchSymbols_execute. rewrite H.
  cbn [mbind result_bind mret result_ret Client.truthy_opt_int default].
  split; [ reflexivity | ]. split; [ reflexivity | ].
  split.
  - intros n Hn. destruct (n =? 0) eqn:E; [ apply Z.eqb_eq in E; lia | ].
    cbn [negb]. unfold slice_to, id.
    destruct (0 <=? n) eqn:E'; [ | apply Z.leb_gt in E'; lia ].
    split; [ reflexivity | ]. rewrite length_take. lia.
  - intros k Hk. destruct (- k =? 0) eqn:E; [ apply Z.eqb_eq in E; lia | ].
    cbn [negb]. unfold slice_to, id.
    destruct (0 <=? - k) eqn:E'; [ apply Z.leb_le in E'; lia | ].
    rewrite Z.opp_involutive.
    split; [ reflexivity | ]. rewrite length_take. lia.
Qed.

(** The theorem applied to a search that finds EURUSD twice, with limit 1. *)
Lemma search_limit_semantics_witness :
  (fun _ : string => Ok [Examples.EURUSD; Examples.EURUSD]) "EUR"
  = Ok [Examples.EURUSD; Examples.EURUSD]
  /\ Client.SearchSymbols_execute
       (fun _ => Ok [Examples.EURUSD; Examples.EURUSD]) "EUR" (Some 1)
     = Ok [Examples.EURUSD].
Proof.
  split; [ reflexivity | ].
  exact (proj1 (proj1 (proj2 (proj2
           (search_limit_semantics
              (fun _ => Ok [Examples.EURUSD; Examples.EURUSD]) "EUR"
              [Examples.EURUSD; Examples.EURUSD] eq_refl))) 1 ltac:(lia))).
Defined.

Lemma major_pairs_are_forex (n : string) :
  n ∈ Client.major_pairs ->
  (String.length n =? 6)%nat && isalpha n = true.
Proof.
  unfold Client.major_pairs. intros H.
  repeat (apply elem_of_cons in H as [->|H]; [ reflexivity | ]).
  apply elem_of_nil in H. destruct H.
Qed.

(** X17: every major pair returned by the facade is also returned as a
    forex pair: the major pairs are the forex pairs whose name is in the list
    of major names, and the forex pairs are the symbols for which the entity's
    own [is_forex] holds. *)
Theorem major_pairs_within_forex_pairs
    (get_symbols : result (list Client.Symbol)) (symbols : list Client.Symbol) :
  get_symbols = Ok symbols ->
  exists forex major,
    Client.get_forex_pairs get_symbols = Ok forex
    /\ Client.get_major_pairs get_symbols = Ok major
    /\ forex = filter (fun s => Client.is_forex s = true) symbols
    /\ major = filter (fun s => Client.name s ∈ Client.major_pairs) forex
    /\ (forall s, s ∈ major -> s ∈ forex)
    /\ sublist major forex.
Proof.
  intros ->. eexists. eexists.
  split; [ reflexivity | ]. split; [ reflexivity | ].
  split; [ reflexivity | ].
  assert (Heq : filter (fun s => Client.name s ∈ Client.major_pairs) symbols
                = filter (fun s => Client.name s ∈ Client.major_pairs)
                    (filter (fun symbol =>
                               (String.length (Client.name symbol) =? 6)%nat
                               && isalpha (Client.name symbol) = true) symbols)).
  { rewrite list_filter_filter. apply list_filter_iff.
    intros s. split; [ | tauto ].
    intros H. split; [ exact H | apply major_pairs_are_forex; exact H ]. }
  split; [ exact Heq | ].
  rewrite Heq. split.
  - intros s Hs. apply list_elem_of_filter in Hs. tauto.
  - apply sublist_filter.
Qed.

(** The theorem applied to a server that offers EURUSD. *)
Lemma major_pairs_within_forex_pairs_witness :
  Ok [Examples.EURUSD] = Ok [Examples.EURUSD]
  /\ exists forex major,
       Client.get_forex_pairs (Ok [Examples.EURUSD]) = Ok forex
       /\ Client.get_major_pairs (Ok [Examples.EURUSD]) = Ok major
       /\ sublist major forex.
Proof.
  split; [ reflexivity | ].
  destruct (major_pairs_within_forex_pairs (Ok [Examples.EURUSD])
              [Examples.EURUSD] eq_refl)
    as (forex & major & H1 & H2 & _ & _ & _ & H3).
  exists forex, major. auto.
Defined.

Section DailyChangesProofs.
Context {F : Type} (float_ : Qc -> F).

Let step (d : gmap string F) (change : Client.SymbolPctChangeResponse (F := F))
  : gmap string F :=
  match Client.pr_error change with
  | None => <[Client.pr_symbol change := Client.pr_pct_change change]> d
  | Some _ => d
  end.

Lemma daily_changes_dict_snoc (l : list (Client.SymbolPctChangeResponse (F := F)))
    (c : Client.SymbolPctChangeResponse (F := F)) :
  Client.daily_changes_dict (l ++ [c])%list
  = step (Client.daily_changes_dict l) c.
Proof. unfold Client.daily_changes_dict. rewrite foldl_app. reflexivity. Qed.

Lemma daily_changes_dict_lookup (l : list (Client.SymbolPctChangeResponse (F := F)))
    (s : string) (v : F) :
  Client.daily_changes_dict l !! s = Some v <->
  exists l1 c l2,
    l = (l1 ++ c :: l2)%list
    /\ Client.pr_symbol c = s /\ Client.pr_error c = None
    /\ Client.pr_pct_change c = v
    /\ forall c', c' ∈ l2 -> Client.pr_error c' = None -> Client.pr_symbol c' <> s.
Proof.
  revert v. induction l as [|c l IH] using rev_ind; intros v.
  - unfold Client.daily_changes_dict. cbn [foldl]. rewrite lookup_empty.
    split; [ discriminate | ].
    intros (l1 & c & l2 & H & _). destruct l1; discriminate.
  - rewrite daily_changes_dict_snoc. unfold step.
    destruct (Client.pr_error c) as [msg|] eqn:Ee.
    + rewrite IH. split.
      * intros (l1 & c0 & l2 & -> & Hs & He & Hv & Hl).
        exists l1, c0, (l2 ++ [c])%list.
        rewrite <- app_assoc. split; [ reflexivity | ].
        repeat (split; [ assumption | ]).
        intros c' Hc'. apply elem_of_app in Hc' as [Hc'|Hc'].
        -- apply Hl. exact Hc'.
        -- apply list_elem_of_singleton in Hc'. subst c'. congruence.
      * intros (l1 & c0 & l2 & Heq & Hs & He & Hv & Hl).
        destruct l2 as [|x l2] using rev_ind.
        -- apply app_inj_tail in Heq. destruct Heq as [_ <-]. congruence.
        -- clear IHl2. rewrite app_comm_cons, app_assoc in Heq.
           apply app_inj_tail in Heq. destruct Heq as [-> <-].
           exists l1, c0, l2. split; [ reflexivity | ].
           repeat (split; [ assumption | ]).
           intros c' Hc'. apply Hl. apply elem_of_app. left. exact Hc'.
    + destruct (decide (Client.pr_symbol c = s)) as [Hs|Hs].
      * rewrite Hs, lookup_insert_eq. split.
        -- intros [= <-]. exists l, c, []. split; [ reflexivity | ].
           repeat (split; [ assumption || reflexivity | ]).
           intros c' Hc'. apply elem_of_nil in Hc'. destruct Hc'.
        -- intros (l1 & c0 & l2 & Heq & Hs0 & He & Hv & Hl).
           destruct l2 as [|x l2] using rev_ind.
           ++ apply app_inj_tail in Heq. destruct Heq as [_ <-]. congruence.
           ++ clear IHl2. rewrite app_comm_cons, app_assoc in Heq.
              apply app_inj_tail in Heq. destruct Heq as [_ <-].
              exfalso. apply (Hl c); [ | exact Ee | exact Hs ].
              apply elem_of_app. right. apply list_elem_of_here.
      * rewrite lookup_insert_ne by exact Hs. rewrite IH. split.
        -- intros (l1 & c0 & l2 & -> & Hs0 & He & Hv & Hl).
           exists l1, c0, (l2 ++ [c])%list.
           rewrite <- app_assoc. split; [ reflexivity | ].
           repeat (split; [ assumption | ]).
           intros c' Hc'. apply elem_of_app in Hc' as [Hc'|Hc'].
           ++ apply Hl. exact Hc'.
           ++ apply list_elem_of_singleton in Hc'. subst c'. intros _. exact Hs.
        -- intros (l1 & c0 & l2 & Heq & Hs0 & He & Hv & Hl).
           destruct l2 as [|x l2] using rev_ind.
           ++ apply app_inj_tail in Heq. destruct Heq as [_ <-]. congruence.
           ++ clear IHl2. rewrite app_comm_cons, app_assoc in Heq.
              apply app_inj_tail in Heq. destruct Heq as [-> <-].
              exists l1, c0, l2. split; [ reflexivity | ].
              repeat (split; [ assumption | ]).
              intros c' Hc'. apply Hl. apply elem_of_app. left. exact Hc'.
Qed.

End DailyChangesProofs.

Lemma daily_changes_dict_none {F}
    (l : list (Client.SymbolPctChangeResponse (F := F))) (s : string) :
  Client.daily_changes_dict l !! s = None <->
  forall c, c ∈ l -> Client.pr_symbol c = s -> Client.pr_error c <> None.
Proof.
  induction l as [|c l IH] using rev_ind.
  - unfold Client.daily_changes_dict. cbn [foldl]. rewrite lookup_empty.
    split; [ | reflexivity ].
    intros _ c Hc. apply elem_of_nil in Hc. destruct Hc.
  - rewrite daily_changes_dict_snoc.
    destruct (Client.pr_error c) as [msg|] eqn:Ee.
    + rewrite IH. split.
      * intros H c' Hc'. apply elem_of_app in Hc' as [Hc'|Hc'].
        -- apply H. exact Hc'.
        -- apply list_elem_of_singleton in Hc'. subst c'. congruence.
      * intros H c' Hc'. apply H. apply elem_of_app. left. exact Hc'.
    + destruct (decide (Client.pr_symbol c = s)) as [Hs|Hs].
      * rewrite Hs, lookup_insert_eq. split; [ discriminate | ].
        intros H. exfalso. apply (H c); [ | exact Hs | exact Ee ].
        apply elem_of_app. right. apply list_elem_of_here.
      * rewrite lookup_insert_ne by exact Hs. rewrite IH. split.
        -- intros H c' Hc'. apply elem_of_app in Hc' as [Hc'|Hc'].
           ++ apply H. exact Hc'.
           ++ apply list_elem_of_singleton in Hc'. subst c'. tauto.
        -- intros H c' Hc'. apply H. apply elem_of_app. left. exact Hc'.
Qed.

(** X18: the daily changes of the facade, asked at the timeframe D1
    (16408): a symbol is a key of the dictionary exactly when the answer holds
    an entry without error for it, its value is the percent change of the last
    such entry, and a symbol all of whose entries carry an error is not a
    key. *)
Theorem daily_changes_keep_last_error_free {F} (float_ : Qc -> F)
    (repository : Client.IMT5Repository) (symbols : list string)
    (pcs : list Client.SymbolPercentChange) :
  Client.get_symbols_percent_change repository symbols 16408 = Ok pcs ->
  exists d,
    Client.get_daily_changes float_ repository symbols = Ok d
    /\ (forall s v,
          d !! s = Some v <->
          exists l1 p l2,
            pcs = (l1 ++ p :: l2)%list
            /\ Client.pc_symbol p = s /\ Client.error p = None
            /\ float_ (Client.pct_change p) = v
            /\ forall q, q ∈ l2 -> Client.error q = None -> Client.pc_symbol q <> s)
    /\ (forall s,
          d !! s = None <->
          forall p, p ∈ pcs -> Client.pc_symbol p = s -> Client.error p <> None).
Proof.
  intros H. unfold Client.get_daily_changes. rewrite H.
  cbn [mbind result_bind mret result_ret]. eexists. split; [ reflexivity | ].
  set (f := Client.SymbolPctChangeResponse_from_entity float_).
  split.
  - intros s v. rewrite daily_changes_dict_lookup. split.
    + intros (k1 & c & k2 & Heq & Hs & He & Hv & Hl).
      apply fmap_app_inv in Heq. destruct Heq as (l1 & l2' & -> & Heq & ->).
      symmetry in Heq. apply fmap_cons_inv in Heq.
      destruct Heq as (p & l2 & -> & -> & ->).
      exists l1, p, l2. split; [ reflexivity | ].
      repeat (split; [ assumption | ]).
      intros q Hq Hqe. apply (Hl (f q)); [ | exact Hqe ].
      apply list_elem_of_fmap. eauto.
    + intros (l1 & p & l2 & -> & Hs & He & Hv & Hl).
      exists (map f l1), (f p), (map f l2).
      split; [ rewrite map_app; reflexivity | ].
      repeat (split; [ assumption | ]).
      intros c' Hc'. apply list_elem_of_fmap in Hc'. destruct Hc' as (q & -> & Hq).
      apply Hl. exact Hq.
  - intros s. rewrite daily_changes_dict_none. split.
    + intros Hn p Hp. apply (Hn (f p)). apply list_elem_of_fmap. eauto.
    + intros Hn c Hc. apply list_elem_of_fmap in Hc. destruct Hc as (p & -> & Hp).
      apply Hn. exact Hp.
Qed.

(** The theorem applied to an answer with two entries for EURUSD and an
    entry with an error for XAUUSD: XAUUSD is not a key. *)
Lemma daily_changes_keep_last_error_free_witness :
  Client.get_symbols_percent_change Examples.repository_two_entries
    ["EURUSD"; "XAUUSD"] 16408
  = Ok [ {| Client.pc_symbol := "EURUSD"; Client.pct_change := dec 1 0;
            Client.error := None |};
         {| Client.pc_symbol := "EURUSD"; Client.pct_change := dec 2 0;
            Client.error := None |};
         {| Client.pc_symbol := "XAUUSD"; Client.pct_change := 0%Qc;
            Client.error := Some "Symbol not found" |} ]
  /\ exists d,
       Client.get_daily_changes (fun q : Qc => q) Examples.repository_two_entries
         ["EURUSD"; "XAUUSD"] = Ok d
       /\ d !! "XAUUSD" = None.
Proof.
  split; [ reflexivity | ].
  destruct (daily_changes_keep_last_error_free (fun q : Qc => q)
              Examples.repository_two_entries ["EURUSD"; "XAUUSD"] _ eq_refl)
    as (d & Hd & _ & Hnone).
  exists d. split; [ exact Hd | ].
  apply Hnone. intros p Hp Hs.
  repeat (apply elem_of_cons in Hp as [->|Hp]; [ try discriminate | ]).
  apply elem_of_nil in Hp. destruct Hp.
Defined.

(* ===================================================================== *)
(** * The terminal adapters of the layered server *)
(* ===================================================================== *)

(** [Some] for a result, [None] for an exception. *)
Lemma foldl_snoc_results {A B} (f : A -> result B) (l : list A) (init : list B) :
  foldl (fun acc x => match f x with
                      | Ok y => (acc ++ [y])%list
                      | Raise _ => acc
                      end) init l
  = (init ++ omap (fun x => match f x with
                            | Ok y => Some y
                            | Raise _ => None
                            end) l)%list.
Proof.
  revert init. induction l as [|x l IH]; intros init; cbn [foldl].
  - match goal with |- _ = (_ ++ ?o)%list => change o with (@nil B) end.
    rewrite app_nil_r. reflexivity.
  - rewrite IH.
    match goal with
    | |- _ = (_ ++ omap ?g (x :: l))%list =>
        change (omap g (x :: l))
          with (match g x with Some y => y :: omap g l | None => omap g l end)
    end.
    cbv beta. destruct (f x); [ rewrite <- app_assoc | ]; reflexivity.
Qed.

Lemma ticker_of_rate_cases (to_datetime : Z -> result Z) (symbol : string)
    (tf : Layered.TimeFrame) (r : Layered.mt5_rate) :
  match Layered.ticker_of_rate to_datetime symbol tf r with
  | Ok t =>
      rate_ok to_datetime symbol r
      /\ exists timestamp,
           to_datetime (Layered.r_time r) = Ok timestamp
           /\ t = rate_ticker symbol tf timestamp r
  | Raise _ => ~ rate_ok to_datetime symbol r
  end.
Proof.
  unfold Layered.ticker_of_rate, rate_ok.
  destruct (to_datetime (Layered.r_time r)) as [ts|e];
    cbn [mbind result_bind is_ok]; [ | intros [H _]; discriminate ].
  pose proof (layered_new_Ticker_cases symbol tf ts
                (Layered.r_open r) (Layered.r_high r) (Layered.r_low r)
                (Layered.r_close r) (Layered.r_tick_volume r)) as H.
  destruct (Layered.new_Ticker _ _ _ _ _ _ _ _).
  - destruct H as [Hok ->]. split; [ split; [ reflexivity | exact Hok ] | eauto ].
  - intros [_ Hok]. exact (proj1 H Hok).
Qed.

Lemma rates_tickers_cons (to_datetime : Z -> result Z) (symbol : string)
    (tf : Layered.TimeFrame) (r : Layered.mt5_rate)
    (rates : list Layered.mt5_rate) :
  (rate_ok to_datetime symbol r ->
   exists timestamp,
     to_datetime (Layered.r_time r) = Ok timestamp
     /\ rates_tickers to_datetime symbol tf (r :: rates)
        = rate_ticker symbol tf timestamp r
          :: rates_tickers to_datetime symbol tf rates)
  /\ (~ rate_ok to_datetime symbol r ->
      rates_tickers to_datetime symbol tf (r :: rates)
      = rates_tickers to_datetime symbol tf rates).
Proof.
  unfold rates_tickers, rate_ok.
  match goal with
  | |- context [omap ?g (r :: rates)] =>
      change (omap g (r :: rates))
        with (match g r with Some y => y :: omap g rates | None => omap g rates end)
  end.
  cbv beta.
  destruct (to_datetime (Layered.r_time r)) as [ts|e]; cbn [is_ok].
  - destruct (decide (ticker_ok symbol (Layered.r_open r) (Layered.r_high r)
                        (Layered.r_low r) (Layered.r_close r)
                        (Layered.r_tick_volume r))) as [Hok|Hno].
    + split; [ intros _; exists ts; split; reflexivity | ].
      intros Hn. exfalso. apply Hn. split; [ reflexivity | exact Hok ].
    + split; [ intros [_ Hok]; contradiction | reflexivity ].
  - split; [ intros [H _]; discriminate | reflexivity ].
Qed.

Lemma convert_rates_to_tickers_eq (to_datetime : Z -> result Z)
    (rates : list Layered.mt5_rate) (symbol : string) (tf : Layered.TimeFrame) :
  Layered._convert_rates_to_tickers to_datetime rates symbol tf
  = rates_tickers to_datetime symbol tf rates.
Proof.
  unfold Layered._convert_rates_to_tickers.
  transitivity
    (omap (fun r => match Layered.ticker_of_rate to_datetime symbol tf r with
                    | Ok t => Some t
                    | Raise _ => None
                    end) rates).
  { apply (foldl_snoc_results (Layered.ticker_of_rate to_datetime symbol tf)
             rates []). }
  induction rates as [|r rates IH]; [ reflexivity | ].
  match goal with
  | |- omap ?f (r :: rates) = _ =>
      change (omap f (r :: rates))
        with (match f r with Some y => y :: omap f rates | None => omap f rates end)
  end.
  cbv beta. pose proof (ticker_of_rate_cases to_datetime symbol tf r) as H.
  destruct (rates_tickers_cons to_datetime symbol tf r rates) as [Hyes Hno].
  destruct (Layered.ticker_of_rate to_datetime symbol tf r) as [t|e].
  - destruct H as (Hok & ts & Hts & ->).
    destruct (Hyes Hok) as (ts' & Hts' & ->).
    rewrite Hts in Hts'. injection Hts' as <-. rewrite IH. reflexivity.
  - rewrite (Hno H). exact IH.
Qed.

Lemma rates_tickers_length (to_datetime : Z -> result Z) (symbol : string)
    (tf : Layered.TimeFrame) (rates : list Layered.mt5_rate) :
  length (rates_tickers to_datetime symbol tf rates)
  = length (filter (rate_ok to_datetime symbol) rates).
Proof.
  induction rates as [|r rates IH]; [ reflexivity | ].
  destruct (rates_tickers_cons to_datetime symbol tf r rates) as [Hyes Hno].
  rewrite filter_cons.
  destruct (decide (rate_ok to_datetime symbol r)) as [Hok|Hn].
  - destruct (Hyes Hok) as (ts & _ & ->). cbn [length]. rewrite IH. reflexivity.
  - rewrite (Hno Hn). exact IH.
Qed.

Lemma rates_tickers_elem (to_datetime : Z -> result Z) (symbol : string)
    (tf : Layered.TimeFrame) (rates : list Layered.mt5_rate) (t : Layered.Ticker) :
  t ∈ rates_tickers to_datetime symbol tf rates ->
  exists r timestamp,
    r ∈ rates /\ rate_ok to_datetime symbol r
    /\ to_datetime (Layered.r_time r) = Ok timestamp
    /\ t = rate_ticker symbol tf timestamp r.
Proof.
  induction rates as [|r rates IH]; [ intros H; apply elem_of_nil in H; contradiction | ].
  destruct (rates_tickers_cons to_datetime symbol tf r rates) as [Hyes Hno].
  destruct (decide (rate_ok to_datetime symbol r)) as [Hok|Hn].
  - destruct (Hyes Hok) as (ts & Hts & ->). intros Ht.
    apply elem_of_cons in Ht. destruct Ht as [->|Ht].
    + exists r, ts. split; [ apply elem_of_cons; left; reflexivity | tauto ].
    + destruct (IH Ht) as (r' & ts' & Hr' & Hrest).
      exists r', ts'. split; [ apply elem_of_cons; right; exact Hr' | exact Hrest ].
  - rewrite (Hno Hn). intros Ht.
    destruct (IH Ht) as (r' & ts' & Hr' & Hrest).
    exists r', ts'. split; [ apply elem_of_cons; right; exact Hr' | exact Hrest ].
Qed.

Lemma rate_ticker_post_init (symbol : string) (tf : Layered.TimeFrame)
    (timestamp : Z) (r : Layered.mt5_rate) :
  ticker_ok symbol (Layered.r_open r) (Layered.r_high r) (Layered.r_low r)
    (Layered.r_close r) (Layered.r_tick_volume r) ->
  Layered.Ticker_post_init (rate_ticker symbol tf timestamp r) = Ok tt.
Proof.
  intros Hok.
  pose proof (layered_new_Ticker_cases symbol tf timestamp
                (Layered.r_open r) (Layered.r_high r) (Layered.r_low r)
                (Layered.r_close r) (Layered.r_tick_volume r)) as H.
  unfold Layered.new_Ticker in H. fold (rate_ticker symbol tf timestamp r) in H.
  destruct (Layered.Ticker_post_init (rate_ticker symbol tf timestamp r)) as [[]|e];
    [ reflexivity | ].
  cbn [mbind result_bind] in H. destruct H as [H _]. contradiction.
Qed.

(** X19: the conversion of the rate array keeps, in order, exactly the
    rows whose time can be converted and whose numbers give a well-formed
    candle (symbol not empty, high >= max(open, close),
    low <= min(open, close), tick volume >= 0), and converts them field by
    field; the other rows are dropped without error.  So every candle
    returned satisfies the invariants of [Ticker] and comes from a row, there
    are never more candles than rows, as many exactly when every row can be
    converted, and for the empty symbol there is none. *)
Theorem rates_to_tickers_keeps_valid_rows (to_datetime : Z -> result Z)
    (rates : list Layered.mt5_rate) (symbol : string) (tf : Layered.TimeFrame) :
  let tickers := Layered._convert_rates_to_tickers to_datetime rates symbol tf in
  tickers = rates_tickers to_datetime symbol tf rates
  /\ (forall t, t ∈ tickers ->
        Layered.Ticker_post_init t = Ok tt /\ Layered.symbol t = symbol
        /\ Layered.timeframe t = tf
        /\ exists r timestamp,
             r ∈ rates /\ to_datetime (Layered.r_time r) = Ok timestamp
             /\ t = rate_ticker symbol tf timestamp r)
  /\ length tickers = length (filter (rate_ok to_datetime symbol) rates)
  /\ (length tickers <= length rates)%nat
  /\ (length tickers = length rates <-> Forall (rate_ok to_datetime symbol) rates)
  /\ (symbol = "" -> tickers = []).
Proof.
  intros tickers. subst tickers. rewrite convert_rates_to_tickers_eq.
  split; [ reflexivity | ].
  split.
  { intros t Ht. apply rates_tickers_elem in Ht.
    destruct Ht as (r & ts & Hr & [_ Hok] & Hts & ->).
    split; [ apply rate_ticker_post_init; exact Hok | ].
    split; [ reflexivity | ]. split; [ reflexivity | eauto ]. }
  rewrite rates_tickers_length.
  split; [ reflexivity | ].
  split; [ apply length_filter | ].
  split.
  { split.
    - intros Hlen. apply Forall_forall. intros r Hr.
      assert (Hf : filter (rate_ok to_datetime symbol) rates = rates).
      { clear Hr. induction rates as [|a rates IH]; [ reflexivity | ].
        rewrite filter_cons in Hlen |- *.
        destruct (decide (rate_ok to_datetime symbol a)) as [Ha|Ha].
        - cbn [length] in Hlen. f_equal. apply IH. lia.
        - pose proof (length_filter (rate_ok to_datetime symbol) rates).
          cbn [length] in Hlen. lia. }
      rewrite <- Hf in Hr. apply list_elem_of_filter in Hr. tauto.
    - intros Hall. induction Hall as [|a rates Ha Hall IH]; [ reflexivity | ].
      rewrite filter_cons, decide_True by exact Ha. cbn [length]. lia. }
  intros ->. induction rates as [|a rates IH]; [ reflexivity | ].
  rewrite (proj2 (rates_tickers_cons to_datetime "" tf a rates)); [ exact IH | ].
  intros (_ & Hs & _). congruence.
Qed.



(** ** Symbols of the terminal *)

Lemma new_Symbol_cases (s : Layered.Symbol) :
  match Layered.new_Symbol s with
  | Ok s' => symbol_ok s /\ s' = s
  | Raise e => ~ symbol_ok s /\ exists msg, e = ValueError msg
  end.
Proof.
  unfold Layered.new_Symbol, Layered.Symbol_post_init, symbol_ok.
  case_raise_if.
  { split; [ | eauto ]. intros (Hn & _).
    apply truthy_str_nonempty in Hn. rewrite Hn in E. discriminate. }
  case_raise_if.
  { split; [ | eauto ]. intros (_ & Hd & _). apply Z.ltb_lt in E0. lia. }
  case_raise_if.
  { split; [ | eauto ]. intros (_ & _ & Hv & _).
    apply Qc_leb_le in E1. exact (Qcle_not_lt _ _ E1 Hv). }
  case_raise_if.
  { split; [ | eauto ]. intros (_ & _ & _ & Hm).
    apply Qc_ltb_lt in E2. exact (Qcle_not_lt _ _ Hm E2). }
  apply negb_false_iff, truthy_str_nonempty in E.
  apply Z.ltb_ge in E0. apply Qc_leb_gt in E1. apply Qc_ltb_ge in E2.
  split; [ tauto | reflexivity ].
Qed.

Lemma items_get_trade_mode (z : Z) :
  Layered.items_get Layered.trade_mode_mapping z Layered.DISABLED
  = if decide (z = 1) then Layered.LONG_ONLY
    else if decide (z = 2) then Layered.SHORT_ONLY
    else if decide (z = 3) then Layered.CLOSE_ONLY
    else if decide (z = 4) then Layered.FULL
    else Layered.DISABLED.
Proof.
  unfold Layered.items_get, Layered.trade_mode_mapping.
  cbn [list_find fst snd].
  repeat (destruct (decide _); cbn [fmap option_fmap option_map prod_map fst snd];
          try lia; try reflexivity).
Qed.

(** X21: a [Symbol] of the layered server is constructed exactly when its
    name is not empty, its digits are not negative, its minimum volume is
    above 0 and its maximum volume is not below the minimum; every other
    construction raises [ValueError].  The symbol repository of the terminal
    returns, in order, the conversions of the descriptions that satisfy
    these conditions and skips the others without error, so every symbol it
    returns is well formed; a missing description text becomes the empty
    text, missing margins become 0, and a trade mode outside 0..4 becomes
    DISABLED. *)
Theorem mt5_symbols_converted_or_skipped (mt5 : Layered.mt5_module)
    (data : option (list Layered.mt5_symbol)) :
  Layered.symbols_get mt5 = Ok data ->
  (forall s, match Layered.new_Symbol s with
             | Ok s' => symbol_ok s /\ s' = s
             | Raise e => ~ symbol_ok s /\ exists msg, e = ValueError msg
             end)
  /\ exists l,
       Layered.get_all_symbols (Layered.MT5SymbolRepository mt5) = Ok l
       /\ Layered.GetSymbols_execute (Layered.MT5SymbolRepository mt5) = Ok l
       /\ l = omap (fun d => match Layered._convert_mt5_symbol_to_domain d with
                             | Ok s => Some s
                             | Raise _ => None
                             end) (default [] data)
       /\ (forall s, s ∈ l -> symbol_ok s)
       /\ (forall s, s ∈ l <->
             exists d, d ∈ default [] data
                       /\ Layered._convert_mt5_symbol_to_domain d = Ok s)
       /\ (forall d s, Layered._convert_mt5_symbol_to_domain d = Ok s ->
             Layered.name s = Layered.s_name d
             /\ Layered.description s = default "" (Layered.s_description d)
             /\ Layered.margin_initial s
                = default 0%Qc (Layered.s_margin_initial d)
             /\ (Layered.s_trade_mode d < 0 \/ 4 < Layered.s_trade_mode d ->
                 Layered.trade_mode s = Layered.DISABLED)).
Proof.
  intros Hget. split; [ apply new_Symbol_cases | ].
  set (conv := fun d => match Layered._convert_mt5_symbol_to_domain d with
                        | Ok s => Some s
                        | Raise _ => None
                        end).
  assert (Hall : Layered.MT5_get_all_symbols mt5 = Ok (omap conv (default [] data))).
  { unfold Layered.MT5_get_all_symbols. rewrite Hget.
    cbn [mbind result_bind]. destruct data as [symbols_data|]; [ | reflexivity ].
    cbn [default mret result_ret]. f_equal.
    apply (foldl_snoc_results Layered._convert_mt5_symbol_to_domain
             symbols_data []). }
  assert (Hmem : forall s, s ∈ omap conv (default [] data) <->
                   exists d, d ∈ default [] data
                             /\ Layered._convert_mt5_symbol_to_domain d = Ok s).
  { intros s. rewrite list_elem_of_omap. unfold conv.
    split; intros (d & Hd & Hc); exists d; (split; [ exact Hd | ]).
    - destruct (Layered._convert_mt5_symbol_to_domain d); congruence.
    - rewrite Hc. reflexivity. }
  exists (omap conv (default [] data)).
  split; [ exact Hall | ].
  split.
  { unfold Layered.GetSymbols_execute.
    cbn [Layered.MT5SymbolRepository Layered.get_all_symbols].
    rewrite Hall. reflexivity. }
  split; [ reflexivity | ].
  split.
  { intros s Hs. apply Hmem in Hs. destruct Hs as (d & _ & Hc).
    unfold Layered._convert_mt5_symbol_to_domain in Hc.
    match type of Hc with
    | Layered.new_Symbol ?x = _ => pose proof (new_Symbol_cases x) as H
    end.
    rewrite Hc in H. destruct H as [Hok ->]. exact Hok. }
  split; [ exact Hmem | ].
  intros d s Hc. unfold Layered._convert_mt5_symbol_to_domain in Hc.
  match type of Hc with
  | Layered.new_Symbol ?x = _ => pose proof (new_Symbol_cases x) as H
  end.
  rewrite Hc in H. destruct H as [_ ->].
  cbn [Layered.name Layered.description Layered.margin_initial Layered.trade_mode].
  repeat (split; [ reflexivity | ]).
  intros Hz. rewrite items_get_trade_mode.
  repeat (destruct (decide _); [ lia | ]). reflexivity.
Qed.

(** The theorem applied to a terminal that knows [CL] and a description
    whose minimum volume is 0: only [CL] is returned. *)
Lemma mt5_symbols_converted_or_skipped_witness :
  Layered.symbols_get
    (Examples.terminal [Examples.no_volume_data; Examples.CL_data] [] None)
  = Ok (Some [Examples.no_volume_data; Examples.CL_data])
  /\ Layered.get_all_symbols
       (Layered.MT5SymbolRepository
          (Examples.terminal [Examples.no_volume_data; Examples.CL_data] [] None))
     = Ok [Examples.CL].
Proof.
  split; [ reflexivity | ].
  destruct (mt5_symbols_converted_or_skipped
              (Examples.terminal [Examples.no_volume_data; Examples.CL_data] [] None)
              (Some [Examples.no_volume_data; Examples.CL_data]) eq_refl)
    as (_ & l & Hl & _ & -> & _).
  rewrite Hl. reflexivity.
Defined.

(** ** Timeframes *)

Lemma convert_timeframe_standard (mt5 : Layered.mt5_module)
    (tf : Layered.TimeFrame) :
  standard_timeframes mt5 ->
  Layered._convert_timeframe_to_mt5 mt5 tf = Layered.TimeFrame_value tf.
Proof.
  intros (H1 & H5 & H15 & H30 & HH1 & HH4 & HD1 & HW1 & HMN1).
  unfold Layered._convert_timeframe_to_mt5.
  rewrite H1, H5, H15, H30, HH1, HH4, HD1, HW1, HMN1.
  destruct tf; reflexivity.
Qed.

Lemma TimeFrame_call_value (tf : Layered.TimeFrame) :
  Layered.TimeFrame_call (Layered.TimeFrame_value tf) = Ok tf.
Proof. destruct tf; reflexivity. Qed.

Lemma TimeFrame_call_cases (v : Z) :
  match Layered.TimeFrame_call v with
  | Ok tf => Layered.TimeFrame_value tf = v
  | Raise e => (v ∉ Layered.valid_timeframes)
               /\ e = ValueError (pretty v ++ " is not a valid TimeFrame")
  end.
Proof.
  unfold Layered.TimeFrame_call.
  destruct (list_find (fun tf => Layered.TimeFrame_value tf = v)
              Layered.TimeFrame_members) as [[i tf]|] eqn:E.
  - apply list_find_Some in E. tauto.
  - split; [ | reflexivity ].
    apply list_find_None in E. intros Hin.
    unfold Layered.valid_timeframes in Hin.
    unfold Layered.TimeFrame_members in E. rewrite !Forall_cons in E.
    cbn [Layered.TimeFrame_value] in E.
    repeat (apply elem_of_cons in Hin; destruct Hin as [->|Hin]; [ tauto | ]).
    apply elem_of_nil in Hin. exact Hin.
Qed.

(** X22: the integers the request models accept as timeframe are exactly
    the values of the enumeration [TimeFrame]: for an accepted integer the
    conversion [TimeFrame(v)] the controllers make succeeds, the member has
    that value, and the terminal is queried with the same integer when its
    constants are the standard ones (as in [MockMT5]); for a rejected integer
    the validator raises [ValueError] and so would [TimeFrame(v)].  Every
    member is found again from its value. *)
Theorem timeframe_round_trip (v : Z) :
  (forall tf, Layered.TimeFrame_call (Layered.TimeFrame_value tf) = Ok tf)
  /\ match Layered.validate_timeframe v with
     | Ok v' =>
         v' = v
         /\ exists tf,
              Layered.TimeFrame_call v = Ok tf
              /\ Layered.TimeFrame_value tf = v
              /\ forall mt5, standard_timeframes mt5 ->
                   Layered._convert_timeframe_to_mt5 mt5 tf = v
     | Raise e =>
         (exists msg, e = ValueError msg)
         /\ Layered.TimeFrame_call v
            = Raise (ValueError (pretty v ++ " is not a valid TimeFrame"))
     end
  /\ standard_timeframes Layered.MockMT5.
Proof.
  split; [ apply TimeFrame_call_value | ].
  split; [ | repeat split ].
  unfold Layered.validate_timeframe.
  pose proof (TimeFrame_call_cases v) as Hc.
  case_raise_if.
  - split; [ eauto | ].
    apply negb_true_iff, bool_decide_eq_false in E.
    destruct (Layered.TimeFrame_call v) as [tf|e].
    + exfalso. apply E. rewrite <- Hc. destruct tf; cbn; set_solver.
    + destruct Hc as [_ ->]. reflexivity.
  - split; [ reflexivity | ].
    apply negb_false_iff, bool_decide_eq_true in E.
    destruct (Layered.TimeFrame_call v) as [tf|e]; [ | tauto ].
    exists tf. split; [ reflexivity | ]. split; [ exact Hc | ].
    intros mt5 Hstd. rewrite <- Hc. apply convert_timeframe_standard. exact Hstd.
Qed.

(** ** The candle use case *)

Lemma blank_test (s : string) :
  negb (truthy_str s) || negb (truthy_str (strip s)) = true <-> strip s = "".
Proof.
  destruct s as [|c s]; [ cbn; tauto | ].
  cbn [truthy_str negb orb].
  destruct (strip (String c s)) eqn:E; cbn; split; congruence.
Qed.

Lemma blank_test_false (s : string) :
  negb (truthy_str s) || negb (truthy_str (strip s)) = false <-> strip s <> "".
Proof.
  rewrite <- blank_test.
  destruct (negb (truthy_str s) || negb (truthy_str (strip s)));
    split; congruence.
Qed.




(** ** Opening and closing positions *)

Lemma prepared_request_fields (mt5 : Layered.mt5_module)
    (tr : Layered.TradeRequest) (info : Layered.mt5_symbol) :
  let req := Layered._prepare_mt5_trade_request mt5 tr info in
  req !! "symbol" = Some (VStr (Layered.tr_symbol tr))
  /\ req !! "volume" = Some (VFloat (Layered.tr_volume tr))
  /\ req !! "price"
     = Some (VFloat (match Layered.order_type tr with
                     | Layered.BUY => Layered.s_ask info
                     | Layered.SELL => Layered.s_bid info
                     end))
  /\ req !! "sl"
     = (if Layered.truthy_opt_Decimal (Layered.stop_loss tr)
        then VFloat <$> Layered.stop_loss tr else None)
  /\ req !! "tp"
     = (if Layered.truthy_opt_Decimal (Layered.take_profit tr)
        then VFloat <$> Layered.take_profit tr else None).
Proof.
  intros req. subst req. unfold Layered._prepare_mt5_trade_request.
  destruct (Layered.stop_loss tr) as [sl|] eqn:Hsl;
    destruct (Layered.take_profit tr) as [tp|] eqn:Htp;
    cbn [Layered.truthy_opt_Decimal default id fmap option_fmap option_map];
    repeat match goal with
           | |- context [negb (Qc_eqb ?x ?y)] => destruct (negb (Qc_eqb x y))
           end;
    destruct (Layered.order_type tr); cbn [bool_decide decide_rel];
    repeat split; reflexivity.
Qed.

(** X24: opening a position through the use case and the trading service
    of the terminal.  A request that fails validation, or whose symbol the
    terminal does not know, raises [ValueError] with the prefix
    "Invalid trade request: " and no order reaches the terminal.  Otherwise
    exactly one order is sent: its price is the ask of the symbol for BUY and
    the bid for SELL and does not depend on the price of the request, and it
    carries a stop loss or take profit only when the request gives one
    different from zero.  An answer of the terminal is returned as a result
    whose [success] says whether the return code is [TRADE_RETCODE_DONE], so
    a rejected order is a result, not an exception; no answer, or an answer
    whose [_asdict] raises, is an exception of the use case. *)
Theorem open_position_outcomes (mt5 : Layered.mt5_module)
    (tr : Layered.TradeRequest) :
  let out := Layered.OpenPosition_execute (Layered.MT5TradingService mt5) tr in
  match Layered.validate tr with
  | Raise e =>
      out = ([], Raise (ValueError ("Invalid trade request: " ++ str_exn e)))
  | Ok _ =>
      match Layered.symbol_info mt5 (Layered.tr_symbol tr) with
      | Raise e => out = ([], Layered.open_position_handlers e)
      | Ok None =>
          out = ([], Raise (ValueError ("Invalid trade request: Symbol "
                                        ++ Layered.tr_symbol tr ++ " not found")))
      | Ok (Some info) =>
          exists req,
            out.1 = [req]
            /\ req !! "symbol" = Some (VStr (Layered.tr_symbol tr))
            /\ req !! "volume" = Some (VFloat (Layered.tr_volume tr))
            /\ req !! "price"
               = Some (VFloat (match Layered.order_type tr with
                               | Layered.BUY => Layered.s_ask info
                               | Layered.SELL => Layered.s_bid info
                               end))
            /\ req !! "sl"
               = (if Layered.truthy_opt_Decimal (Layered.stop_loss tr)
                  then VFloat <$> Layered.stop_loss tr else None)
            /\ req !! "tp"
               = (if Layered.truthy_opt_Decimal (Layered.take_profit tr)
                  then VFloat <$> Layered.take_profit tr else None)
            /\ (forall p, Layered._prepare_mt5_trade_request mt5
                            (with_price tr p) info = req)
            /\ match Layered.order_send mt5 req with
               | Ok (Some res) =>
                   match Layered.o_asdict res with
                   | Some (Raise e) => out.2 = Layered.open_position_handlers e
                   | _ =>
                       exists d,
                         out.2 = Ok d
                         /\ d !! "success"
                            = Some (VBool (bool_decide
                                             (Layered.retcode res
                                              = Layered.TRADE_RETCODE_DONE mt5)))
                         /\ d !! "retcode" = Some (VInt (Layered.retcode res))
                   end
               | Ok None =>
                   out.2 = Raise (RuntimeError
                     "Failed to open position: 'NoneType' object has no attribute 'retcode'")
               | Raise e => out.2 = Layered.open_position_handlers e
               end
      end
  end.
Proof.
  intros out. subst out. unfold Layered.OpenPosition_execute.
  pose proof (validate_cases tr) as Hv.
  destruct (Layered.validate tr) as [[]|e].
  2: { destruct Hv as (_ & msg & ->). reflexivity. }
  cbn [Layered.MT5TradingService Layered.open_position].
  unfold Layered.MT5_open_position.
  destruct (Layered.symbol_info mt5 (Layered.tr_symbol tr)) as [[info|]|e];
    [ | reflexivity | reflexivity ].
  exists (Layered._prepare_mt5_trade_request mt5 tr info).
  cbn [fst snd].
  split; [ reflexivity | ].
  destruct (prepared_request_fields mt5 tr info) as (H1 & H2 & H3 & H4 & H5).
  repeat (split; [ assumption | ]).
  split; [ reflexivity | ].
  destruct (Layered.order_send mt5 (Layered._prepare_mt5_trade_request mt5 tr info))
    as [[res|]|e]; cbn [mbind result_bind try_except Layered._process_trade_result];
    [ | reflexivity | reflexivity ].
  destruct (Layered.o_asdict res) as [[[]|e]|];
    cbn [mbind result_bind mret result_ret try_except];
    [ | reflexivity | ];
    (eexists; split; [ reflexivity | ]; split; reflexivity).
Qed.

(** The theorem applied to the BUY request at 1.1000 for EURUSD (ask
    1.1002) over a terminal that rejects the order: the order is sent at
    1.1002 and the rejection is returned as a result. *)
Lemma open_position_outcomes_witness :
  exists req d,
    Layered.OpenPosition_execute
      (Layered.MT5TradingService
         (Examples.terminal [Examples.EURUSD_data] [] (Some Examples.rejected)))
      (Examples.buy_request (Some (dec 10990 4)) (Some (dec 11050 4)))
    = ([req], Ok d)
    /\ req !! "price" = Some (VFloat (dec 11002 4))
    /\ d !! "success" = Some (VBool false).
Proof.
  pose proof (open_position_outcomes
                (Examples.terminal [Examples.EURUSD_data] [] (Some Examples.rejected))
                (Examples.buy_request (Some (dec 10990 4)) (Some (dec 11050 4))))
    as H.
  cbv zeta in H.
  destruct (Layered.OpenPosition_execute _ _) as [sent r] eqn:Eo.
  change (Layered.validate
            (Examples.buy_request (Some (dec 10990 4)) (Some (dec 11050 4))))
    with (Ok tt : result unit) in H.
  change (Layered.symbol_info _ _)
    with (Ok (Some Examples.EURUSD_data) : result (option Layered.mt5_symbol)) in H.
  cbv iota in H.
  destruct H as (req & Hs & _ & _ & Hp & _ & _ & _ & Hr).
  change (Layered.order_send _ req)
    with (Ok (Some Examples.rejected) : result (option Layered.order_result)) in Hr.
  cbv iota in Hr. destruct Hr as (d & Hd & Hsucc & _).
  cbn [fst snd] in Hs, Hd. subst sent r.
  exists req, d. split; [ reflexivity | ]. split; [ exact Hp | exact Hsucc ].
Defined.

(** X25: closing a position through the use case and the trading service
    of the terminal never returns a result.  A ticket that is not positive,
    or a volume given and not positive, raises [ValueError]; every other call
    reaches the service, whose [close_position] is not implemented, and
    raises [RuntimeError] with the text "Failed to close position <ticket>:
    Close position functionality to be implemented". *)
Theorem close_position_never_succeeds (mt5 : Layered.mt5_module) (ticket : Z)
    (volume : option Qc) :
  let out := Layered.ClosePosition_execute (Layered.MT5TradingService mt5)
               ticket volume in
  is_ok out = false
  /\ (ticket <= 0 -> out = Raise (ValueError "Ticket must be positive"))
  /\ (0 < ticket -> (exists v, volume = Some v /\ (v <= 0)%Qc) ->
      out = Raise (ValueError "Volume must be positive if specified"))
  /\ (0 < ticket -> (forall v, volume = Some v -> (0 < v)%Qc) ->
      out = Raise (RuntimeError
                     ("Failed to close position " ++ pretty ticket
                      ++ ": Close position functionality to be implemented"))).
Proof.
  intros out. subst out. unfold Layered.ClosePosition_execute.
  destruct (ticket <=? 0) eqn:Et; cbn [raise_if mbind result_bind].
  { apply Z.leb_le in Et. split; [ reflexivity | ].
    split; [ reflexivity | ]. split; intros; lia. }
  apply Z.leb_gt in Et.
  destruct volume as [v|].
  - destruct (Qc_leb v 0%Qc) eqn:Ev; cbn [raise_if mbind result_bind].
    + apply Qc_leb_le in Ev. split; [ reflexivity | ].
      split; [ intros; lia | ]. split; [ reflexivity | ].
      intros _ Hpos. exfalso.
      exact (Qcle_not_lt _ _ Ev (Hpos v eq_refl)).
    + apply Qc_leb_gt in Ev. split; [ reflexivity | ].
      split; [ intros; lia | ]. split; [ | reflexivity ].
      intros _ (v' & [= <-] & Hle). exfalso. exact (Qcle_not_lt _ _ Hle Ev).
  - cbn [raise_if mbind result_bind]. split; [ reflexivity | ].
    split; [ intros; lia | ]. split; [ | reflexivity ].
    intros _ (v' & Hv & _). discriminate.
Qed.

(** The theorem applied to ticket 42 and no volume. *)
Lemma close_position_never_succeeds_witness :
  0 < 42 /\ (forall v : Qc, None = Some v -> (0 < v)%Qc)
  /\ Layered.ClosePosition_execute (Layered.MT5TradingService Layered.MockMT5)
       42 None
     = Raise (RuntimeError
                "Failed to close position 42: Close position functionality to be implemented").
Proof.
  assert (H1 : 0 < 42) by lia.
  assert (H2 : forall v : Qc, None = Some v -> (0 < v)%Qc) by discriminate.
  split; [ exact H1 | ]. split; [ exact H2 | ].
  exact (proj2 (proj2 (proj2 (close_position_never_succeeds Layered.MockMT5 42 None)))
           H1 H2).
Defined.

(** ** Normalised symbol names *)

Lemma isspace_upper_char (c : ascii) : isspace (upper_char c) = isspace c.
Proof. destruct c as [[] [] [] [] [] [] [] []]; reflexivity. Qed.

Lemma upper_char_idem (c : ascii) : upper_char (upper_char c) = upper_char c.
Proof. destruct c as [[] [] [] [] [] [] [] []]; reflexivity. Qed.

Lemma upper_idem (s : string) : upper (upper s) = upper s.
Proof.
  unfold upper. induction s as [|c s IH]; cbn [Py.map_string]; [ reflexivity | ].
  rewrite upper_char_idem, IH. reflexivity.
Qed.

Lemma lstrip_by_map_string (p : ascii -> bool) (f : ascii -> ascii) (s : string) :
  (forall c, p (f c) = p c) ->
  lstrip_by p (Py.map_string f s) = Py.map_string f (lstrip_by p s).
Proof.
  intros Hf. induction s as [|c s IH]; [ reflexivity | ].
  cbn [Py.map_string lstrip_by]. rewrite Hf.
  destruct (p c); [ exact IH | reflexivity ].
Qed.

Lemma rstrip_by_map_string (p : ascii -> bool) (f : ascii -> ascii) (s : string) :
  (forall c, p (f c) = p c) ->
  rstrip_by p (Py.map_string f s) = Py.map_string f (rstrip_by p s).
Proof.
  intros Hf. induction s as [|c s IH]; [ reflexivity | ].
  cbn [Py.map_string rstrip_by]. rewrite IH, Hf.
  destruct (rstrip_by p s); cbn [Py.map_string];
    [ destruct (p c) | ]; reflexivity.
Qed.

Lemma strip_upper (s : string) : strip (upper s) = upper (strip s).
Proof.
  unfold strip, strip_by, upper.
  rewrite lstrip_by_map_string by apply isspace_upper_char.
  apply rstrip_by_map_string, isspace_upper_char.
Qed.

Lemma rstrip_by_idem (p : ascii -> bool) (s : string) :
  rstrip_by p (rstrip_by p s) = rstrip_by p s.
Proof.
  induction s as [|c s IH]; [ reflexivity | ].
  cbn [rstrip_by]. destruct (rstrip_by p s) as [|b r] eqn:E.
  - destruct (p c) eqn:Hc; [ reflexivity | ].
    cbn [rstrip_by]. rewrite Hc. reflexivity.
  - change (rstrip_by p (String c (String b r)))
      with (match rstrip_by p (String b r) with
            | EmptyString => if p c then EmptyString else String c EmptyString
            | r' => String c r'
            end).
    rewrite IH. reflexivity.
Qed.

Lemma strip_by_idem (p : ascii -> bool) (s : string) :
  strip_by p (strip_by p s) = strip_by p s.
Proof.
  unfold strip_by.
  destruct (rstrip_by p (lstrip_by p s)) as [|c r] eqn:E; [ reflexivity | ].
  destruct (rstrip_by_head _ _ _ _ E) as [s' Hs'].
  pose proof (lstrip_by_head _ _ _ _ Hs') as Hc.
  cbn [lstrip_by]. rewrite Hc. rewrite <- E. apply rstrip_by_idem.
Qed.

Lemma normalise_idem (s : string) :
  upper (strip (upper (strip s))) = upper (strip s).
Proof.
  rewrite strip_upper. unfold strip. rewrite strip_by_idem. apply upper_idem.
Qed.

Lemma symbol_entry_symbol (repo : Layered.IMarketDataRepository)
    (symbol_dict : gmap string Layered.Symbol) (tf : Layered.TimeFrame)
    (symbol_name : string) :
  Layered.e_symbol (Layered.symbol_entry repo symbol_dict tf symbol_name)
  = upper (strip symbol_name).
Proof.
  unfold Layered.symbol_entry.
  destruct (symbol_dict !! upper (strip symbol_name)); [ | reflexivity ].
  destruct (Layered.get_tickers_by_count repo _ tf 2); reflexivity.
Qed.

(** X26: the names a request model delivers are fixed points of the
    normalisation the use cases apply again (trim, then upper case).  For a
    validated symbol list of at most 1000 entries: when it is not empty the
    percent-change use case answers one entry per name, labelled with exactly
    the validated names in order; when it is empty, which happens when every
    submitted entry is blank, the validator has accepted the list but the use
    case raises [ValueError].  A validated symbol name is not empty, passes
    the check of the symbol-information use case and is the name the
    repository is asked for. *)
Theorem validated_names_are_normal (v out : list string) :
  Layered.validate_symbol_list v = Ok out ->
  (length v <= 1000)%nat ->
  Forall (fun s => upper (strip s) = s /\ s <> "") out
  /\ (Forall (fun s => strip s = "") v <-> out = [])
  /\ (forall (sr : Layered.ISymbolRepository) (mr : Layered.IMarketDataRepository)
        (tf : Layered.TimeFrame) (all_symbols : list Layered.Symbol),
        Layered.get_all_symbols sr = Ok all_symbols ->
        match out with
        | [] => Layered.execute sr mr out tf
                = Raise (ValueError "Symbols list cannot be empty")
        | _ => exists entries,
                 Layered.execute sr mr out tf = Ok entries
                 /\ map Layered.e_symbol entries = out
        end)
  /\ (forall (w name : string)
        (get_symbol_by_name : string -> result (option Layered.Symbol)),
        Layered.validate_symbol_name w = Ok name ->
        name <> ""
        /\ Layered.GetSymbolInfo_execute get_symbol_by_name name
           = try_except (get_symbol_by_name name)
               (fun e => Raise (RuntimeError
                                  ("Failed to retrieve symbol info for " ++ name
                                   ++ ": " ++ str_exn e)))).
Proof.
  intros Hv Hlen. unfold Layered.validate_symbol_list in Hv.
  destruct v as [|v0 v]; [ discriminate | ].
  cbn [raise_if mbind result_bind mret result_ret] in Hv.
  injection Hv as <-.
  set (keep := filter (fun s => truthy_str (strip s) = true) (v0 :: v)).
  assert (Hnorm : Forall (fun s => upper (strip s) = s /\ s <> "")
                    (map (fun s => upper (strip s)) keep)).
  { apply Forall_forall. intros s Hs.
    apply list_elem_of_fmap in Hs. destruct Hs as (s0 & -> & Hs0).
    apply list_elem_of_filter in Hs0. destruct Hs0 as [Hs0 _].
    split; [ apply normalise_idem | ].
    apply truthy_str_nonempty in Hs0. rewrite upper_empty_iff. exact Hs0. }
  assert (Hkeep : (length keep <= length (v0 :: v))%nat) by apply length_filter.
  split; [ exact Hnorm | ].
  split.
  { split.
    - intros Hall. replace keep with (@nil string); [ reflexivity | ].
      symmetry. subst keep. revert Hall. generalize (v0 :: v).
      induction 1 as [|a l Ha Hall IH]; [ reflexivity | ].
      rewrite filter_cons, decide_False; [ exact IH | ].
      rewrite Ha. discriminate.
    - intros Hnil. apply map_eq_nil in Hnil.
      apply Forall_forall. intros s Hs.
      destruct (strip s) eqn:E; [ reflexivity | exfalso ].
      assert (Hin : s ∈ keep).
      { apply list_elem_of_filter. split; [ rewrite E; reflexivity | exact Hs ]. }
      rewrite Hnil in Hin. apply elem_of_nil in Hin. exact Hin. }
  split.
  { intros sr mr tf all_symbols Hall.
    destruct (map (fun s => upper (strip s)) keep) as [|n0 names] eqn:En;
      [ reflexivity | ].
    eexists. split.
    - apply execute_batch; [ discriminate | | exact Hall ].
      rewrite <- En, length_map. lia.
    - rewrite map_map. rewrite <- (map_id (n0 :: names)) at 2.
      apply map_ext_in. intros s Hs. rewrite symbol_entry_symbol.
      rewrite Forall_forall in Hnorm. apply Hnorm. apply list_elem_of_In. exact Hs. }
  intros w name f Hw. unfold Layered.validate_symbol_name in Hw.
  destruct (negb (truthy_str w) || negb (truthy_str (strip w))) eqn:E;
    [ discriminate | ].
  cbn [raise_if mbind result_bind mret result_ret] in Hw. injection Hw as <-.
  apply blank_test_false in E.
  assert (Hne : upper (strip w) <> "") by (rewrite upper_empty_iff; exact E).
  split; [ exact Hne | ].
  unfold Layered.GetSymbolInfo_execute.
  assert (Hs : strip (upper (strip w)) <> "").
  { rewrite strip_upper. unfold strip. rewrite strip_by_idem.
    rewrite upper_empty_iff. exact E. }
  apply blank_test_false in Hs. rewrite Hs.
  cbn [raise_if mbind result_bind]. rewrite normalise_idem. reflexivity.
Qed.

(** The theorem applied to the list of one blank entry: the validator
    delivers the empty list and the use case raises. *)
Lemma validated_names_are_normal_witness :
  Layered.validate_symbol_list ["  "] = Ok []
  /\ (length ["  "] <= 1000)%nat
  /\ Layered.execute Examples.symbols_CL (Examples.market_data_of []) []
       Layered.D1
     = Raise (ValueError "Symbols list cannot be empty").
Proof.
  assert (H1 : Layered.validate_symbol_list ["  "] = Ok []) by reflexivity.
  assert (H2 : (length ["  "] <= 1000)%nat) by (cbn; lia).
  split; [ exact H1 | ]. split; [ exact H2 | ].
  destruct (validated_names_are_normal ["  "] [] H1 H2) as (_ & _ & H & _).
  exact (H Examples.symbols_CL (Examples.market_data_of []) Layered.D1
           [Examples.CL] eq_refl).
Defined.

(** ** The API keys of the two servers *)

Lemma split_empty (sep : ascii) : split sep "" = [""].
Proof. reflexivity. Qed.

Lemma monolith_API_KEYS_elem (env : Monolith.environ) (k : string) :
  k ∈ Monolith.API_KEYS env
  <-> k <> "" /\ (k = Monolith.DEFAULT_API_KEY
                  \/ k ∈ split "," (default "" (env !! "API_KEYS"))).
Proof.
  unfold Monolith.API_KEYS, Monolith.API_KEYS_nested, Monolith.getenv,
    Monolith.getenv_default.
  cbn [flat_map]. rewrite app_nil_r, elem_of_app, !list_elem_of_filter.
  rewrite truthy_str_nonempty, list_elem_of_singleton.
  destruct (env !! "API_KEYS") as [[|c s]|] eqn:E;
    cbn [truthy_opt_str truthy_str default id].
  - rewrite split_empty, list_elem_of_singleton.
    split; [ intros [[H1 H2]|[_ H]] | intros [H1 [H2|H2]] ].
    + tauto.
    + apply elem_of_nil in H. contradiction.
    + tauto.
    + contradiction.
  - tauto.
  - rewrite split_empty, list_elem_of_singleton.
    split; [ intros [[H1 H2]|[_ H]] | intros [H1 [H2|H2]] ].
    + tauto.
    + apply elem_of_nil in H. contradiction.
    + tauto.
    + contradiction.
Qed.

Lemma layered_validate_api_key_iff (env : Layered.environ) (k : string) :
  Layered.validate_api_key env k = true
  <-> k <> "" /\ (k = Monolith.DEFAULT_API_KEY
                  \/ exists k', k' ∈ split "," (default "" (env !! "API_KEYS"))
                                /\ strip k' = k).
Proof.
  unfold Layered.validate_api_key, Layered.get_api_keys.
  destruct k as [|c k]; cbn [truthy_str negb].
  { split; [ discriminate | intros [H _]; congruence ]. }
  rewrite bool_decide_eq_true, elem_of_list_to_set.
  fold Monolith.DEFAULT_API_KEY.
  destruct (default "" (env !! "API_KEYS")) as [|c' s'] eqn:E; cbn [truthy_str].
  - rewrite split_empty, list_elem_of_singleton.
    split; [ intros ->; split; [ discriminate | tauto ] | ].
    intros [_ [H|(k' & Hk' & Hs)]]; [ exact H | ].
    apply list_elem_of_singleton in Hk'. subst k'. discriminate.
  - rewrite elem_of_app, list_elem_of_singleton, list_elem_of_fmap.
    split.
    + intros [H|(k' & Hs & Hk')]; (split; [ discriminate | ]); eauto.
    + intros [_ [H|(k' & Hk' & Hs)]]; eauto.
Qed.

(** X27: the keys the two servers accept, for one environment.  The
    monolith accepts a key when it is not empty and is the built-in key or
    one of the comma-separated pieces of [API_KEYS] as written; the layered
    server accepts a key when it is not empty and is the built-in key or one
    of the pieces with the white space at its ends removed.  So the built-in
    key is accepted by both whatever the environment, the empty key by
    neither, and a key of the monolith without white space at its ends is
    also a key of the layered server; with [API_KEYS] set to "k1, k2" the
    layered server accepts "k2" and the monolith only " k2".  The layered
    server grants no permission exactly to the keys it rejects. *)
Theorem api_keys_of_both_servers (env : gmap string string) (k : string) :
  let pieces := split "," (default "" (env !! "API_KEYS")) in
  (k ∈ Monolith.API_KEYS env
   <-> k <> "" /\ (k = Monolith.DEFAULT_API_KEY \/ k ∈ pieces))
  /\ (Layered.validate_api_key env k = true
      <-> k <> "" /\ (k = Monolith.DEFAULT_API_KEY
                      \/ exists k', k' ∈ pieces /\ strip k' = k))
  /\ (k ∈ Monolith.API_KEYS env -> strip k = k ->
      Layered.validate_api_key env k = true)
  /\ Monolith.DEFAULT_API_KEY ∈ Monolith.API_KEYS env
  /\ Layered.validate_api_key env Monolith.DEFAULT_API_KEY = true
  /\ ("" ∉ Monolith.API_KEYS env)
  /\ Layered.validate_api_key env "" = false
  /\ (Layered.get_user_permissions env k = []
      <-> Layered.validate_api_key env k = false)
  /\ (Layered.validate_api_key {[ "API_KEYS" := "k1, k2" ]} "k2" = true
      /\ ("k2" ∉ Monolith.API_KEYS {[ "API_KEYS" := "k1, k2" ]})
      /\ " k2" ∈ Monolith.API_KEYS {[ "API_KEYS" := "k1, k2" ]}).
Proof.
  intros pieces. subst pieces.
  split; [ apply monolith_API_KEYS_elem | ].
  split; [ apply layered_validate_api_key_iff | ].
  split.
  { intros Hk Hs. apply layered_validate_api_key_iff.
    apply monolith_API_KEYS_elem in Hk. destruct Hk as [Hne [Hd|Hp]].
    - split; [ exact Hne | left; exact Hd ].
    - split; [ exact Hne | right; eauto ]. }
  split.
  { apply monolith_API_KEYS_elem. split; [ discriminate | left; reflexivity ]. }
  split.
  { apply layered_validate_api_key_iff. split; [ discriminate | left; reflexivity ]. }
  split.
  { intros H. apply monolith_API_KEYS_elem in H. destruct H as [H _]. congruence. }
  split; [ reflexivity | ].
  split.
  { unfold Layered.get_user_permissions.
    destruct (Layered.validate_api_key env k); cbn [negb];
      split; congruence. }
  split; [ reflexivity | ].
  split.
  - intros H. apply monolith_API_KEYS_elem in H.
    destruct H as [_ [H|H]]; [ discriminate | ].
    change ("k2" ∈ ["k1"; " k2"]) in H.
    repeat (apply elem_of_cons in H; destruct H as [H|H]; [ discriminate | ]).
    apply elem_of_nil in H. exact H.
  - apply monolith_API_KEYS_elem. split; [ discriminate | right ].
    change (" k2" ∈ ["k1"; " k2"]). rewrite !elem_of_cons. right. left. reflexivity.
Qed.

(** ** The authentication middlewares on arbitrary paths *)

Lemma startswith_no_slash (path endpoint : string) :
  startswith path "/" = false ->
  startswith path (String "/" endpoint) = false.
Proof.
  unfold startswith. destruct path as [|c path]; [ reflexivity | ].
  cbn [String.prefix]. destruct (ascii_dec "/" c) as [<-|Hc]; [ | reflexivity ].
  destruct path; discriminate.
Qed.

Lemma layered_not_public (path : string) :
  startswith path "/" = false ->
  any (fun endpoint => startswith path endpoint) Layered._public_endpoints = false.
Proof.
  intros H. unfold any, Layered._public_endpoints. cbn [existsb].
  rewrite !(startswith_no_slash path _ H), ?H. reflexivity.
Qed.

(** X28: both authentication middlewares hand every request whose path
    begins with a slash to the route as it is, whatever the configured keys
    and whatever the headers: no key is looked at, no 401 is produced and no
    header is added.  The key check of the layered middleware concerns only
    paths that do not begin with a slash: there, a request without key gets
    401 MISSING_API_KEY, a request whose key (the header AcessKey when it is
    not empty, else Authorization, without a leading "Bearer ") is not valid
    gets 401 INVALID_API_KEY, and a request with a valid key reaches the
    route with the six permissions and the key stored in its state, the
    answer carrying the header X-Process-Time. *)
Theorem authentication_skipped_for_slash_paths
    (env : gmap string string) (keys : list string)
    (call_next : Monolith.Request -> Monolith.Response)
    (call_next' : Layered.Request -> Layered.Response)
    (process_time : string) (request : Monolith.Request)
    (request' : Layered.Request) :
  (startswith (Monolith.url_path request) "/" = true ->
   Monolith.auth_middleware keys call_next process_time request
   = call_next request)
  /\ (startswith (Layered.url_path request') "/" = true ->
      Layered.dispatch env call_next' process_time request'
      = call_next' request')
  /\ (startswith (Layered.url_path request') "/" = false ->
      let api_key :=
        or_opt_str (Layered.headers_get request' "AcessKey")
                   (Layered.headers_get request' "Authorization") in
      let key := default "" api_key in
      let key := if startswith key "Bearer " then Layered.drop7 key else key in
      let response := Layered.dispatch env call_next' process_time request' in
      (truthy_opt_str api_key = false ->
       Layered.status_code response = 401
       /\ Layered.content response
          = [("detail", VStr "API key required");
             ("error_code", VStr "MISSING_API_KEY")])
      /\ (truthy_opt_str api_key = true ->
          Layered.validate_api_key env key = false ->
          Layered.status_code response = 401
          /\ Layered.content response
             = [("detail", VStr "Invalid API key");
                ("error_code", VStr "INVALID_API_KEY")])
      /\ (truthy_opt_str api_key = true ->
          Layered.validate_api_key env key = true ->
          exists enriched,
            response
            = Layered.set_header (call_next' enriched) "X-Process-Time"
                process_time
            /\ Layered.url_path enriched = Layered.url_path request'
            /\ Layered.headers enriched = Layered.headers request'
            /\ Layered.state_api_key enriched = Some key
            /\ Layered.state_user_permissions enriched
               = Some ["read:symbols"; "read:market_data"; "read:account";
                       "trade:open_position"; "trade:close_position";
                       "trade:modify_position"])).
Proof.
  split; [ | split ].
  - intros Hp. destruct request as [path hs]. cbn [Monolith.url_path] in Hp.
    destruct path as [|c path]; [ discriminate | ].
    unfold startswith in Hp. cbn [String.prefix] in Hp.
    destruct (ascii_dec "/" c) as [<-|Hc]; [ | discriminate ].
    unfold Monolith.auth_middleware. rewrite monolith_slash_is_public.
    reflexivity.
  - intros Hp. unfold Layered.dispatch, any, Layered._public_endpoints.
    cbn [existsb]. rewrite Hp, !orb_true_r. reflexivity.
  - intros Hp api_key key key0 response. subst response key0 key api_key.
    unfold Layered.dispatch. rewrite (layered_not_public _ Hp).
    set (api_key := or_opt_str (Layered.headers_get request' "AcessKey")
                               (Layered.headers_get request' "Authorization")).
    split; [ | split ].
    + intros Hk. rewrite Hk. split; reflexivity.
    + intros Hk Hv. rewrite Hk. cbn [negb]. rewrite Hv. split; reflexivity.
    + intros Hk Hv. rewrite Hk. cbn [negb]. rewrite Hv. cbn [negb].
      eexists. split; [ reflexivity | ].
      cbn [Layered.url_path Layered.headers Layered.state_api_key
           Layered.state_user_permissions].
      repeat (split; [ reflexivity | ]).
      unfold Layered.get_user_permissions. rewrite Hv. reflexivity.
Qed.

(** The theorem applied to the route [/api/v1/trading/open-position]
    requested without any key: the answer of the route is returned. *)
Lemma authentication_skipped_for_slash_paths_witness :
  startswith "/api/v1/trading/open-position" "/" = true
  /\ Layered.dispatch ∅ (fun _ => Layered.JSONResponse 200 [("ok", VBool true)])
       "0.0"
       {| Layered.url_path := "/api/v1/trading/open-position";
          Layered.headers := ∅; Layered.state_user_permissions := None;
          Layered.state_api_key := None |}
     = Layered.JSONResponse 200 [("ok", VBool true)].
Proof.
  assert (H : startswith "/api/v1/trading/open-position" "/" = true)
    by reflexivity.
  split; [ exact H | ].
  exact (proj1 (proj2 (authentication_skipped_for_slash_paths ∅ []
                         (fun _ => Monolith.JSONResponse 200 [])
                         (fun _ => Layered.JSONResponse 200 [("ok", VBool true)])
                         "0.0"
                         {| Monolith.url_path := "/"; Monolith.headers := ∅ |}
                         {| Layered.url_path := "/api/v1/trading/open-position";
                            Layered.headers := ∅;
                            Layered.state_user_permissions := None;
                            Layered.state_api_key := None |})) H).
Defined.

(* ===================================================================== *)
(** * The candle helper of the monolith *)
(* ===================================================================== *)

Lemma monolith_simulated_tickers (g : Monolith.globals) (mt5 : Monolith.mt5_module)
    (sym : string) (tf count : Z) :
  Monolith.MT5_AVAILABLE g = false \/ Monolith.mt5_connected g = false ->
  Monolith.get_tickers_by_count g mt5 sym tf count = [Monolith.simulated_candle].
Proof.
  intros H. unfold Monolith.get_tickers_by_count.
  destruct H as [-> | ->]; [ reflexivity | ].
  rewrite orb_true_r. reflexivity.
Qed.

(** X29: without terminal (the package is missing or the connection was
    not established) the monolith answers every candle request, whatever the
    symbol, the timeframe and the count, with the same single simulated
    candle; the percent-change answer then holds, for every requested symbol
    in order, the change 0 and no error, since one candle is not enough to
    compute a change. *)
Theorem monolith_simulation_mode (g : Monolith.globals)
    (mt5 : Monolith.mt5_module) (request : Monolith.SymbolsPctChangeRequest) :
  Monolith.MT5_AVAILABLE g = false \/ Monolith.mt5_connected g = false ->
  (forall sym tf count,
     Monolith.get_tickers_by_count g mt5 sym tf count
     = [Monolith.simulated_candle])
  /\ Monolith.symbols (Monolith.get_symbols_pct_change g mt5 request)
     = map (fun sym => {| Monolith.symbol := sym; Monolith.pct_change := 0%Qc;
                          Monolith.error := None |})
           (Monolith.actives request)
  /\ Monolith.count (Monolith.get_symbols_pct_change g mt5 request)
     = length (Monolith.actives request).
Proof.
  intros H.
  split; [ intros; apply monolith_simulated_tickers; exact H | ].
  unfold Monolith.get_symbols_pct_change.
  cbn [Monolith.symbols Monolith.count].
  rewrite foldl_snoc_map. cbn [app]. rewrite length_map.
  split; [ | reflexivity ].
  apply map_ext. intros sym. rewrite monolith_simulated_tickers by exact H.
  unfold Monolith.symbol_pct_change. f_equal.
  apply (proj2 (proj2 (monolith_pct_change_of_cases [Monolith.simulated_candle]))).
  cbn. lia.
Qed.

(** The theorem applied to the monolith without the package and a
    request for two symbols. *)
Lemma monolith_simulation_mode_witness :
  (Monolith.MT5_AVAILABLE Examples.simulation = false
   \/ Monolith.mt5_connected Examples.simulation = false)
  /\ Monolith.symbols
       (Monolith.get_symbols_pct_change Examples.simulation
          Examples.failing_terminal
          {| Monolith.actives := ["PETR4"; "VALE3"]; Monolith.timeframe := 16408 |})
     = [ {| Monolith.symbol := "PETR4"; Monolith.pct_change := 0%Qc;
            Monolith.error := None |};
         {| Monolith.symbol := "VALE3"; Monolith.pct_change := 0%Qc;
            Monolith.error := None |} ].
Proof.
  assert (H : Monolith.MT5_AVAILABLE Examples.simulation = false
              \/ Monolith.mt5_connected Examples.simulation = false)
    by (left; reflexivity).
  split; [ exact H | ].
  exact (proj1 (proj2 (monolith_simulation_mode Examples.simulation
                         Examples.failing_terminal
                         {| Monolith.actives := ["PETR4"; "VALE3"];
                            Monolith.timeframe := 16408 |} H))).
Defined.

Lemma timeframe_map_lookup_None (mt5 : Monolith.mt5_module) (tf : Z) :
  Monolith.timeframe_map mt5 !! tf = None <-> tf ∉ monolith_timeframes.
Proof.
  unfold Monolith.timeframe_map, monolith_timeframes.
  rewrite !lookup_insert_None, lookup_empty, !not_elem_of_cons.
  split.
  - intros (((((((_ & H1) & H2) & H3) & H4) & H5) & H6) & H7).
    repeat (split; [ congruence | ]). apply not_elem_of_nil.
  - intros (H1 & H2 & H3 & H4 & H5 & H6 & H7 & _).
    repeat split; congruence.
Qed.

Lemma map_result_Forall2 {A B} (f : A -> result B) (l : list A) (l' : list B) :
  Forall2 (fun a b => f a = Ok b) l l' -> map_result f l = Ok l'.
Proof.
  induction 1 as [|a b l l' Hab _ IH]; [ reflexivity | ].
  cbn [map_result]. rewrite Hab, IH. reflexivity.
Qed.

Lemma map_result_Exists {A B} (f : A -> result B) (l : list A) :
  Exists (fun a => is_ok (f a) = false) l ->
  exists e, map_result f l = Raise e.
Proof.
  induction 1 as [a l Ha|a l _ IH]; cbn [map_result].
  - destruct (f a) as [b|e]; [ discriminate Ha | eauto ].
  - destruct IH as [e ->]. destruct (f a) as [b|e']; eauto.
Qed.

Lemma candle_of_rate_cases (mt5 : Monolith.mt5_module) (r : Monolith.rate) :
  Monolith.candle_of_rate mt5 r
  = match Monolith.strftime mt5 (Monolith.rate_0 r) with
    | Ok time => Ok (rate_candle time r)
    | Raise e => Raise e
    end.
Proof.
  unfold Monolith.candle_of_rate.
  destruct (Monolith.strftime mt5 (Monolith.rate_0 r)); reflexivity.
Qed.

(** X30: the candle helper of the monolith knows the seven timeframes 1,
    5, 15, 30, 16385, 16388 and 16408; a request with any other timeframe is
    answered as the request with timeframe 1 (one-minute candles), without
    error.  This includes the weekly and the monthly timeframe, 32769 and
    49153, which the request models of the layered server accept.  With a
    connected terminal that answers rows: when the time of every row can be
    rendered, the rows are converted one by one, in order and without any
    check of the prices; when the time of one row cannot be rendered, the
    exception is swallowed and the helper returns the empty list. *)
Theorem monolith_timeframe_fallback (g : Monolith.globals)
    (mt5 : Monolith.mt5_module) (sym : string) (tf count : Z) :
  (Monolith.timeframe_map mt5 !! tf = None <-> tf ∉ monolith_timeframes)
  /\ (tf ∉ monolith_timeframes ->
      Monolith.get_tickers_by_count g mt5 sym tf count
      = Monolith.get_tickers_by_count g mt5 sym 1 count)
  /\ (Layered.validate_timeframe 32769 = Ok 32769
      /\ (32769 ∉ monolith_timeframes)
      /\ Layered.validate_timeframe 49153 = Ok 49153
      /\ (49153 ∉ monolith_timeframes))
  /\ (Monolith.MT5_AVAILABLE g = true -> Monolith.mt5_connected g = true ->
      forall rates,
        Monolith.copy_rates_from_pos mt5 sym
          (default (Monolith.TIMEFRAME_M1 mt5) (Monolith.timeframe_map mt5 !! tf))
          0 count = Ok (Some rates) ->
        (forall times,
           Forall2 (fun r time => Monolith.strftime mt5 (Monolith.rate_0 r) = Ok time)
             rates times ->
           Monolith.get_tickers_by_count g mt5 sym tf count
           = zip_with rate_candle times rates)
        /\ (Exists (fun r => is_ok (Monolith.strftime mt5 (Monolith.rate_0 r)) = false)
              rates ->
            Monolith.get_tickers_by_count g mt5 sym tf count = [])).
Proof.
  split; [ apply timeframe_map_lookup_None | ].
  split.
  { intros Htf. apply (proj2 (timeframe_map_lookup_None mt5 tf)) in Htf.
    unfold Monolith.get_tickers_by_count. rewrite Htf.
    assert (H1 : Monolith.timeframe_map mt5 !! 1 = Some (Monolith.TIMEFRAME_M1 mt5)).
    { unfold Monolith.timeframe_map. apply lookup_insert_eq. }
    rewrite H1. reflexivity. }
  split.
  { split; [ reflexivity | ]. split.
    - apply (timeframe_map_lookup_None Examples.failing_terminal). reflexivity.
    - split; [ reflexivity | ].
      apply (timeframe_map_lookup_None Examples.failing_terminal). reflexivity. }
  intros Ha Hc rates Hr. unfold Monolith.get_tickers_by_count.
  rewrite Ha, Hc. cbn [negb orb]. rewrite Hr.
  split.
  - intros times Ht.
    assert (Hm : map_result (Monolith.candle_of_rate mt5) rates
                 = Ok (zip_with rate_candle times rates)).
    { apply map_result_Forall2. clear Hr.
      induction Ht as [|r time rates times Hrt _ IH]; [ constructor | ].
      cbn [zip_with]. constructor; [ | exact IH ].
      rewrite candle_of_rate_cases, Hrt. reflexivity. }
    rewrite Hm. destruct Ht; reflexivity.
  - intros He.
    destruct (map_result_Exists (Monolith.candle_of_rate mt5) rates) as [e ->].
    + clear Hr. induction He as [r l Hx|r l _ IH]; [ left | right; exact IH ].
      rewrite candle_of_rate_cases.
      destruct (Monolith.strftime mt5 (Monolith.rate_0 r)); [ discriminate Hx | reflexivity ].
    + destruct (0 <? length rates)%nat; reflexivity.
Qed.

(** The theorem applied to a request for weekly candles: the terminal is
    queried with the constant of the one-minute timeframe. *)
Lemma monolith_timeframe_fallback_witness :
  (32769 ∉ monolith_timeframes)
  /\ map Monolith.c_time
       (Monolith.get_tickers_by_count Examples.connected Examples.echo_terminal
          "PETR4" 32769 10)
     = ["1"].
Proof.
  pose proof (monolith_timeframe_fallback Examples.connected
                Examples.echo_terminal "PETR4" 32769 10)
    as (_ & H & (_ & Hw & _) & _).
  split; [ exact Hw | ].
  rewrite (H Hw). reflexivity.
Defined.
